(** * study-scheduler: the timer state machine, the goals and streak
      calculator, the calendar export and the study-plan generator

    A shallow embedding of the TypeScript sources and the properties the
    specification states about them.

    Conventions of the embedding.
    - A JavaScript [Date] is its time value: milliseconds since the epoch,
      an integer ([Z]).  [new Date(s.startTime)] is the time value the
      stored ISO string denotes, so a session carries that integer.
    - Local time is UTC shifted by a constant [utcOffset] (milliseconds east
      of UTC): the zone has no daylight-saving rule.
    - Counters that the code only ever increments from 0 are [nat];
      durations and seconds are [Z]. *)

From Stdlib Require Import ZArith List String Ascii Bool Lia QArith Qround Sorted.
From Stdlib Require Decimal DecimalString DecimalZ DecimalNat DecimalPos.
Import ListNotations.
Local Open Scope Z_scope.

(* ===================================================================== *)
(** ** Dates *)
(* ===================================================================== *)

Module DateModel.

Definition msPerDay : Z := 86400000.

(** Local time as UTC plus a constant offset.  Where the offset of the
    host's zone changes, the functions of [TimeZone] below apply. *)
Section Zone.
Variable utcOffset : Z.

(** Number of the local calendar day that contains [t] (day 0 is
    1970-01-01 local). *)
Definition localDay (t : Z) : Z := (t + utcOffset) / msPerDay.

(** [d.setHours(0, 0, 0, 0); d.getTime()]: local midnight of [t]'s day. *)
Definition setHours0 (t : Z) : Z := localDay t * msPerDay - utcOffset.

(** [d.getDay()]: 0 is Sunday; 1970-01-01 was a Thursday. *)
Definition getDay (t : Z) : Z := (localDay t + 4) mod 7.

(** [d.setDate(d.getDate() - k)]: the same local time, [k] days earlier. *)
Definition setDateBack (t k : Z) : Z := t - k * msPerDay.

(** [a.toDateString() === b.toDateString()]: same local calendar day. *)
Definition sameDateString (a b : Z) : bool := localDay a =? localDay b.
End Zone.

End DateModel.

(* ===================================================================== *)
(** ** The session record *)
(* ===================================================================== *)

Module Session.

Inductive Difficulty : Type := easy | medium | hard.

(** [interface StudySession].  Every source file declares it again; the
    calendar export's declaration, with the two optional fields, is the
    widest one, and the same objects flow through all of them. *)
Record StudySession : Type := {
  id : string;
  subject : string;
  topic : string;
  duration : Z;                    (* minutes *)
  startTime : Z;                   (* time value of the stored date string *)
  completed : bool;
  difficulty : Difficulty;
  description : option string;
  goals : option (list string)
}.

End Session.

(* ===================================================================== *)
(** ** JavaScript numbers, as far as the percentage code needs them *)
(* ===================================================================== *)

Module JsNumber.

(** The value of an arithmetic expression.  Finite values are kept as exact
    rationals; the three non-finite values are the IEEE-754 ones, which is
    where division by zero lands. *)
Inductive jsnum : Type :=
| Fin (q : Q)
| PosInfinity
| NegInfinity
| NaN.

(** [a / b] for integer operands. *)
Definition div (a b : Z) : jsnum :=
  if b =? 0 then
    if a =? 0 then NaN
    else if 0 <? a then PosInfinity else NegInfinity
  else Fin (Qred (Qdiv (inject_Z a) (inject_Z b))).

(** [x * 100]. *)
Definition times100 (x : jsnum) : jsnum :=
  match x with
  | Fin q => Fin (Qred (q * inject_Z 100))
  | PosInfinity => PosInfinity
  | NegInfinity => NegInfinity
  | NaN => NaN
  end.

(** [Math.round(x)]: nearest integer, ties towards +Infinity; the
    non-finite values are returned unchanged. *)
Definition round (x : jsnum) : jsnum :=
  match x with
  | Fin q => Fin (inject_Z (Qfloor (q + (1 # 2))))
  | other => other
  end.

(** [Number.isFinite(x)]. *)
Definition isFinite (x : jsnum) : bool :=
  match x with
  | Fin _ => true
  | _ => false
  end.

End JsNumber.

(* ===================================================================== *)
(** ** GoalsAndStreaks: streaks and progress *)
(* ===================================================================== *)

Module GoalsAndStreaks.
Import DateModel JsNumber Session.

Record Goals : Type := {
  dailyMinutes : Z;
  weeklyMinutes : Z;
  weeklySessions : Z
}.

Record Progress : Type := { current : Z; target : Z }.

(** [[...new Set(l)]]: the distinct values of [l], each at its first
    occurrence. *)
Fixpoint setOf (l : list Z) : list Z :=
  match l with
  | [] => []
  | x :: rest => x :: filter (fun y => negb (y =? x)) (setOf rest)
  end.

(** [l.sort(cmp)] with a numeric comparator: [x] goes before the first
    element it does not compare greater than. *)
Fixpoint insertBy (cmp : Z -> Z -> Z) (x : Z) (l : list Z) : list Z :=
  match l with
  | [] => [x]
  | y :: rest => if cmp x y <=? 0 then x :: y :: rest
                 else y :: insertBy cmp x rest
  end.

Definition sortBy (cmp : Z -> Z -> Z) (l : list Z) : list Z :=
  fold_right (insertBy cmp) [] l.

Section Calculator.
Variable utcOffset : Z.
Variable sessions : list StudySession.
Variable goals : Goals.

(** The completed sessions' start dates, time of day discarded. *)
Definition completedDates : list Z :=
  setOf (map (fun s => setHours0 utcOffset (startTime s))
             (filter completed sessions)).

(** The [for (const date of completedDates)] loop of [calculateStreak]. *)
Fixpoint streakLoop (dates : list Z) (checkDate : Z) (streak : nat) : nat :=
  match dates with
  | [] => streak
  | date :: rest =>
      if (date =? checkDate) || (date =? checkDate - 86400000)
      then streakLoop rest (date - 86400000) (S streak)
      else streak
  end.

Definition calculateStreak (now : Z) : nat :=
  let today := setHours0 utcOffset now in
  let dates := sortBy (fun a b => b - a) completedDates in
  if (List.length dates =? 0)%nat then 0%nat
  else streakLoop dates today 0.

(** The [for (let i = 1; ...)] loop of [calculateLongestStreak]; [prev]
    is [completedDates[i - 1]]. *)
Fixpoint longestLoop (prev : Z) (rest : list Z)
         (currentStreak maxStreak : nat) : nat :=
  match rest with
  | [] => maxStreak
  | date :: rest' =>
      if date =? prev + 86400000
      then longestLoop date rest' (S currentStreak)
                       (Nat.max maxStreak (S currentStreak))
      else longestLoop date rest' 1 maxStreak
  end.

Definition calculateLongestStreak : nat :=
  match sortBy (fun a b => a - b) completedDates with
  | [] => 0%nat
  | first :: rest => longestLoop first rest 1 1
  end.

Definition sumDuration (l : list StudySession) : Z :=
  fold_left (fun acc s => acc + duration s) l 0.

Definition getTodayProgress (now : Z) : Progress :=
  let todayMinutes :=
    sumDuration
      (filter (fun s => completed s
                        && sameDateString utcOffset (startTime s) now)
              sessions) in
  {| current := todayMinutes; target := dailyMinutes goals |}.

Definition startOfWeek (now : Z) : Z :=
  setHours0 utcOffset (setDateBack now (getDay utcOffset now)).

Definition weekSessions (now : Z) : list StudySession :=
  filter (fun s => completed s && (startOfWeek now <=? startTime s))
         sessions.

Definition getWeekProgress (now : Z) : Progress * Progress :=
  let minutes := sumDuration (weekSessions now) in
  let sessionCount := Z.of_nat (List.length (weekSessions now)) in
  ({| current := minutes; target := weeklyMinutes goals |},
   {| current := sessionCount; target := weeklySessions goals |}).

(** The percentages the component renders. *)
Definition progressValue (p : Progress) : jsnum :=
  times100 (div (current p) (target p)).

Definition percentLabel (p : Progress) : jsnum :=
  round (progressValue p).

(** Compact card: [Math.round((todayProgress.current /
    todayProgress.target) * 100)]. *)
Definition dailyGoalPercent (now : Z) : jsnum :=
  percentLabel (getTodayProgress now).

(** Full view: the [Progress] bar values and the rounded labels. *)
Definition todayBarValue (now : Z) : jsnum :=
  progressValue (getTodayProgress now).
Definition weekMinutesBarValue (now : Z) : jsnum :=
  progressValue (fst (getWeekProgress now)).
Definition weekMinutesPercent (now : Z) : jsnum :=
  percentLabel (fst (getWeekProgress now)).
Definition weekSessionsBarValue (now : Z) : jsnum :=
  progressValue (snd (getWeekProgress now)).
Definition weekSessionsPercent (now : Z) : jsnum :=
  percentLabel (snd (getWeekProgress now)).
End Calculator.

End GoalsAndStreaks.

(* ===================================================================== *)
(** ** StudyTimer: the countdown state machine *)
(* ===================================================================== *)

Module StudyTimer.
Import Session.

Inductive TimerMode : Type := study | break.
Inductive TimerState : Type := idle | running | paused | completed.
Inductive TimerType : Type := custom | pomodoro.

(** The six [useState] cells of the component. *)
Record Timer : Type := {
  timerType : TimerType;
  mode : TimerMode;
  state : TimerState;
  timeLeft : Z;
  totalTime : Z;
  pomodoroCount : nat
}.

(** Calls of the two callbacks the host passes in. *)
Inductive Effect : Type :=
| OnComplete (sessionId : string)
| OnClose.

Definition TimerState_eqb (a b : TimerState) : bool :=
  match a, b with
  | idle, idle | running, running | paused, paused
  | completed, completed => true
  | _, _ => false
  end.

Definition TimerMode_eqb (a b : TimerMode) : bool :=
  match a, b with
  | study, study | break, break => true
  | _, _ => false
  end.

Definition pomodoroStudyDuration : Z := 25 * 60.

(** [breakDuration], recomputed on every render from the current
    [pomodoroCount]. *)
Definition breakDuration (t : Timer) : Z :=
  if (0 <? pomodoroCount t)%nat && ((pomodoroCount t + 1) mod 4 =? 0)%nat
  then 15 * 60 else 5 * 60.

Section Component.
Variable session : StudySession.

Definition initial : Timer :=
  {| timerType := custom; mode := study; state := idle;
     timeLeft := duration session * 60;
     totalTime := duration session * 60;
     pomodoroCount := 0 |}.

(** [timerType === 'pomodoro' ? pomodoroStudyDuration
                              : session.duration * 60]. *)
Definition studyTimeOf (ty : TimerType) : Z :=
  match ty with
  | pomodoro => pomodoroStudyDuration
  | custom => duration session * 60
  end.

(** The effect arms the interval only in this case. *)
Definition intervalArmed (t : Timer) : bool :=
  TimerState_eqb (state t) running && (0 <? timeLeft t).

(** One firing of the interval: the updater passed to [setTimeLeft].

    When a break expires the updater both calls
    [setTimeLeft(studyTime)] and returns [0].  Which of the two writes
    React applies last depends on how it schedules the updater, so the
    firing takes that as [updaterLast]: [true] when the returned [0] is
    applied after the nested call, [false] when the nested call is. *)
Definition tick (updaterLast : bool) (t : Timer) : Timer :=
  if intervalArmed t then
    if timeLeft t <=? 1 then
      match mode t with
      | study =>
          {| timerType := timerType t; mode := mode t; state := completed;
             timeLeft := 0; totalTime := totalTime t;
             pomodoroCount := pomodoroCount t |}
      | break =>
          {| timerType := timerType t; mode := study; state := idle;
             timeLeft := if updaterLast then 0
                         else studyTimeOf (timerType t);
             totalTime := studyTimeOf (timerType t);
             pomodoroCount := pomodoroCount t |}
      end
    else
      {| timerType := timerType t; mode := mode t; state := state t;
         timeLeft := timeLeft t - 1; totalTime := totalTime t;
         pomodoroCount := pomodoroCount t |}
  else t.

Definition handleStart (t : Timer) : Timer :=
  {| timerType := timerType t; mode := mode t; state := running;
     timeLeft := timeLeft t; totalTime := totalTime t;
     pomodoroCount := pomodoroCount t |}.

Definition handlePause (t : Timer) : Timer :=
  {| timerType := timerType t; mode := mode t; state := paused;
     timeLeft := timeLeft t; totalTime := totalTime t;
     pomodoroCount := pomodoroCount t |}.

Definition handleReset (t : Timer) : Timer :=
  match mode t with
  | study =>
      let studyTime := studyTimeOf (timerType t) in
      {| timerType := timerType t; mode := mode t; state := idle;
         timeLeft := studyTime; totalTime := studyTime;
         pomodoroCount := pomodoroCount t |}
  | break =>
      {| timerType := timerType t; mode := mode t; state := idle;
         timeLeft := breakDuration t; totalTime := breakDuration t;
         pomodoroCount := pomodoroCount t |}
  end.

Definition handleStop (t : Timer) : Timer :=
  let studyTime := studyTimeOf (timerType t) in
  {| timerType := timerType t; mode := study; state := idle;
     timeLeft := studyTime; totalTime := studyTime;
     pomodoroCount := pomodoroCount t |}.

Definition handleTimerTypeChange (type : TimerType) (t : Timer) : Timer :=
  if negb (TimerState_eqb (state t) idle) then t
  else
    {| timerType := type; mode := mode t; state := state t;
       timeLeft := studyTimeOf type; totalTime := studyTimeOf type;
       pomodoroCount := 0 |}.

Definition handleComplete : list Effect :=
  [OnComplete (id session); OnClose].

Definition startBreak (t : Timer) : Timer :=
  {| timerType := timerType t; mode := break; state := running;
     timeLeft := breakDuration t; totalTime := breakDuration t;
     pomodoroCount := S (pomodoroCount t) |}.

Definition skipBreak (t : Timer) : Timer :=
  let studyTime := studyTimeOf (timerType t) in
  {| timerType := timerType t; mode := study; state := idle;
     timeLeft := studyTime; totalTime := studyTime;
     pomodoroCount := pomodoroCount t |}.

(** What can happen to a mounted timer: an interval firing or a click on
    one of the rendered controls. *)
Inductive Event : Type :=
| Tick (updaterLast : bool)
| Start
| Pause
| Reset
| Stop
| SelectType (type : TimerType)
| StartBreak
| SkipBreak
| MarkComplete
| CloseTimer.

(** The JSX conditions under which each control is rendered (and the
    interval armed). *)
Definition enabled (e : Event) (t : Timer) : bool :=
  match e with
  | Tick _ => intervalArmed t
  | Start => TimerState_eqb (state t) idle
             || TimerState_eqb (state t) paused
  | Pause => TimerState_eqb (state t) running
  | Reset => TimerState_eqb (state t) paused
  | Stop => TimerState_eqb (state t) running
            || TimerState_eqb (state t) paused
  | SelectType _ => TimerMode_eqb (mode t) study
                    && TimerState_eqb (state t) idle
  | StartBreak | SkipBreak | MarkComplete =>
      TimerState_eqb (state t) completed && TimerMode_eqb (mode t) study
  | CloseTimer => true
  end.

(** The handler bound to each event: the next state and the callbacks it
    invokes. *)
Definition step (e : Event) (t : Timer) : Timer * list Effect :=
  match e with
  | Tick b => (tick b t, [])
  | Start => (handleStart t, [])
  | Pause => (handlePause t, [])
  | Reset => (handleReset t, [])
  | Stop => (handleStop t, [])
  | SelectType ty => (handleTimerTypeChange ty t, [])
  | StartBreak => (startBreak t, [])
  | SkipBreak => (skipBreak t, [])
  | MarkComplete => (t, handleComplete)
  | CloseTimer => (t, [OnClose])
  end.

(** A run: the events in order, with the callbacks collected. *)
Fixpoint run (es : list Event) (t : Timer) : Timer * list Effect :=
  match es with
  | [] => (t, [])
  | e :: rest =>
      let '(t1, out1) := step e t in
      let '(t2, out2) := run rest t1 in
      (t2, out1 ++ out2)
  end.

(** [0 <= timeLeft <= totalTime]. *)
Definition inRange (t : Timer) : Prop :=
  0 <= timeLeft t <= totalTime t.

(** Full duration for a mode under the current type and count. *)
Definition durationFor (t : Timer) : Z :=
  match mode t with
  | study => studyTimeOf (timerType t)
  | break => breakDuration t
  end.
End Component.

End StudyTimer.

(* ===================================================================== *)
(** ** Strings *)
(* ===================================================================== *)

Module JsString.
Local Open Scope string_scope.
Local Open Scope Z_scope.

Definition newline : string := String (ascii_of_nat 10) EmptyString.
Definition backslash : ascii := ascii_of_nat 92.

(** [parts.join(sep)]. *)
Definition join (sep : string) (parts : list string) : string :=
  String.concat sep parts.

(** [s.replace(/c/g, by)] for a one-character pattern. *)
Fixpoint replaceChar (c : ascii) (by_ : string) (s : string) : string :=
  match s with
  | EmptyString => EmptyString
  | String a rest =>
      if Ascii.eqb a c then by_ ++ replaceChar c by_ rest
      else String a (replaceChar c by_ rest)
  end.

(** [s.replace(/[-:]/g, '')]. *)
Fixpoint dropDashColon (s : string) : string :=
  match s with
  | EmptyString => EmptyString
  | String a rest =>
      if Ascii.eqb a "-"%char || Ascii.eqb a ":"%char
      then dropDashColon rest
      else String a (dropDashColon rest)
  end.

(** [s.split('.')[0]]: the text before the first dot. *)
Fixpoint beforeDot (s : string) : string :=
  match s with
  | EmptyString => EmptyString
  | String a rest =>
      if Ascii.eqb a "."%char then EmptyString
      else String a (beforeDot rest)
  end.

(** [hay.includes(needle)]. *)
Fixpoint includes (hay needle : string) : bool :=
  String.prefix needle hay
  || match hay with
     | EmptyString => false
     | String _ rest => includes rest needle
     end.

(** [s.toLowerCase()] on ASCII letters; other characters are kept. *)
Definition lowerChar (a : ascii) : ascii :=
  let n := nat_of_ascii a in
  if (65 <=? n)%nat && (n <=? 90)%nat then ascii_of_nat (n + 32) else a.

Fixpoint toLowerCase (s : string) : string :=
  match s with
  | EmptyString => EmptyString
  | String a rest => String (lowerChar a) (toLowerCase rest)
  end.

(** The last [width] decimal digits of [n], zero padded
    ([String(n).padStart(width, '0')] when [n] has at most [width]
    digits). *)
Fixpoint padDigits (width : nat) (n : Z) : string :=
  match width with
  | O => EmptyString
  | S w =>
      padDigits w (n / 10)
      ++ String (ascii_of_nat (48 + Z.to_nat (n mod 10))) EmptyString
  end.

End JsString.

(* ===================================================================== *)
(** ** calendarExport: the .ics text *)
(* ===================================================================== *)

Module CalendarExport.
Import Session JsString DateModel.
Local Open Scope string_scope.
Local Open Scope Z_scope.

(** The UTC calendar fields of a time value. *)
Record UtcFields : Type := {
  year : Z; month : Z; dayOfMonth : Z;
  hours : Z; minutes : Z; seconds : Z; millis : Z
}.

(** Gregorian date of a day number (days since 1970-01-01), by 400-year
    eras counted from 1 March of year 0. *)
Definition civilFromDays (days : Z) : Z * Z * Z :=
  let z := days + 719468 in
  let era := z / 146097 in
  let doe := z - era * 146097 in
  let yoe := (doe - doe / 1460 + doe / 36524 - doe / 146096) / 365 in
  let doy := doe - (365 * yoe + yoe / 4 - yoe / 100) in
  let mp := (5 * doy + 2) / 153 in
  let d := doy - (153 * mp + 2) / 5 + 1 in
  let m := if mp <? 10 then mp + 3 else mp - 9 in
  let y := yoe + era * 400 + (if m <=? 2 then 1 else 0) in
  (y, m, d).

Definition utcFields (t : Z) : UtcFields :=
  let '(y, m, d) := civilFromDays (t / msPerDay) in
  let r := t mod msPerDay in
  {| year := y; month := m; dayOfMonth := d;
     hours := r / 3600000; minutes := (r / 60000) mod 60;
     seconds := (r / 1000) mod 60; millis := r mod 1000 |}.

(** [date.toISOString()] on a valid date: four-digit years as they are,
    the others signed and six digits wide.  The invalid date is treated
    in [CalendarExportChecked] below. *)
Definition toISOString (t : Z) : string :=
  let f := utcFields t in
  let yyyy :=
    if (0 <=? year f) && (year f <=? 9999) then padDigits 4 (year f)
    else (if year f <? 0 then "-" else "+") ++ padDigits 6 (Z.abs (year f)) in
  yyyy ++ "-" ++ padDigits 2 (month f) ++ "-" ++ padDigits 2 (dayOfMonth f)
       ++ "T" ++ padDigits 2 (hours f) ++ ":" ++ padDigits 2 (minutes f)
       ++ ":" ++ padDigits 2 (seconds f) ++ "." ++ padDigits 3 (millis f)
       ++ "Z".

Definition formatDate (t : Z) : string :=
  beforeDot (dropDashColon (toISOString t)) ++ "Z".

(** Backslash first, then semicolon, comma and line feed. *)
Definition escapeText (text : string) : string :=
  let bs := String backslash EmptyString in
  replaceChar (ascii_of_nat 10) (bs ++ "n")
    (replaceChar ","%char (bs ++ ",")
       (replaceChar ";"%char (bs ++ ";")
          (replaceChar backslash (bs ++ bs) text))).

(** What [escapeText] writes for one character. *)
Definition escapeChar (a : ascii) : string :=
  if Ascii.eqb a backslash
  then String backslash (String backslash EmptyString)
  else if Ascii.eqb a ";"%char then String backslash ";"
  else if Ascii.eqb a ","%char then String backslash ","
  else if Ascii.eqb a (ascii_of_nat 10) then String backslash "n"
  else String a EmptyString.

Definition difficultyText (d : Difficulty) : string :=
  match d with
  | easy => "easy"
  | medium => "medium"
  | hard => "hard"
  end.

(** The two-character text a template literal's [\\n] denotes. *)
Definition escapedNewline : string := String backslash "n".

(** The [description] variable of [generateEvent]. *)
Definition eventDescription (session : StudySession) : string :=
  let d0 := "Study session: " ++ topic session in
  let d1 :=
    match description session with
    | Some (String a rest) =>
        d0 ++ escapedNewline ++ escapedNewline
           ++ escapeText (String a rest)
    | _ => d0
    end in
  let d2 :=
    match goals session with
    | Some (g :: gs) =>
        d1 ++ escapedNewline ++ escapedNewline ++ "Goals:" ++ escapedNewline
           ++ join escapedNewline
                (map (fun g => "- " ++ escapeText g) (g :: gs))
    | _ => d1
    end in
  d2 ++ escapedNewline ++ escapedNewline ++ "Difficulty: "
     ++ difficultyText (difficulty session).

Definition eventSummary (session : StudySession) : string :=
  escapeText (subject session ++ ": " ++ topic session).

Definition eventCategories (session : StudySession) : string :=
  "Study," ++ subject session ++ "," ++ difficultyText (difficulty session).

(** The alarm block every event carries. *)
Definition alarmLines : list string :=
  [ "BEGIN:VALARM";
    "TRIGGER:-PT15M";
    "DESCRIPTION:Study session starting in 15 minutes";
    "ACTION:DISPLAY";
    "END:VALARM" ].

(** The lines of one event; [now] is the time value of [new Date()]. *)
Definition eventLines (now : Z) (session : StudySession) : list string :=
  let startDate := startTime session in
  let endDate := startDate + duration session * 60000 in
  let head :=
  [ "BEGIN:VEVENT";
    "UID:" ++ id session ++ "@studysmart.app";
    "DTSTAMP:" ++ formatDate now;
    "DTSTART:" ++ formatDate startDate;
    "DTEND:" ++ formatDate endDate;
    "SUMMARY:" ++ eventSummary session;
    "DESCRIPTION:" ++ eventDescription session;
    "STATUS:" ++ (if completed session then "CONFIRMED" else "TENTATIVE");
    "CATEGORIES:" ++ eventCategories session ] in
  List.app head (List.app alarmLines [ "END:VEVENT" ]).

Definition generateEvent (now : Z) (session : StudySession) : string :=
  join newline (eventLines now session).

Definition generateICSContent (now : Z) (sessions : list StudySession)
  : string :=
  let events := join newline (map (generateEvent now) sessions) in
  join newline
    [ "BEGIN:VCALENDAR";
      "VERSION:2.0";
      "PRODID:-//StudySmart//Study Scheduler//EN";
      "CALSCALE:GREGORIAN";
      "METHOD:PUBLISH";
      events;
      "END:VCALENDAR" ].

(** A property value in which every semicolon, comma and backslash is
    preceded by an escaping backslash and no raw line feed occurs. *)
Fixpoint wellEscapedFrom (escaping : bool) (s : string) : bool :=
  match s with
  | EmptyString => negb escaping
  | String a rest =>
      if escaping then wellEscapedFrom false rest
      else if Ascii.eqb a backslash then wellEscapedFrom true rest
      else if Ascii.eqb a ";"%char || Ascii.eqb a ","%char
              || Ascii.eqb a (ascii_of_nat 10)
           then false
           else wellEscapedFrom false rest
  end.

Definition wellEscaped (s : string) : bool := wellEscapedFrom false s.

(** The text lines of a payload. *)
Fixpoint splitLines (cur : string) (s : string) : list string :=
  match s with
  | EmptyString => [cur]
  | String a rest =>
      if Ascii.eqb a (ascii_of_nat 10) then cur :: splitLines EmptyString rest
      else splitLines (cur ++ String a EmptyString) rest
  end.

Definition countLines (line : string) (payload : string) : nat :=
  List.length (filter (String.eqb line) (splitLines EmptyString payload)).

End CalendarExport.

(* ===================================================================== *)
(** ** The study-plan endpoint: generateCSStudyPlan *)
(* ===================================================================== *)

Module StudyPlan.
Import JsString.
Local Open Scope string_scope.
Local Open Scope Z_scope.

Record PlanDay : Type := {
  day : Z;
  topics : list string;
  focus : string
}.

(** [csTopics], in the order of its keys. *)
Definition csTopics : list (string * list string) :=
  [ ("data structures",
    [
      "Arrays and Strings - Basic operations and common algorithms";
      "Linked Lists - Single, Double, and Circular implementations";
      "Stacks and Queues - Implementation and applications";
      "Trees - Binary Trees, BST, AVL Trees";
      "Heaps - Min Heap, Max Heap, Priority Queue";
      "Hash Tables - Hash functions and collision resolution";
      "Graphs - Representations and traversal algorithms (BFS, DFS)";
      "Advanced Trees - B-Trees, Red-Black Trees, Tries";
      "Sorting Algorithms - Quick Sort, Merge Sort, Heap Sort";
      "Searching Algorithms - Binary Search variations";
      "Dynamic Programming - Common patterns";
      "Greedy Algorithms - Problem-solving techniques";
      "Graph Algorithms - Dijkstra, Bellman-Ford, MST";
      "String Algorithms - KMP, Rabin-Karp" ]);
    ("algorithms",
    [
      "Algorithm Complexity - Big O notation and analysis";
      "Recursion - Base cases and recursive thinking";
      "Divide and Conquer - Merge Sort, Quick Sort";
      "Dynamic Programming Basics - Memoization vs Tabulation";
      "Greedy Algorithms - Activity Selection, Huffman Coding";
      "Backtracking - N-Queens, Sudoku Solver";
      "Graph Traversal - BFS and DFS applications";
      "Shortest Path - Dijkstra and Bellman-Ford";
      "Minimum Spanning Tree - Kruskal and Prim algorithms";
      "String Matching - KMP, Boyer-Moore";
      "Advanced DP - Knapsack, LCS, Edit Distance";
      "Network Flow - Max Flow, Min Cut";
      "NP-Complete Problems - Understanding complexity classes";
      "Approximation Algorithms - Practical solutions" ]);
    ("operating systems",
    [
      "OS Fundamentals - Components and architecture";
      "Process Management - States, PCB, Context Switching";
      "CPU Scheduling - FCFS, SJF, Round Robin, Priority";
      "Process Synchronization - Critical Section Problem";
      "Deadlocks - Detection, Prevention, Avoidance";
      "Memory Management - Contiguous and Paging";
      "Virtual Memory - Demand Paging, Page Replacement";
      "File Systems - Structure and Implementation";
      "I/O Systems - Device Management";
      "Threading - User vs Kernel threads";
      "Concurrency Control - Semaphores, Monitors, Mutexes";
      "Disk Management - Scheduling algorithms";
      "Security and Protection - Access control";
      "Case Studies - Linux, Windows internals" ]);
    ("database",
    [
      "DBMS Fundamentals - Data Models and Architecture";
      "Relational Model - Relations, Keys, Integrity";
      "SQL Basics - DDL, DML, DCL commands";
      "Advanced SQL - Joins, Subqueries, Views";
      "Normalization - 1NF, 2NF, 3NF, BCNF";
      "Transaction Management - ACID properties";
      "Concurrency Control - Locking protocols";
      "Recovery Techniques - Log-based recovery";
      "Indexing - B+ Trees, Hash Indexing";
      "Query Optimization - Query processing";
      "NoSQL Databases - Document, Key-Value stores";
      "Database Security - Access control, SQL injection";
      "Distributed Databases - CAP theorem";
      "Database Design - ER Diagrams, Schema design" ]);
    ("computer networks",
    [
      "Network Fundamentals - OSI and TCP/IP models";
      "Physical Layer - Transmission media, encoding";
      "Data Link Layer - Framing, Error detection";
      "MAC Protocols - ALOHA, CSMA/CD, CSMA/CA";
      "Network Layer - IPv4, IPv6, Subnetting";
      "Routing Algorithms - Distance Vector, Link State";
      "Transport Layer - TCP and UDP";
      "Flow Control - Sliding Window protocols";
      "Congestion Control - TCP congestion algorithms";
      "Application Layer - HTTP, DNS, SMTP, FTP";
      "Network Security - Cryptography basics";
      "Wireless Networks - WiFi, Mobile networks";
      "Network Management - SNMP, Performance";
      "Modern Protocols - HTTP/2, WebSockets, QUIC" ]);
    ("machine learning",
    [
      "ML Fundamentals - Types of learning, workflow";
      "Linear Regression - Theory and implementation";
      "Logistic Regression - Binary classification";
      "Decision Trees - Construction and pruning";
      "Random Forests - Ensemble learning";
      "Support Vector Machines - Kernel methods";
      "Neural Networks - Backpropagation";
      "Deep Learning - CNNs for image processing";
      "Recurrent Networks - RNNs, LSTMs for sequences";
      "Unsupervised Learning - K-means, Hierarchical";
      "Dimensionality Reduction - PCA, t-SNE";
      "Model Evaluation - Cross-validation, metrics";
      "Regularization - L1, L2, Dropout";
      "Advanced Topics - Transfer Learning, GANs" ]);
    ("web development",
    [
      "HTML Fundamentals - Semantic markup, forms";
      "CSS Basics - Selectors, Box model, Flexbox";
      "CSS Grid - Layout techniques";
      "JavaScript Fundamentals - ES6+ features";
      "DOM Manipulation - Events and handlers";
      "Async JavaScript - Promises, Async/Await";
      "React Basics - Components, Props, State";
      "React Hooks - useState, useEffect, custom hooks";
      "State Management - Context API, Redux";
      "Backend Basics - Node.js, Express";
      "RESTful APIs - Design and implementation";
      "Database Integration - SQL and NoSQL";
      "Authentication - JWT, OAuth";
      "Deployment - CI/CD, Docker basics" ]);
    ("python",
    [
      "Python Basics - Syntax, data types, operators";
      "Control Flow - If/else, loops, functions";
      "Data Structures - Lists, tuples, dictionaries, sets";
      "Object-Oriented Programming - Classes, inheritance";
      "File Handling - Reading/writing files";
      "Exception Handling - Try/except blocks";
      "Modules and Packages - Imports, pip";
      "List Comprehensions - Advanced syntax";
      "Lambda Functions - Functional programming";
      "Decorators - Function wrappers";
      "Generators - Yield and iterators";
      "Multithreading - Concurrent execution";
      "Regular Expressions - Pattern matching";
      "Popular Libraries - NumPy, Pandas basics" ]);
    ("java",
    [
      "Java Basics - Syntax, data types, operators";
      "OOP Fundamentals - Classes, objects, methods";
      "Inheritance - Extends, super, method overriding";
      "Polymorphism - Method overloading, interfaces";
      "Abstraction - Abstract classes, interfaces";
      "Encapsulation - Access modifiers, getters/setters";
      "Exception Handling - Try-catch-finally";
      "Collections Framework - List, Set, Map";
      "Generics - Type parameters";
      "Multithreading - Thread class, Runnable";
      "File I/O - Streams, readers, writers";
      "JDBC - Database connectivity";
      "Java 8 Features - Lambda, Stream API";
      "Spring Framework - Dependency Injection basics" ]);
    ("c++",
    [
      "C++ Basics - Syntax, data types, I/O";
      "Functions - Declaration, definition, overloading";
      "Pointers - Memory addresses, pointer arithmetic";
      "References - Pass by reference";
      "Classes and Objects - Constructors, destructors";
      "Inheritance - Single, multiple, multilevel";
      "Polymorphism - Virtual functions, abstract classes";
      "Operator Overloading - Custom operators";
      "Templates - Function and class templates";
      "STL Containers - Vector, list, map, set";
      "STL Algorithms - Sort, find, transform";
      "Exception Handling - Try-catch blocks";
      "File Handling - Streams and file operations";
      "Smart Pointers - unique_ptr, shared_ptr" ]) ].

(** [subjectLower.includes(key) || key.includes(subjectLower)]. *)
Definition keyMatches (subjectLower key : string) : bool :=
  includes subjectLower key || includes key subjectLower.

(** The [for (const [key, value] of Object.entries(csTopics))] loop:
    the topics of the first key that contains, or is contained in, the
    lower-cased subject; [[]] when the loop ends without a match. *)
Fixpoint findTopics (subjectLower : string)
         (entries : list (string * list string)) : list string :=
  match entries with
  | [] => []
  | (key, value) :: rest =>
      if keyMatches subjectLower key
      then value
      else findTopics subjectLower rest
  end.

(** The generic list built from the subject as given. *)
Definition genericTopics (subject : string) : list string :=
  map (fun suffix => subject ++ suffix)
    [ " - Introduction and fundamentals";
      " - Core concepts and terminology";
      " - Basic operations and techniques";
      " - Intermediate topics and patterns";
      " - Advanced concepts";
      " - Problem-solving strategies";
      " - Best practices and optimization";
      " - Real-world applications";
      " - Common pitfalls and debugging";
      " - Testing and validation";
      " - Performance considerations";
      " - Integration with other technologies";
      " - Case studies and examples";
      " - Review and practice problems" ].

(** The value of [topics] when the distribution starts. *)
Definition selectTopics (subject : string) : list string :=
  let found := findTopics (toLowerCase subject) csTopics in
  if (List.length found =? 0)%nat then genericTopics subject else found.

(** [Math.ceil(a / b)] for integers.  For [b = 0] JavaScript yields
    Infinity; the loop below then runs zero times and never reads it. *)
Definition ceilDiv (a b : Z) : Z := - ((- a) / b).

(** [l.slice(startIdx, endIdx)] for non-negative indices. *)
Definition slice {A : Type} (startIdx endIdx : Z) (l : list A) : list A :=
  firstn (Z.to_nat (endIdx - startIdx)) (skipn (Z.to_nat startIdx) l).

Definition focusOf (day days : Z) : string :=
  if day =? 1 then "Foundation"
  else if day =? days then "Review & Practice"
  else if day <=? ceilDiv days 2 then "Building Knowledge"
  else "Advanced Concepts".

(** The [for (let day = 1; day <= days; day++)] loop; [fuel] is the number
    of iterations left. *)
Fixpoint distribute (fuel : nat) (day days topicsPerDay : Z)
         (allTopics : list string) : list PlanDay :=
  match fuel with
  | O => []
  | S fuel' =>
      let startIdx := (day - 1) * topicsPerDay in
      let endIdx := Z.min (startIdx + topicsPerDay)
                          (Z.of_nat (List.length allTopics)) in
      let dayTopics := slice startIdx endIdx allTopics in
      let rest := distribute fuel' (day + 1) days topicsPerDay allTopics in
      if (0 <? List.length dayTopics)%nat
      then {| day := day; topics := dayTopics; focus := focusOf day days |}
           :: rest
      else rest
  end.

Definition generateCSStudyPlan (subject : string) (days : Z)
  : list PlanDay :=
  let allTopics := selectTopics subject in
  let topicsPerDay := ceilDiv (Z.of_nat (List.length allTopics)) days in
  distribute (Z.to_nat days) 1 days topicsPerDay allTopics.

End StudyPlan.

(* ===================================================================== *)
(** ** The specification's wording, for comparison with the code *)
(* ===================================================================== *)

Module Reference.
Import DateModel JsNumber Session.

Section Wording.
Variable utcOffset : Z.
Variable sessions : list StudySession.

(** Local calendar days on which a completed session starts. *)
Definition completedDays : list Z :=
  map (fun s => localDay utcOffset (startTime s))
      (filter completed sessions).

Definition hasDay (d : Z) : bool := existsb (Z.eqb d) completedDays.

(** Length of the run of consecutive completed days that ends on [d]
    (at most [fuel] days are inspected). *)
Fixpoint runEndingAt (fuel : nat) (d : Z) : nat :=
  match fuel with
  | O => 0%nat
  | S fuel' => if hasDay d then S (runEndingAt fuel' (d - 1)) else 0%nat
  end.

(** "The maximal suffix of consecutive calendar days, anchored at today
    or yesterday, with no gap > 1 day."  A run has no more days than
    there are completed sessions, so that many steps reach its start. *)
Definition currentStreak (now : Z) : nat :=
  let today := localDay utcOffset now in
  let fuel := List.length completedDays in
  if hasDay today then runEndingAt fuel today
  else if hasDay (today - 1) then runEndingAt fuel (today - 1)
  else 0%nat.

(** "Week window = [start-of-week, start-of-week + 7 days)", with
    start-of-week the most recent Sunday, local midnight. *)
Definition inWeekWindow (now t : Z) : bool :=
  let startOfWeek :=
    (localDay utcOffset now - getDay utcOffset now) * msPerDay
    - utcOffset in
  (startOfWeek <=? t) && (t <? startOfWeek + 7 * msPerDay).

Definition weekMinutes (now : Z) : Z :=
  fold_right Z.add 0
    (map duration
         (filter (fun s => completed s && inWeekWindow now (startTime s))
                 sessions)).

Definition weekSessionCount (now : Z) : Z :=
  Z.of_nat
    (List.length
       (filter (fun s => completed s && inWeekWindow now (startTime s))
               sessions)).
End Wording.

(** The three goals a percentage is rendered for, and the progress pair
    the component computes for each. *)
Inductive Metric : Type := TodayMinutes | WeekMinutes | WeekSessions.

Definition progressOf (utcOffset : Z) (sessions : list StudySession)
           (goals : GoalsAndStreaks.Goals) (now : Z) (m : Metric)
  : GoalsAndStreaks.Progress :=
  match m with
  | TodayMinutes =>
      GoalsAndStreaks.getTodayProgress utcOffset sessions goals now
  | WeekMinutes =>
      fst (GoalsAndStreaks.getWeekProgress utcOffset sessions goals now)
  | WeekSessions =>
      snd (GoalsAndStreaks.getWeekProgress utcOffset sessions goals now)
  end.

(** What an unguarded division by a zero target evaluates to. *)
Definition zeroTargetValue (current : Z) : jsnum :=
  if current =? 0 then NaN
  else if 0 <? current then PosInfinity else NegInfinity.

End Reference.

(* ===================================================================== *)
(** ** Concrete inputs *)
(* ===================================================================== *)

Module Inputs.
Import Session.
Local Open Scope string_scope.
Local Open Scope Z_scope.

(** Tuesday 2023-11-14 22:13:20 UTC. *)
Definition tuesdayEvening : Z := 1700000000000.

Definition mkSession (sid : string) (subj top : string) (minutes start : Z)
           (done : bool) : StudySession :=
  {| id := sid; subject := subj; topic := top; duration := minutes;
     startTime := start; completed := done; difficulty := medium;
     description := None; goals := None |}.

(** Completed sessions on 2023-11-14 09:00 and 2023-11-12 09:00 (UTC):
    today and the day before yesterday, nothing on 2023-11-13. *)
Definition gapSessions : list StudySession :=
  [ mkSession "s1" "algorithms" "Recursion" 60 1699952400000 true;
    mkSession "s2" "algorithms" "Backtracking" 45 1699779600000 true ].

(** Completed sessions on Saturday 2023-11-18 23:59:59 and on the next
    Sunday 2023-11-19 00:00:00 (UTC). *)
Definition boundarySessions : list StudySession :=
  [ mkSession "w1" "database" "Indexing" 45 1700351999000 true;
    mkSession "w2" "database" "Recovery" 30 1700352000000 true ].

Definition someGoals : GoalsAndStreaks.Goals :=
  {| GoalsAndStreaks.dailyMinutes := 120;
     GoalsAndStreaks.weeklyMinutes := 600;
     GoalsAndStreaks.weeklySessions := 10 |}.

(** The goals dialog stores [parseInt(value) || 0]: an emptied field
    becomes a target of 0. *)
Definition zeroGoals : GoalsAndStreaks.Goals :=
  {| GoalsAndStreaks.dailyMinutes := 0;
     GoalsAndStreaks.weeklyMinutes := 0;
     GoalsAndStreaks.weeklySessions := 0 |}.

(** A session created from a generated plan topic. *)
Definition treesSession : StudySession :=
  mkSession "a1" "data structures" "Trees - Binary Trees, BST, AVL Trees"
            60 1700000000000 false.

Definition oneMinuteSession : StudySession :=
  mkSession "m1" "python" "Decorators" 1 1700000000000 false.

End Inputs.

(* ===================================================================== *)
(** ** StudyTimer: what the component displays *)
(* ===================================================================== *)

Module TimerDisplay.
Import JsNumber StudyTimer.

(** [getProgress]: [((totalTime - timeLeft) / totalTime) * 100]. *)
Definition getProgress (t : Timer) : jsnum :=
  times100 (div (totalTime t - timeLeft t) (totalTime t)).

(** The break header, shown in break mode of a pomodoro timer:
    [(pomodoroCount) % 4 === 0 ? 'Long' : 'Short']. *)
Definition breakHeaderSaysLong (t : Timer) : bool :=
  (pomodoroCount t mod 4 =? 0)%nat.

(** The label of the Start Break button:
    [pomodoroCount > 0 && (pomodoroCount + 1) % 4 === 0 ? '15min'
                                                        : '5min']. *)
Definition startBreakButtonSays15 (t : Timer) : bool :=
  (0 <? pomodoroCount t)%nat && ((pomodoroCount t + 1) mod 4 =? 0)%nat.

(** Number of [StartBreak] clicks in a list of events. *)
Fixpoint countStartBreak (es : list Event) : nat :=
  match es with
  | [] => 0%nat
  | StartBreak :: rest => S (countStartBreak rest)
  | _ :: rest => countStartBreak rest
  end.

Definition isSelectType (e : Event) : bool :=
  match e with
  | SelectType _ => true
  | _ => false
  end.

End TimerDisplay.

(* ===================================================================== *)
(** ** App: the host's session list and the timer it mounts *)
(* ===================================================================== *)

Module App.
Import StudyTimer Session.

(** [{ ...s, completed: true }]. *)
Definition markCompleted (s : StudySession) : StudySession :=
  {| id := id s; subject := subject s; topic := topic s;
     duration := duration s; startTime := startTime s; completed := true;
     difficulty := difficulty s; description := description s;
     goals := goals s |}.

(** [Omit<StudySession, 'id' | 'completed'>]: what the session form
    submits. *)
Record SessionData : Type := {
  dataSubject : string;
  dataTopic : string;
  dataDuration : Z;
  dataStartTime : Z;
  dataDifficulty : Difficulty;
  dataDescription : option string;
  dataGoals : option (list string)
}.

(** [{ ...sessionData, id, completed }]. *)
Definition withIdentity (data : SessionData) (sessionId : string)
           (done : bool) : StudySession :=
  {| id := sessionId; subject := dataSubject data; topic := dataTopic data;
     duration := dataDuration data; startTime := dataStartTime data;
     completed := done; difficulty := dataDifficulty data;
     description := dataDescription data; goals := dataGoals data |}.

(** The updater of [handleCompleteSession]. *)
Definition handleCompleteSession (sessionId : string)
           (prev : list StudySession) : list StudySession :=
  map (fun s => if String.eqb (id s) sessionId then markCompleted s else s)
      prev.

(** The updater of [handleDeleteSession]. *)
Definition handleDeleteSession (sessionId : string)
           (prev : list StudySession) : list StudySession :=
  filter (fun s => negb (String.eqb (id s) sessionId)) prev.

(** [handleSaveSession]: [editingSession] decides between the update and
    the creation; [nowText] is [Date.now().toString()], the id a created
    session gets. *)
Definition handleSaveSession (editingSession : option StudySession)
           (nowText : string) (sessionData : SessionData)
           (prev : list StudySession) : list StudySession :=
  match editingSession with
  | Some editing =>
      map (fun s => if String.eqb (id s) (id editing)
                    then withIdentity sessionData (id s) (completed s)
                    else s)
          prev
  | None => prev ++ [withIdentity sessionData nowText false]
  end.

(** [sessions.find(s => s.id === sessionId)], the session
    [handleStartSession] mounts the timer on ([None]: nothing happens). *)
Definition handleStartSession (sessionId : string)
           (sessions : list StudySession) : option StudySession :=
  find (fun s => String.eqb (id s) sessionId) sessions.

(** The part of the host's state the timer's callbacks touch. *)
Record Host : Type := {
  sessions : list StudySession;
  activeTimer : option StudySession
}.

(** [onComplete={handleCompleteSession}] and
    [onClose={() => setActiveTimer(undefined)}]. *)
Definition applyEffect (h : Host) (e : Effect) : Host :=
  match e with
  | OnComplete sessionId =>
      {| sessions := handleCompleteSession sessionId (sessions h);
         activeTimer := activeTimer h |}
  | OnClose => {| sessions := sessions h; activeTimer := None |}
  end.

Definition applyEffects (h : Host) (out : list Effect) : Host :=
  fold_left applyEffect out h.

End App.

(* ===================================================================== *)
(** ** NotificationManager: session reminders *)
(* ===================================================================== *)

Module NotificationManager.
Import Session.
Local Open Scope string_scope.
Local Open Scope Z_scope.

Record NotificationSettings : Type := {
  enabled : bool;
  reminderTime : Z;             (* minutes before session *)
  breakReminders : bool;
  dailySummary : bool;
  dailySummaryHours : Z;        (* the two numbers of [dailySummaryTime] *)
  dailySummaryMinutes : Z
}.

(** [NotificationPermission]. *)
Inductive Permission : Type := default | granted | denied.

Definition isGranted (p : Permission) : bool :=
  match p with
  | granted => true
  | _ => false
  end.

Record Notification : Type := {
  title : string;
  body : string;
  tag : string
}.

(** [String(n)] for an integer. *)
Definition numberText (n : Z) : string :=
  DecimalString.NilZero.string_of_int (Z.to_int n).

(** [Math.floor((sessionTime.getTime() - now.getTime()) / (1000 * 60))]. *)
Definition minutesUntil (now : Z) (session : StudySession) : Z :=
  (startTime session - now) / (1000 * 60).

(** [notifiedSessions.has(id)] and [new Set([...prev, id])], the set kept
    as the list of its members in insertion order. *)
Definition has (notified : list string) (sessionId : string) : bool :=
  existsb (String.eqb sessionId) notified.

Definition add (notified : list string) (sessionId : string)
  : list string :=
  if has notified sessionId then notified else notified ++ [sessionId].

Section Check.
Variable settings : NotificationSettings.

(** The filter of the 30-second check. *)
Definition upcomingSessions (now : Z) (notified : list string)
           (sessions : list StudySession) : list StudySession :=
  filter (fun session =>
            if completed session || has notified (id session) then false
            else (minutesUntil now session <=? reminderTime settings)
                 && (0 <? minutesUntil now session))
         sessions.

Definition reminderFor (now : Z) (session : StudySession) : Notification :=
  {| title := "Study Session Reminder";
     body := subject session ++ ": " ++ topic session ++ " starts in "
             ++ numberText (minutesUntil now session) ++ " minutes";
     tag := id session |}.

(** One firing of the check interval.  The interval exists only while the
    setting is enabled and the permission read at mount time is granted;
    [showNotification] asks the browser's permission again ([live]) for
    each notification, while the session is recorded as notified either
    way.  Result: the notifications shown and the new notified set. *)
Definition checkReminders (atMount live : Permission) (now : Z)
           (notified : list string) (sessions : list StudySession)
  : list Notification * list string :=
  if negb (enabled settings) || negb (isGranted atMount)
  then ([], notified)
  else
    let upcoming := upcomingSessions now notified sessions in
    (if isGranted live then map (reminderFor now) upcoming else [],
     fold_left add (map id upcoming) notified).
End Check.

End NotificationManager.

(* ===================================================================== *)
(** ** Dashboard and ProgressView: the figures above the goals *)
(* ===================================================================== *)

Module Dashboard.
Import DateModel JsNumber Session.
Local Open Scope Z_scope.

(** [l.sort((a, b) => time(a) - time(b))] on sessions: a stable sort by
    start time. *)
Fixpoint insertByStart (x : StudySession) (l : list StudySession)
  : list StudySession :=
  match l with
  | [] => [x]
  | y :: rest =>
      if startTime x - startTime y <=? 0 then x :: y :: rest
      else y :: insertByStart x rest
  end.

Definition sortByStart (l : list StudySession) : list StudySession :=
  fold_right insertByStart [] l.

(** The order [sortByStart] establishes. *)
Definition startsNoLater (a b : StudySession) : Prop :=
  startTime a <= startTime b.

Section Today.
Variable utcOffset : Z.
Variable sessions : list StudySession.
Variable now : Z.

Definition todaySessions : list StudySession :=
  filter (fun session => sameDateString utcOffset (startTime session) now)
         sessions.

Definition completedToday : Z :=
  Z.of_nat (List.length (filter completed todaySessions)).

Definition totalToday : Z := Z.of_nat (List.length todaySessions).

(** [totalToday > 0 ? (completedToday / totalToday) * 100 : 0]. *)
Definition progressPercentage : jsnum :=
  if 0 <? totalToday then times100 (div completedToday totalToday)
  else Fin (inject_Z 0).

Definition totalStudyTime : Z :=
  fold_left (fun acc s => acc + duration s)
            (filter completed todaySessions) 0.

(** Not completed, starting after now; sorted by start; the first
    three. *)
Definition upcomingSessions : list StudySession :=
  firstn 3
    (sortByStart
       (filter (fun s => negb (completed s) && (now <? startTime s))
               todaySessions)).
End Today.

(** One row of [getSubjectData]. *)
Record SubjectRow : Type := {
  rowSubject : string;
  rowSessions : Z;
  rowDuration : Z
}.

(** [subjectMap.get(subject) || fresh], then both counters bumped and the
    row stored back: a [Map] keeps the position of a key it already has
    and appends a new one. *)
Fixpoint bumpSubject (session : StudySession) (rows : list SubjectRow)
  : list SubjectRow :=
  match rows with
  | [] => [ {| rowSubject := subject session; rowSessions := 0 + 1;
               rowDuration := 0 + duration session |} ]
  | row :: rest =>
      if String.eqb (rowSubject row) (subject session)
      then {| rowSubject := rowSubject row;
              rowSessions := rowSessions row + 1;
              rowDuration := rowDuration row + duration session |} :: rest
      else row :: bumpSubject session rest
  end.

Section Progress.
Variable sessions : list StudySession.

Definition completedSessions : list StudySession :=
  filter completed sessions.

Definition getSubjectData : list SubjectRow :=
  fold_left (fun rows session => bumpSubject session rows)
            completedSessions [].

Definition isDifficulty (d : Difficulty) (s : StudySession) : bool :=
  match d, difficulty s with
  | easy, easy | medium, medium | hard, hard => true
  | _, _ => false
  end.

(** The three counters of [getDifficultyData], in the order Easy, Medium,
    Hard. *)
Definition getDifficultyData : Z * Z * Z :=
  fold_left (fun '(e, m, h) s =>
               match difficulty s with
               | easy => (e + 1, m, h)
               | medium => (e, m + 1, h)
               | hard => (e, m, h + 1)
               end)
            completedSessions (0, 0, 0).

Definition overallStudyTime : Z :=
  fold_left (fun acc s => acc + duration s) completedSessions 0.

(** [completedSessions.length > 0
       ? Math.round(totalStudyTime / completedSessions.length) : 0]. *)
Definition averageSessionLength : jsnum :=
  if (0 <? List.length completedSessions)%nat
  then round (div overallStudyTime
                  (Z.of_nat (List.length completedSessions)))
  else Fin (inject_Z 0).
End Progress.

End Dashboard.

(* ===================================================================== *)
(** ** Further concrete inputs *)
(* ===================================================================== *)

Module MoreInputs.
Import NotificationManager.
Local Open Scope Z_scope.

(** The host's default notification settings, switched on. *)
Definition enabledSettings : NotificationSettings :=
  {| enabled := true; reminderTime := 15; breakReminders := true;
     dailySummary := true; dailySummaryHours := 20;
     dailySummaryMinutes := 0 |}.

(** Fifteen minutes before [Inputs.oneMinuteSession] starts. *)
Definition quarterBefore : Z := 1699999100000.

End MoreInputs.

(* ===================================================================== *)
(** ** Sums used to state the dashboard figures *)
(* ===================================================================== *)

Module Tally.
Import Session.
Local Open Scope Z_scope.

(** Sessions of one subject. *)
Definition ofSubject (subj : string) (l : list StudySession)
  : list StudySession :=
  filter (fun s => String.eqb (subject s) subj) l.

(** Total of the durations of a list of sessions. *)
Definition minutesOf (l : list StudySession) : Z :=
  fold_right Z.add 0 (map duration l).

End Tally.

(* ===================================================================== *)
(** ** The study-plan endpoint: the request handler *)
(* ===================================================================== *)

Module PlanEndpoint.
Import StudyPlan.
Local Open Scope string_scope.
Local Open Scope Z_scope.

(** The two JSON answers of the route (the 500 answer needs a thrown
    error, which [generateCSStudyPlan] never raises). *)
Inductive Response : Type :=
| BadRequest (error : string)
| Success (plan : list PlanDay) (subject : string) (duration : Z).

(** [duration || 7]: a missing duration and 0 are falsy. *)
Definition durationOrDefault (duration : option Z) : Z :=
  match duration with
  | Some d => if d =? 0 then 7 else d
  | None => 7
  end.

(** The handler of POST /generate-study-plan on a body with an optional
    string [subject] and an optional integer [duration]. *)
Definition handleGenerateStudyPlan (subject : option string)
           (duration : option Z) : Response :=
  match subject with
  | None => BadRequest "Subject is required"
  | Some EmptyString => BadRequest "Subject is required"
  | Some s =>
      Success (generateCSStudyPlan s (durationOrDefault duration))
              s (durationOrDefault duration)
  end.

End PlanEndpoint.

(* ===================================================================== *)
(** ** Character classes and the decoder used to state the export facts *)
(* ===================================================================== *)

Module CalendarText.
Import JsString.
Local Open Scope string_scope.

(** Every character of [s] satisfies [p]. *)
Fixpoint allChars (p : ascii -> bool) (s : string) : bool :=
  match s with
  | EmptyString => true
  | String a rest => p a && allChars p rest
  end.

Definition notLineFeed (a : ascii) : bool :=
  negb (Ascii.eqb a (ascii_of_nat 10)).

(** Neither a separator the date formatting removes or cuts at, nor a
    line feed. *)
Definition plainChar (a : ascii) : bool :=
  negb (Ascii.eqb a "-"%char || Ascii.eqb a ":"%char
        || Ascii.eqb a "."%char || Ascii.eqb a (ascii_of_nat 10)).

(** The text without line feed. *)
Definition singleLine (s : string) : bool := allChars notLineFeed s.

(** Reading escaped text back: a backslash makes the next character
    literal, except that backslash-n stands for a line feed. *)
Fixpoint unescapeFrom (escaping : bool) (s : string) : string :=
  match s with
  | EmptyString => EmptyString
  | String a rest =>
      if escaping
      then String (if Ascii.eqb a "n"%char then ascii_of_nat 10 else a)
                  (unescapeFrom false rest)
      else if Ascii.eqb a backslash then unescapeFrom true rest
      else String a (unescapeFrom false rest)
  end.

End CalendarText.

(* ===================================================================== *)
(** ** Local time in a zone whose offset changes *)
(* ===================================================================== *)

Module TimeZone.
Import DateModel Session GoalsAndStreaks.

(** What the calculator asks of the host's time zone.  [zoneDay t] is the
    number of the local calendar day that contains the time value [t]
    (day 0 is 1970-01-01 local); [zoneDayStart d] is the time value that
    [setHours(0, 0, 0, 0)] yields on day [d]; [zoneSetDate t k] is the time
    value after [d.setDate(d.getDate() - k)] on a date holding [t]. *)
Record Zone : Type := {
  zoneDay : Z -> Z;
  zoneDayStart : Z -> Z;
  zoneSetDate : Z -> Z -> Z
}.

(** A zone in which every local calendar day is one interval of time that
    begins at the instant [setHours(0, 0, 0, 0)] gives, and in which
    [setDate] moves by whole calendar days.  The length of a day is not
    fixed: it is 23 or 25 hours where the clocks change. *)
Record WellFormed (z : Zone) : Prop := {
  day_start_le : forall t, zoneDayStart z (zoneDay z t) <= t;
  day_end_gt : forall t, t < zoneDayStart z (zoneDay z t + 1);
  day_of_start : forall d, zoneDay z (zoneDayStart z d) = d;
  day_of_setDate :
    forall t k, zoneDay z (zoneSetDate z t k) = zoneDay z t - k
}.

Section InZone.
Variable z : Zone.
Variable sessions : list StudySession.

(** [d.setHours(0, 0, 0, 0); d.getTime()]. *)
Definition setHours0 (t : Z) : Z := zoneDayStart z (zoneDay z t).

(** [d.getDay()]: 0 is Sunday; 1970-01-01 was a Thursday. *)
Definition getDay (t : Z) : Z := (zoneDay z t + 4) mod 7.

(** The completed sessions' start dates, time of day discarded. *)
Definition completedDates : list Z :=
  setOf (map (fun s => setHours0 (startTime s))
             (filter completed sessions)).

Definition calculateStreak (now : Z) : nat :=
  let today := setHours0 now in
  let dates := sortBy (fun a b => b - a) completedDates in
  if (List.length dates =? 0)%nat then 0%nat
  else streakLoop dates today 0.

(** [startOfWeek.setDate(now.getDate() - now.getDay());
    startOfWeek.setHours(0, 0, 0, 0)]. *)
Definition startOfWeek (now : Z) : Z :=
  setHours0 (zoneSetDate z now (getDay now)).
End InZone.

(** A zone that stays [utcOffset] milliseconds ahead of UTC. *)
Definition fixedOffset (utcOffset : Z) : Zone :=
  {| zoneDay := localDay utcOffset;
     zoneDayStart := fun d => d * msPerDay - utcOffset;
     zoneSetDate := setDateBack |}.

(** New York around the end of daylight saving time in 2023: four hours
    behind UTC until 2023-11-05T06:00:00Z, five hours behind from then
    on.  A local time of the repeated hour is read with the earlier
    offset. *)
Definition offsetAt (t : Z) : Z :=
  if t <? 1699164000000 then 14400000 else 18000000.

Definition localOf (t : Z) : Z := t - offsetAt t.

Definition utcOfLocal (l : Z) : Z :=
  l + (if l <? 1699149600000 then 14400000 else 18000000).

Definition newYorkAutumn2023 : Zone :=
  {| zoneDay := fun t => localOf t / msPerDay;
     zoneDayStart := fun d => utcOfLocal (d * msPerDay);
     zoneSetDate := fun t k => utcOfLocal (localOf t - k * msPerDay) |}.

(** Monday 2023-11-06 20:00 in New York. *)
Definition mondayEvening : Z := 1699318800000.

(** Completed sessions on Sunday 2023-11-05 and Monday 2023-11-06, both
    at 10:00 in New York. *)
Definition clockChangeSessions : list StudySession :=
  [ Inputs.mkSession "n1" "java" "Generics" 30 1699196400000 true;
    Inputs.mkSession "n2" "java" "Streams" 30 1699282800000 true ].

(** Saturday 2023-11-11 23:30 in New York. *)
Definition saturdayNight : Z := 1699763400000.

End TimeZone.

(* ===================================================================== *)
(** ** The export with the range of [Date] made explicit *)
(* ===================================================================== *)

Module CalendarExportChecked.
Import Session JsString DateModel.
Local Open Scope string_scope.
Local Open Scope Z_scope.

(** The largest time value a [Date] holds: 100,000,000 days. *)
Definition maxTime : Z := 8640000000000000.

Definition validTime (t : Z) : bool :=
  (- maxTime <=? t) && (t <=? maxTime).

(** [new Date(v)]: a date holding [v], or the invalid date ([None]). *)
Definition newDate (v : Z) : option Z :=
  if validTime v then Some v else None.

(** [date.toISOString()]; on the invalid date it throws a [RangeError],
    written [None]. *)
Definition toISOString (date : option Z) : option string :=
  option_map CalendarExport.toISOString date.

Definition formatDate (date : option Z) : option string :=
  option_map (fun iso => beforeDot (dropDashColon iso) ++ "Z")
             (toISOString date).

(** The lines of one event around the three formatted dates. *)
Definition eventLinesWith (stamp start finish : string)
           (session : StudySession) : list string :=
  let head :=
  [ "BEGIN:VEVENT";
    "UID:" ++ id session ++ "@studysmart.app";
    "DTSTAMP:" ++ stamp;
    "DTSTART:" ++ start;
    "DTEND:" ++ finish;
    "SUMMARY:" ++ CalendarExport.eventSummary session;
    "DESCRIPTION:" ++ CalendarExport.eventDescription session;
    "STATUS:" ++ (if completed session then "CONFIRMED" else "TENTATIVE");
    "CATEGORIES:" ++ CalendarExport.eventCategories session ] in
  List.app head (List.app CalendarExport.alarmLines [ "END:VEVENT" ]).

(** [generateEvent]; [now] is the time value of [new Date()].  The end
    date is built from the start date's time value, so it is invalid
    when the start date is. *)
Definition generateEvent (now : Z) (session : StudySession)
  : option string :=
  let startDate := newDate (startTime session) in
  let endDate :=
    match startDate with
    | Some t => newDate (t + duration session * 60000)
    | None => None
    end in
  match formatDate (newDate now) with
  | None => None
  | Some stamp =>
      match formatDate startDate with
      | None => None
      | Some start =>
          match formatDate endDate with
          | None => None
          | Some finish =>
              Some (join newline (eventLinesWith stamp start finish session))
          end
      end
  end.

(** [sessions.map(session => generateEvent(session))]: the first event
    that throws ends the whole call. *)
Fixpoint generateEvents (now : Z) (sessions : list StudySession)
  : option (list string) :=
  match sessions with
  | [] => Some []
  | session :: rest =>
      match generateEvent now session with
      | None => None
      | Some event =>
          match generateEvents now rest with
          | None => None
          | Some events => Some (event :: events)
          end
      end
  end.

Definition generateICSContent (now : Z) (sessions : list StudySession)
  : option string :=
  match generateEvents now sessions with
  | None => None
  | Some events =>
      Some (join newline
              [ "BEGIN:VCALENDAR";
                "VERSION:2.0";
                "PRODID:-//StudySmart//Study Scheduler//EN";
                "CALSCALE:GREGORIAN";
                "METHOD:PUBLISH";
                join newline events;
                "END:VCALENDAR" ])
  end.

(** The three dates of a session's event are in the range of [Date]. *)
Definition datesInRange (now : Z) (session : StudySession) : bool :=
  validTime now && validTime (startTime session)
  && validTime (startTime session + duration session * 60000).

(** A session that starts on the last day a [Date] can hold and runs for
    two days. *)
Definition lastDaySession : StudySession :=
  Inputs.mkSession "z1" "history" "Calendars" 2880 8639999913600000 false.

End CalendarExportChecked.

(* ===================================================================== *)
(** * Properties *)
(* ===================================================================== *)

(* --------------------------------------------------------------------- *)
(** ** Streaks *)
(* --------------------------------------------------------------------- *)

Section StreakFacts.
Import DateModel Session GoalsAndStreaks Inputs.

(** With no completed session both streaks are 0. *)
Lemma streaks_without_completed_sessions (utcOffset now : Z)
      (sessions : list StudySession) :
  filter completed sessions = [] ->
  calculateStreak utcOffset sessions now = 0%nat
  /\ calculateLongestStreak utcOffset sessions = 0%nat.
Proof.
  intros Hnone.
  unfold calculateStreak, calculateLongestStreak, completedDates.
  rewrite Hnone. split; reflexivity.
Qed.

(** Exactly one completed session, dated today: the streak is 1. *)
Lemma streak_single_session_today (utcOffset now : Z)
      (sessions : list StudySession) (s : StudySession) :
  filter completed sessions = [s] ->
  localDay utcOffset (startTime s) = localDay utcOffset now ->
  calculateStreak utcOffset sessions now = 1%nat.
Proof.
  intros Hone Hday.
  unfold calculateStreak, completedDates.
  rewrite Hone. cbn [map setOf filter sortBy fold_right insertBy].
  cbn [List.length Nat.eqb streakLoop].
  unfold setHours0. rewrite Hday, Z.eqb_refl. reflexivity.
Qed.

Lemma setOf_In (x : Z) (l : list Z) : In x (setOf l) <-> In x l.
Proof.
  induction l as [| y rest IH]; [tauto|].
  cbn [setOf In]. rewrite filter_In, IH, negb_true_iff, Z.eqb_neq.
  destruct (Z.eq_dec y x); intuition congruence.
Qed.

Lemma setOf_NoDup (l : list Z) : NoDup (setOf l).
Proof.
  induction l as [| y rest IH]; [constructor|].
  cbn [setOf]. constructor.
  - rewrite filter_In, negb_true_iff, Z.eqb_neq. tauto.
  - apply NoDup_filter. exact IH.
Qed.

(** A duplicate-free list over two values that holds both. *)
Lemma two_values_list (a b : Z) (l : list Z) :
  a <> b -> NoDup l ->
  (forall x, In x l -> x = a \/ x = b) ->
  In a l -> In b l ->
  l = [a; b] \/ l = [b; a].
Proof.
  intros Hab Hnd Hdom Ha Hb.
  destruct l as [| x [| y [| z rest]]].
  - destruct Ha.
  - cbn in Ha, Hb. intuition congruence.
  - inversion Hnd as [| ? ? Hx _]; subst. cbn in Hx.
    destruct (Hdom x (or_introl eq_refl)), (Hdom y (or_intror (or_introl eq_refl)));
      subst; intuition congruence.
  - exfalso.
    inversion Hnd as [| ? ? Hx Hnd1]; subst.
    inversion Hnd1 as [| ? ? Hy _]; subst.
    cbn in Hx, Hy.
    destruct (Hdom x ltac:(cbn; tauto)), (Hdom y ltac:(cbn; tauto)),
      (Hdom z ltac:(cbn; tauto)); subst; intuition congruence.
Qed.

(** In a zone with a constant offset: completed sessions today and
    yesterday and on no other day give a streak of 2. *)
Lemma streak_today_and_yesterday (utcOffset now : Z)
      (sessions : list StudySession) :
  (exists s, In s sessions /\ completed s = true
             /\ localDay utcOffset (startTime s) = localDay utcOffset now) ->
  (exists s, In s sessions /\ completed s = true
             /\ localDay utcOffset (startTime s)
                = localDay utcOffset now - 1) ->
  (forall s, In s sessions -> completed s = true ->
             localDay utcOffset (startTime s) = localDay utcOffset now
             \/ localDay utcOffset (startTime s)
                = localDay utcOffset now - 1) ->
  calculateStreak utcOffset sessions now = 2%nat.
Proof.
  intros [s1 [Hin1 [Hc1 Hd1]]] [s2 [Hin2 [Hc2 Hd2]]] Honly.
  set (today := setHours0 utcOffset now).
  assert (Hdates : completedDates utcOffset sessions
                     = [today; today - 86400000]
                   \/ completedDates utcOffset sessions
                      = [today - 86400000; today]).
  { apply two_values_list.
    - lia.
    - apply setOf_NoDup.
    - intros x Hx. unfold completedDates in Hx.
      rewrite setOf_In, in_map_iff in Hx.
      destruct Hx as [s [Hs Hins]]. rewrite filter_In in Hins.
      destruct Hins as [Hins Hcs].
      subst x today. unfold setHours0, msPerDay.
      destruct (Honly s Hins Hcs) as [Hd | Hd]; rewrite Hd; lia.
    - unfold completedDates. rewrite setOf_In, in_map_iff.
      exists s1. split; [|rewrite filter_In; tauto].
      unfold today, setHours0. rewrite Hd1. reflexivity.
    - unfold completedDates. rewrite setOf_In, in_map_iff.
      exists s2. split; [|rewrite filter_In; tauto].
      unfold today, setHours0, msPerDay. rewrite Hd2. lia. }
  assert (Hsorted : sortBy (fun a b => b - a)
                           (completedDates utcOffset sessions)
                    = [today; today - 86400000]).
  { destruct Hdates as [Hd | Hd]; rewrite Hd;
      cbn [sortBy fold_right insertBy].
    - destruct (Z.leb_spec (today - 86400000 - today) 0); [reflexivity|lia].
    - destruct (Z.leb_spec (today - (today - 86400000)) 0); [lia|reflexivity].
  }
  unfold calculateStreak. fold today. rewrite Hsorted.
  cbn [List.length Nat.eqb streakLoop].
  rewrite Z.eqb_refl. cbn [orb]. rewrite Z.eqb_refl. reflexivity.
Qed.

(** C1 (code at the failing input): with completed sessions today and
    two days ago and none yesterday, [calculateStreak] steps over the
    missing day and returns 2, while [calculateLongestStreak], which
    asks for a gap of exactly one day, returns 1; the longest streak is
    smaller than the current one. *)
Theorem current_streak_exceeds_longest_across_gap :
  calculateStreak 0 gapSessions tuesdayEvening = 2%nat
  /\ calculateLongestStreak 0 gapSessions = 1%nat
  /\ (calculateLongestStreak 0 gapSessions
      < calculateStreak 0 gapSessions tuesdayEvening)%nat.
Proof.
  assert (Hcur : calculateStreak 0 gapSessions tuesdayEvening = 2%nat)
    by (vm_compute; reflexivity).
  assert (Hlong : calculateLongestStreak 0 gapSessions = 1%nat)
    by (vm_compute; reflexivity).
  rewrite Hcur, Hlong. repeat split. lia.
Qed.

(** C3 (code at the failing input): the completed days are today and the
    day before yesterday.  The run of consecutive days anchored at today
    has length 1, which is what the specification's wording computes;
    the loop of [calculateStreak] accepts the two-day step and returns
    2. *)
Theorem current_streak_counts_across_missing_day :
  Reference.completedDays 0 gapSessions = [19675; 19673]
  /\ localDay 0 tuesdayEvening = 19675
  /\ Reference.currentStreak 0 gapSessions tuesdayEvening = 1%nat
  /\ calculateStreak 0 gapSessions tuesdayEvening = 2%nat.
Proof. repeat split; vm_compute; reflexivity. Qed.
End StreakFacts.

(* --------------------------------------------------------------------- *)
(** ** Weekly progress and percentages *)
(* --------------------------------------------------------------------- *)

Section ProgressFacts.
Import DateModel JsNumber Session GoalsAndStreaks Inputs.

(** [startOfWeek] is local midnight of the most recent Sunday. *)
Lemma startOfWeek_is_sunday_midnight (utcOffset now : Z) :
  startOfWeek utcOffset now
  = (localDay utcOffset now - getDay utcOffset now) * msPerDay - utcOffset
  /\ getDay utcOffset (startOfWeek utcOffset now) = 0.
Proof.
  assert (Hsow : startOfWeek utcOffset now
                 = (localDay utcOffset now - getDay utcOffset now)
                   * msPerDay - utcOffset).
  { unfold startOfWeek, setHours0, setDateBack, localDay.
    replace (now - getDay utcOffset now * msPerDay + utcOffset)
      with (now + utcOffset + (- getDay utcOffset now) * msPerDay) by ring.
    rewrite Z.div_add by (unfold msPerDay; lia).
    ring. }
  split; [exact Hsow|].
  rewrite Hsow. unfold getDay at 1. unfold localDay at 1.
  replace ((localDay utcOffset now - getDay utcOffset now) * msPerDay
           - utcOffset + utcOffset)
    with (0 + (localDay utcOffset now - getDay utcOffset now) * msPerDay)
    by ring.
  rewrite Z.div_add by (unfold msPerDay; lia).
  rewrite Z.div_0_l by (unfold msPerDay; lia).
  unfold getDay.
  set (d := localDay utcOffset now).
  replace (0 + (d - (d + 4) mod 7) + 4) with (d + 4 - (d + 4) mod 7) by ring.
  pose proof (Z.div_mod (d + 4) 7 ltac:(lia)) as Hdm.
  replace (d + 4 - (d + 4) mod 7) with (0 + ((d + 4) / 7) * 7) by lia.
  rewrite Z.mod_add by lia. reflexivity.
Qed.

Lemma sumDuration_fold_right (l : list StudySession) :
  sumDuration l = fold_right Z.add 0 (map duration l).
Proof.
  unfold sumDuration.
  assert (Hgen : forall acc,
             fold_left (fun a s => a + duration s) l acc
             = acc + fold_right Z.add 0 (map duration l)).
  { induction l as [| s rest IH]; intros acc; cbn [fold_left map fold_right].
    - lia.
    - rewrite IH. lia. }
  rewrite Hgen. lia.
Qed.

(** X13: As long as no completed session starts at or after the end of the
    week, [getWeekProgress] is the progress over the half-open week
    window. *)
Lemma week_progress_without_later_sessions (utcOffset now : Z)
      (sessions : list StudySession) (goals : Goals) :
  (forall s, In s sessions -> completed s = true ->
             startTime s < startOfWeek utcOffset now + 7 * msPerDay) ->
  current (fst (getWeekProgress utcOffset sessions goals now))
  = Reference.weekMinutes utcOffset sessions now
  /\ current (snd (getWeekProgress utcOffset sessions goals now))
     = Reference.weekSessionCount utcOffset sessions now.
Proof.
  intros Hbefore.
  assert (Hfilter :
            weekSessions utcOffset sessions now
            = filter (fun s => completed s
                               && Reference.inWeekWindow utcOffset now
                                                         (startTime s))
                     sessions).
  { unfold weekSessions. apply filter_ext_in. intros s Hin.
    unfold Reference.inWeekWindow.
    destruct (startOfWeek_is_sunday_midnight utcOffset now) as [Hsow _].
    rewrite <- Hsow.
    destruct (completed s) eqn:Hc; [|reflexivity]. cbn [andb].
    specialize (Hbefore s Hin Hc).
    destruct (Z.ltb_spec (startTime s)
                         (startOfWeek utcOffset now + 7 * msPerDay));
      [|lia].
    rewrite andb_true_r. reflexivity. }
  unfold getWeekProgress, Reference.weekMinutes, Reference.weekSessionCount.
  cbn [fst snd current]. rewrite Hfilter, sumDuration_fold_right.
  split; reflexivity.
Qed.

(** The specification's example: one completed hour today against a daily
    target of 120 minutes is 50 percent. *)
Example daily_percent_of_one_hour :
  dailyGoalPercent 0 [mkSession "e1" "java" "Generics" 60 1699952400000 true]
                   someGoals tuesdayEvening
  = Fin (inject_Z 50).
Proof. vm_compute. reflexivity. Qed.

(** C2 (code at the failing input): on Tuesday 2023-11-14 the week
    window is [Sunday 2023-11-12 00:00, Sunday 2023-11-19 00:00).  Of two
    completed sessions, one starting Saturday 23:59:59 and one starting
    Sunday 2023-11-19 00:00:00, the window holds the first only
    (45 minutes, 1 session); [getWeekProgress] has no upper bound and
    counts both (75 minutes, 2 sessions). *)
Theorem week_progress_counts_next_week :
  startOfWeek 0 tuesdayEvening = 1699747200000
  /\ Reference.weekMinutes 0 boundarySessions tuesdayEvening = 45
  /\ Reference.weekSessionCount 0 boundarySessions tuesdayEvening = 1
  /\ current (fst (getWeekProgress 0 boundarySessions someGoals
                                   tuesdayEvening)) = 75
  /\ current (snd (getWeekProgress 0 boundarySessions someGoals
                                   tuesdayEvening)) = 2.
Proof. repeat split; vm_compute; reflexivity. Qed.

(** An unguarded division by a zero target, as every percentage
    expression of the component performs it. *)
Lemma progress_zero_target (p : Progress) :
  target p = 0 ->
  progressValue p = Reference.zeroTargetValue (current p)
  /\ percentLabel p = Reference.zeroTargetValue (current p).
Proof.
  intros Hzero.
  unfold percentLabel, progressValue, div, Reference.zeroTargetValue.
  rewrite Hzero. cbn [Z.eqb].
  destruct (current p =? 0); [split; reflexivity|].
  destruct (0 <? current p); split; reflexivity.
Qed.

Lemma zeroTargetValue_not_finite (c : Z) :
  isFinite (Reference.zeroTargetValue c) = false.
Proof.
  unfold Reference.zeroTargetValue.
  destruct (c =? 0); [reflexivity|].
  destruct (0 <? c); reflexivity.
Qed.

(** C5 (the code at the failing input): with a daily target of 0 (a value
    the goals dialog stores for an empty or zero entry) and no session the
    compact card's percentage is [NaN], and with one completed session
    today it is [Infinity]: the division by the target is not guarded and
    the result is not a defined percentage.  The bar of the full view
    takes the same quotient.  The dashboard's own percentage of today's
    completed sessions, on the same input, is guarded and is 0. *)
Lemma zero_daily_target_percent_is_not_a_number :
  dailyGoalPercent 0 [] zeroGoals tuesdayEvening = NaN
  /\ isFinite (dailyGoalPercent 0 [] zeroGoals tuesdayEvening) = false
  /\ dailyGoalPercent 0 gapSessions zeroGoals tuesdayEvening = PosInfinity
  /\ todayBarValue 0 [] zeroGoals tuesdayEvening = NaN
  /\ todayBarValue 0 gapSessions zeroGoals tuesdayEvening = PosInfinity
  /\ Dashboard.progressPercentage 0 [] tuesdayEvening = Fin (inject_Z 0).
Proof. repeat split; vm_compute; reflexivity. Qed.

(** The zero-target defect is not particular to one input: for each of
    the three goals -- today's minutes, the week's minutes, the week's
    session count -- whose target is 0, the bar value and the rounded
    label are the unguarded quotient: [NaN] when the current value is 0,
    [Infinity] when it is positive, [-Infinity] when it is negative;
    never a finite number. *)
Lemma zero_target_percent_is_unguarded_quotient
        (utcOffset now : Z) (sessions : list StudySession) (goals : Goals)
        (m : Reference.Metric) :
  target (Reference.progressOf utcOffset sessions goals now m) = 0 ->
  progressValue (Reference.progressOf utcOffset sessions goals now m)
  = Reference.zeroTargetValue
      (current (Reference.progressOf utcOffset sessions goals now m))
  /\ percentLabel (Reference.progressOf utcOffset sessions goals now m)
     = Reference.zeroTargetValue
         (current (Reference.progressOf utcOffset sessions goals now m))
  /\ isFinite
       (progressValue (Reference.progressOf utcOffset sessions goals now m))
     = false
  /\ isFinite
       (percentLabel (Reference.progressOf utcOffset sessions goals now m))
     = false.
Proof.
  intros Hzero.
  destruct (progress_zero_target _ Hzero) as [Hbar Hlabel].
  rewrite Hbar, Hlabel.
  repeat split; apply zeroTargetValue_not_finite.
Qed.

Lemma zero_target_percent_is_unguarded_quotient_witness :
  todayBarValue 0 gapSessions zeroGoals tuesdayEvening = PosInfinity
  /\ dailyGoalPercent 0 gapSessions zeroGoals tuesdayEvening = PosInfinity.
Proof.
  pose proof (zero_target_percent_is_unguarded_quotient
                0 tuesdayEvening gapSessions zeroGoals
                Reference.TodayMinutes eq_refl) as [Hbar [Hlabel _]].
  split; [exact Hbar | exact Hlabel].
Defined.

(** The three targets are the goals' fields. *)
Lemma progressOf_target (utcOffset now : Z) (sessions : list StudySession)
      (goals : Goals) :
  target (Reference.progressOf utcOffset sessions goals now
                               Reference.TodayMinutes)
  = dailyMinutes goals
  /\ target (Reference.progressOf utcOffset sessions goals now
                                  Reference.WeekMinutes)
     = weeklyMinutes goals
  /\ target (Reference.progressOf utcOffset sessions goals now
                                  Reference.WeekSessions)
     = weeklySessions goals.
Proof. repeat split. Qed.
End ProgressFacts.

(* --------------------------------------------------------------------- *)
(** ** The timer *)
(* --------------------------------------------------------------------- *)

Section TimerFacts.
Import Session StudyTimer Inputs.

Lemma breakDuration_cases (t : Timer) :
  (breakDuration t = 900 /\ ((pomodoroCount t + 1) mod 4 = 0)%nat)
  \/ (breakDuration t = 300 /\ ((pomodoroCount t + 1) mod 4 <> 0)%nat).
Proof.
  unfold breakDuration.
  destruct (Nat.eqb_spec ((pomodoroCount t + 1) mod 4) 0) as [Hmod | Hmod].
  - destruct (Nat.ltb_spec 0 (pomodoroCount t)) as [Hpos | Hzero].
    + left. split; [reflexivity | exact Hmod].
    + exfalso. assert (Hp : pomodoroCount t = 0%nat) by lia.
      rewrite Hp in Hmod. cbn in Hmod. discriminate.
  - right. rewrite andb_false_r. split; [reflexivity | exact Hmod].
Qed.

(** C4: [startBreak] adds exactly 1 to [pomodoroCount], switches to
    break mode and to the running state, and starts a break whose length
    is 900 seconds exactly when [(pomodoroCount + 1) % 4 == 0] holds for
    the count at the moment the break starts, and 300 seconds
    otherwise. *)
Theorem startBreak_increments_and_picks_duration (t : Timer) :
  pomodoroCount (startBreak t) = S (pomodoroCount t)
  /\ mode (startBreak t) = break
  /\ state (startBreak t) = running
  /\ totalTime (startBreak t) = timeLeft (startBreak t)
  /\ (timeLeft (startBreak t) = 900
      <-> ((pomodoroCount t + 1) mod 4 = 0)%nat)
  /\ (((pomodoroCount t + 1) mod 4 <> 0)%nat
      -> timeLeft (startBreak t) = 300).
Proof.
  cbn [startBreak pomodoroCount mode state totalTime timeLeft].
  repeat (split; [reflexivity|]).
  destruct (breakDuration_cases t) as [[Hd Hm] | [Hd Hm]]; rewrite Hd.
  - split; [tauto | intros Hne; contradiction].
  - split; [split; [lia | intros Hz; contradiction] | reflexivity].
Qed.

(** The break after the first three study cycles is short, the one
    after the fourth is long. *)
Example breaks_of_first_cycle (s : StudySession) :
  map (fun n => timeLeft (Nat.iter n startBreak (initial s)))
      [1; 2; 3; 4; 5]%nat
  = [300; 300; 300; 900; 300].
Proof. reflexivity. Qed.

(** Ticking a running study timer that shows [n] seconds, [n] times. *)
Lemma ticks_reach_completed (s : StudySession) (bs : list bool) :
  forall t : Timer,
    state t = running -> mode t = study ->
    bs <> [] ->
    timeLeft t = Z.of_nat (List.length bs) ->
    run s (map Tick bs) t
    = ({| timerType := timerType t; mode := study; state := completed;
          timeLeft := 0; totalTime := totalTime t;
          pomodoroCount := pomodoroCount t |}, []).
Proof.
  induction bs as [| b rest IH]; intros t Hrun Hmode Hne Hleft.
  - contradiction.
  - cbn [map run step].
    destruct rest as [| b' rest'].
    + cbn [List.length] in Hleft. cbn [map run].
      unfold tick, intervalArmed. rewrite Hrun, Hleft, Hmode.
      reflexivity.
    + assert (Hbig : 2 <= timeLeft t)
        by (rewrite Hleft; cbn [List.length]; lia).
      assert (Htick : tick s b t
                      = {| timerType := timerType t; mode := mode t;
                           state := state t; timeLeft := timeLeft t - 1;
                           totalTime := totalTime t;
                           pomodoroCount := pomodoroCount t |}).
      { unfold tick, intervalArmed. rewrite Hrun. cbn [TimerState_eqb andb].
        destruct (Z.ltb_spec 0 (timeLeft t)); [|lia].
        destruct (Z.leb_spec (timeLeft t) 1); [lia|]. reflexivity. }
      rewrite Htick.
      rewrite IH.
      * cbn [timerType totalTime pomodoroCount app]. reflexivity.
      * exact Hrun.
      * exact Hmode.
      * discriminate.
      * cbn [timeLeft]. rewrite Hleft.
        change (List.length (b :: b' :: rest'))
          with (S (List.length (b' :: rest'))).
        lia.
Qed.

(** C6: a custom timer opened on a session of [d > 0] minutes, started,
    and ticked [d * 60] times ends in state [completed] with
    [timeLeft = 0] (and has invoked no callback). *)
Theorem custom_timer_completes_after_duration
        (s : StudySession) (bs : list bool) :
  0 < duration s ->
  List.length bs = Z.to_nat (duration s * 60) ->
  timerType (initial s) = custom
  /\ timeLeft (initial s) = duration s * 60
  /\ totalTime (initial s) = duration s * 60
  /\ state (fst (run s (Start :: map Tick bs) (initial s))) = completed
  /\ timeLeft (fst (run s (Start :: map Tick bs) (initial s))) = 0
  /\ snd (run s (Start :: map Tick bs) (initial s)) = [].
Proof.
  intros Hpos Hlen.
  repeat (split; [reflexivity|]).
  cbn [run step].
  rewrite (ticks_reach_completed s bs (handleStart (initial s))).
  - repeat split.
  - reflexivity.
  - reflexivity.
  - intros Hnil. rewrite Hnil in Hlen. cbn [List.length] in Hlen. lia.
  - cbn [handleStart timeLeft initial]. rewrite Hlen. lia.
Qed.

Lemma custom_timer_completes_after_duration_witness :
  state (fst (run oneMinuteSession
                  (Start :: map Tick (repeat false 60))
                  (initial oneMinuteSession))) = completed
  /\ timeLeft (fst (run oneMinuteSession
                        (Start :: map Tick (repeat false 60))
                        (initial oneMinuteSession))) = 0.
Proof.
  pose proof (custom_timer_completes_after_duration
                oneMinuteSession (repeat false 60)
                eq_refl eq_refl) as [_ [_ [_ [Hstate [Hleft _]]]]].
  split; [exact Hstate | exact Hleft].
Defined.

Lemma studyTimeOf_nonneg (s : StudySession) (ty : TimerType) :
  0 <= duration s -> 0 <= studyTimeOf s ty.
Proof.
  intros Hd. destruct ty; unfold studyTimeOf, pomodoroStudyDuration; lia.
Qed.

Lemma breakDuration_pos (t : Timer) : 0 < breakDuration t.
Proof.
  destruct (breakDuration_cases t) as [[Hd _] | [Hd _]]; rewrite Hd; lia.
Qed.

Lemma tick_inRange (s : StudySession) (b : bool) (t : Timer) :
  0 <= duration s -> inRange t -> inRange (tick s b t).
Proof.
  intros Hd [Hlo Hhi]. unfold tick.
  destruct (intervalArmed t); [|split; assumption].
  destruct (Z.leb_spec (timeLeft t) 1) as [Hlast | Hmore].
  - pose proof (studyTimeOf_nonneg s (timerType t) Hd) as Hst.
    destruct (mode t); unfold inRange; cbn [timeLeft totalTime].
    + lia.
    + destruct b; lia.
  - unfold inRange; cbn [timeLeft totalTime]. lia.
Qed.

(** C7: for a session of non-negative duration the initial state
    satisfies [0 <= timeLeft <= totalTime], every event (an interval
    firing -- break expiry included, whichever write lands last --,
    start, pause, reset, stop, timer-type selection, start break, skip
    break, mark complete, close) preserves it, and after a reset
    [timeLeft] equals [totalTime], the full duration of the current
    mode. *)
Theorem timer_events_keep_time_in_range
        (s : StudySession) (e : Event) (t : Timer) :
  0 <= duration s ->
  inRange t ->
  inRange (initial s)
  /\ inRange (fst (step s e t))
  /\ (e = Reset ->
      timeLeft (fst (step s e t)) = totalTime (fst (step s e t))
      /\ totalTime (fst (step s e t)) = durationFor s (fst (step s e t))
      /\ mode (fst (step s e t)) = mode t).
Proof.
  intros Hd Hin.
  pose proof (studyTimeOf_nonneg s (timerType t) Hd) as Hst.
  pose proof (breakDuration_pos t) as Hbr.
  split; [unfold inRange, initial; cbn [timeLeft totalTime]; lia|].
  split.
  - destruct e; cbn [step fst]; try exact Hin.
    + apply tick_inRange; assumption.
    + unfold handleReset, inRange.
      destruct (mode t); cbn [timeLeft totalTime]; lia.
    + unfold handleStop, inRange; cbn [timeLeft totalTime]; lia.
    + unfold handleTimerTypeChange.
      destruct (negb (TimerState_eqb (state t) idle)); [exact Hin|].
      pose proof (studyTimeOf_nonneg s type Hd).
      unfold inRange; cbn [timeLeft totalTime]; lia.
    + unfold startBreak, inRange; cbn [timeLeft totalTime]; lia.
    + unfold skipBreak, inRange; cbn [timeLeft totalTime]; lia.
  - intros He. subst e. cbn [step fst]. unfold handleReset, durationFor.
    destruct (mode t) eqn:Hmode; cbn [timeLeft totalTime mode timerType];
      repeat split; reflexivity.
Qed.

Lemma timer_events_keep_time_in_range_witness :
  inRange (fst (step oneMinuteSession Reset
                     (handlePause
                        (tick oneMinuteSession false
                              (handleStart (initial oneMinuteSession))))))
  /\ timeLeft (fst (step oneMinuteSession Reset
                         (handlePause
                            (tick oneMinuteSession false
                                  (handleStart
                                     (initial oneMinuteSession))))))
     = 60.
Proof.
  assert (Hd : 0 <= duration oneMinuteSession) by (cbn; lia).
  assert (Hin : inRange (handlePause
                           (tick oneMinuteSession false
                                 (handleStart (initial oneMinuteSession)))))
    by (unfold inRange; cbn; lia).
  pose proof (timer_events_keep_time_in_range
                oneMinuteSession Reset _ Hd Hin)
    as [_ [Hrange Hreset]].
  split; [exact Hrange|].
  destruct (Hreset eq_refl) as [Heq [Htotal _]].
  rewrite Heq, Htotal. reflexivity.
Defined.
End TimerFacts.

(* --------------------------------------------------------------------- *)
(** ** The completion callback *)
(* --------------------------------------------------------------------- *)

Section CallbackFacts.
Import Session StudyTimer Inputs.

Lemma TimerState_eqb_eq (a b : TimerState) :
  TimerState_eqb a b = true -> a = b.
Proof. destruct a, b; cbn; intros H; try reflexivity; discriminate. Qed.

(** C8: among the events the mounted component can receive, only the
    Mark Complete click invokes [onComplete]; it passes the session id
    and is offered only in the completed state.  An interval firing
    invokes nothing: when it expires a study countdown it sets the state
    to [completed] and [timeLeft] to 0, and leaves the rest as it is. *)
Theorem onComplete_only_from_mark_complete
        (s : StudySession) (e : Event) (t : Timer) :
  enabled e t = true ->
  (forall sid, In (OnComplete sid) (snd (step s e t)) ->
               e = MarkComplete /\ sid = id s /\ state t = completed
               /\ mode t = study)
  /\ (e = MarkComplete -> snd (step s e t) = [OnComplete (id s); OnClose])
  /\ (forall b, e = Tick b ->
                snd (step s e t) = []
                /\ (mode t = study -> timeLeft t <= 1 ->
                    fst (step s e t)
                    = {| timerType := timerType t; mode := study;
                         state := completed; timeLeft := 0;
                         totalTime := totalTime t;
                         pomodoroCount := pomodoroCount t |})).
Proof.
  intros Hen. split; [|split].
  - intros sid Hin.
    destruct e; cbn [step snd handleComplete In] in Hin;
      try contradiction;
      try (destruct Hin as [Hin | []]; discriminate).
    destruct Hin as [Hin | [Hin | []]]; [|discriminate].
    injection Hin as Hsid.
    cbn [enabled] in Hen. apply andb_prop in Hen as [Hst Hmo].
    apply TimerState_eqb_eq in Hst.
    destruct (mode t); [|discriminate].
    repeat split; [symmetry; exact Hsid | exact Hst].
  - intros He. subst e. reflexivity.
  - intros b He. subst e. cbn [step snd fst]. split; [reflexivity|].
    intros Hmode Hlast. cbn [enabled] in Hen.
    unfold tick. rewrite Hen.
    destruct (Z.leb_spec (timeLeft t) 1); [|lia].
    rewrite Hmode. reflexivity.
Qed.

Lemma onComplete_only_from_mark_complete_witness :
  snd (step oneMinuteSession MarkComplete
            (fst (run oneMinuteSession
                      (Start :: map Tick (repeat false 60))
                      (initial oneMinuteSession))))
  = [OnComplete (id oneMinuteSession); OnClose].
Proof.
  pose proof (onComplete_only_from_mark_complete
                oneMinuteSession MarkComplete
                (fst (run oneMinuteSession
                          (Start :: map Tick (repeat false 60))
                          (initial oneMinuteSession)))
                eq_refl) as [_ [Hmark _]].
  exact (Hmark eq_refl).
Defined.

(** A whole run invokes [onComplete] only if it contains a Mark
    Complete click. *)
Lemma run_onComplete_needs_mark_complete (s : StudySession)
      (es : list Event) :
  forall (t : Timer) (sid : string),
    In (OnComplete sid) (snd (run s es t)) ->
    In MarkComplete es /\ sid = id s.
Proof.
  induction es as [| e rest IH]; intros t sid Hin.
  - cbn in Hin. contradiction.
  - cbn [run] in Hin.
    destruct (step s e t) as [t1 out1] eqn:Hstep.
    destruct (run s rest t1) as [t2 out2] eqn:Hrun.
    cbn [snd] in Hin. apply in_app_or in Hin as [Hin | Hin].
    + destruct e; cbn [step] in Hstep; injection Hstep as _ Hout;
        subst out1; cbn in Hin;
        try contradiction;
        try (destruct Hin as [Hin | []]; discriminate).
      destruct Hin as [Hin | [Hin | []]]; [|discriminate].
      injection Hin as Hsid. split; [left; reflexivity | auto].
    + specialize (IH t1 sid). rewrite Hrun in IH. cbn [snd] in IH.
      destruct (IH Hin) as [Hmem Hsid].
      split; [right; exact Hmem | exact Hsid].
Qed.
End CallbackFacts.

(* --------------------------------------------------------------------- *)
(** ** Calendar export *)
(* --------------------------------------------------------------------- *)

Section CalendarFacts.
Import Session JsString CalendarExport Inputs.
Local Open Scope string_scope.

(** The payload is the five header lines, the events, and the closing
    line. *)
Lemma generateICSContent_shape (now : Z) (sessions : list StudySession) :
  generateICSContent now sessions
  = join newline
      [ "BEGIN:VCALENDAR"; "VERSION:2.0";
        "PRODID:-//StudySmart//Study Scheduler//EN";
        "CALSCALE:GREGORIAN"; "METHOD:PUBLISH";
        join newline (map (generateEvent now) sessions);
        "END:VCALENDAR" ].
Proof. reflexivity. Qed.

(** Every event carries the 15-minute alarm, and its end stamp is the
    start plus the duration in minutes. *)
Lemma eventLines_alarm_and_end (now : Z) (s : StudySession) :
  In "TRIGGER:-PT15M" (eventLines now s)
  /\ In ("DTSTART:" ++ formatDate (startTime s)) (eventLines now s)
  /\ In ("DTEND:" ++ formatDate (startTime s + duration s * 60000))
        (eventLines now s).
Proof. cbn. tauto. Qed.

(** C9 (code at the failing input): for a session whose topic is the
    generated plan topic "Trees - Binary Trees, BST, AVL Trees" the
    SUMMARY value is escaped, but the DESCRIPTION value carries the
    topic, and the CATEGORIES value the subject, as they are: the
    commas of the topic reach the DESCRIPTION line unescaped. *)
Theorem export_leaves_topic_unescaped_in_description :
  eventSummary treesSession
  = "data structures: Trees - Binary Trees\, BST\, AVL Trees"
  /\ wellEscaped (eventSummary treesSession) = true
  /\ eventDescription treesSession
     = "Study session: Trees - Binary Trees, BST, AVL Trees\n\nDifficulty: medium"
  /\ wellEscaped (eventDescription treesSession) = false
  /\ In ("DESCRIPTION:" ++ eventDescription treesSession)
        (eventLines tuesdayEvening treesSession).
Proof.
  split; [vm_compute; reflexivity|].
  split; [vm_compute; reflexivity|].
  split; [vm_compute; reflexivity|].
  split; [vm_compute; reflexivity|].
  unfold eventLines. apply in_or_app. left.
  cbn [In]. do 6 right. left. reflexivity.
Qed.
End CalendarFacts.

(* --------------------------------------------------------------------- *)
(** ** The study plan *)
(* --------------------------------------------------------------------- *)

Section PlanFacts.
Import JsString StudyPlan.
Local Open Scope string_scope.
Local Open Scope Z_scope.

Lemma firstn_then_firstn_skipn {A : Type} (a b : nat) (l : list A) :
  (firstn a l ++ firstn b (skipn a l))%list = firstn (a + b) l.
Proof.
  revert l. induction a as [| a IH]; intros l.
  - reflexivity.
  - destruct l as [| x l].
    + cbn. rewrite firstn_nil. reflexivity.
    + cbn [firstn skipn Nat.add app]. rewrite <- IH. reflexivity.
Qed.

(** The slice the loop takes for a day is the next [topicsPerDay]
    topics, as many as are left. *)
Lemma slice_is_next_chunk {A : Type} (l : list A) (startIdx per : Z) :
  0 <= startIdx -> 0 < per ->
  slice startIdx (Z.min (startIdx + per) (Z.of_nat (List.length l))) l
  = firstn (Z.to_nat per) (skipn (Z.to_nat startIdx) l).
Proof.
  intros Hs Hper. unfold slice.
  destruct (Z.le_gt_cases (startIdx + per) (Z.of_nat (List.length l)))
    as [Hfit | Hover].
  - rewrite Z.min_l by lia. f_equal. lia.
  - rewrite Z.min_r by lia.
    destruct (Z.le_gt_cases startIdx (Z.of_nat (List.length l)))
      as [Hin | Hout].
    + rewrite (firstn_all2 (n := Z.to_nat per)).
      * apply firstn_all2. rewrite length_skipn. lia.
      * rewrite length_skipn. lia.
    + rewrite (skipn_all2 (n := Z.to_nat startIdx)) by lia.
      rewrite !firstn_nil. reflexivity.
Qed.

Section Loop.
Variables (days per : Z) (allTopics : list string).
Hypothesis per_pos : 0 < per.

Lemma distribute_concat (fuel : nat) :
  forall d : Z,
    1 <= d ->
    List.concat (map topics (distribute fuel d days per allTopics))
    = firstn (fuel * Z.to_nat per)
             (skipn (Z.to_nat ((d - 1) * per)) allTopics).
Proof.
  induction fuel as [| fuel IH]; intros d Hd.
  - reflexivity.
  - cbn [distribute].
    rewrite slice_is_next_chunk by nia.
    set (chunk := firstn (Z.to_nat per)
                         (skipn (Z.to_nat ((d - 1) * per)) allTopics)).
    assert (Hrest :
              List.concat (map topics
                          (distribute fuel (d + 1) days per allTopics))
              = firstn (fuel * Z.to_nat per)
                       (skipn (Z.to_nat per)
                              (skipn (Z.to_nat ((d - 1) * per))
                                     allTopics))).
    { rewrite IH by lia. rewrite skipn_skipn. do 2 f_equal. nia. }
    assert (Hall :
              (chunk ++ List.concat (map topics
                          (distribute fuel (d + 1) days per allTopics)))%list
              = firstn (S fuel * Z.to_nat per)
                       (skipn (Z.to_nat ((d - 1) * per)) allTopics)).
    { rewrite Hrest. unfold chunk.
      rewrite firstn_then_firstn_skipn. f_equal. }
    destruct (Nat.ltb_spec 0 (List.length chunk)) as [Hsome | Hnone].
    + cbn [map List.concat topics]. exact Hall.
    + assert (Hnil : chunk = []) by (destruct chunk; cbn in *; [auto|lia]).
      rewrite <- Hall, Hnil. reflexivity.
Qed.

Lemma distribute_days_increase (fuel : nat) :
  forall d : Z,
    Forall (fun p => d <= day p) (distribute fuel d days per allTopics)
    /\ StronglySorted Z.lt
         (map day (distribute fuel d days per allTopics)).
Proof.
  induction fuel as [| fuel IH]; intros d.
  - split; constructor.
  - cbn [distribute].
    destruct (IH (d + 1)) as [Hge Hsorted].
    assert (Hge' : Forall (fun p => d <= day p)
                          (distribute fuel (d + 1) days per allTopics)).
    { eapply Forall_impl; [|exact Hge]. cbn. intros p Hp. lia. }
    match goal with
    | |- context [if ?c then _ else _] => destruct c
    end.
    + split.
      * constructor; [cbn; lia | exact Hge'].
      * cbn [map day]. constructor; [exact Hsorted|].
        apply Forall_map. eapply Forall_impl; [|exact Hge].
        cbn. intros p Hp. lia.
    + split; assumption.
Qed.

Lemma distribute_topics_nonempty (fuel : nat) :
  forall d : Z,
    Forall (fun p => topics p <> [])
           (distribute fuel d days per allTopics).
Proof.
  induction fuel as [| fuel IH]; intros d.
  - constructor.
  - cbn [distribute].
    match goal with
    | |- context [if (0 <? List.length ?c)%nat then _ else _] =>
        destruct (Nat.ltb_spec 0 (List.length c)) as [Hsome | Hnone]
    end.
    + constructor; [|apply IH].
      cbn [topics]. intros Hnil. rewrite Hnil in Hsome.
      cbn in Hsome. lia.
    + apply IH.
Qed.
End Loop.

Lemma ceilDiv_covers (a b : Z) :
  0 < a -> 1 <= b -> 0 < ceilDiv a b /\ a <= b * ceilDiv a b.
Proof.
  intros Ha Hb. unfold ceilDiv.
  pose proof (Z.div_mod (- a) b ltac:(lia)) as Hdm.
  pose proof (Z.mod_pos_bound (- a) b ltac:(lia)) as Hmod.
  split; nia.
Qed.

Lemma findTopics_cases (subjectLower : string)
      (entries : list (string * list string)) :
  (findTopics subjectLower entries = []
   /\ forall key value, In (key, value) entries ->
                        keyMatches subjectLower key = false)
  \/ (exists key, In (key, findTopics subjectLower entries) entries
                  /\ keyMatches subjectLower key = true).
Proof.
  induction entries as [| [key value] rest IH].
  - left. split; [reflexivity | intros key value []].
  - cbn [findTopics].
    destruct (keyMatches subjectLower key) eqn:Hkey.
    + right. exists key. split; [left; reflexivity | exact Hkey].
    + destruct IH as [[Hnil Hnone] | [k [Hin Hk]]].
      * left. split; [exact Hnil|].
        intros k v [Heq | Hin].
        -- injection Heq as Hk _. subst k. exact Hkey.
        -- exact (Hnone k v Hin).
      * right. exists k. split; [right; exact Hin | exact Hk].
Qed.

Lemma csTopics_all_fourteen :
  Forall (fun kv => List.length (snd kv) = 14%nat) csTopics.
Proof. unfold csTopics. repeat constructor. Qed.

(** The list the plan is cut from: the table entry of the first matching
    key, or the generic list when no key matches; 14 topics either
    way. *)
Lemma selectTopics_cases (subject : string) :
  List.length (selectTopics subject) = 14%nat
  /\ ((selectTopics subject = genericTopics subject
       /\ forall key value, In (key, value) csTopics ->
                            keyMatches (toLowerCase subject) key = false)
      \/ (exists key, In (key, selectTopics subject) csTopics
                      /\ keyMatches (toLowerCase subject) key = true)).
Proof.
  unfold selectTopics.
  destruct (findTopics_cases (toLowerCase subject) csTopics)
    as [[Hnil Hnone] | [key [Hin Hkey]]].
  - rewrite Hnil. cbn [List.length Nat.eqb].
    split; [reflexivity|]. left. split; [reflexivity | exact Hnone].
  - pose proof csTopics_all_fourteen as Hall.
    rewrite Forall_forall in Hall. specialize (Hall _ Hin).
    cbn [snd] in Hall. rewrite Hall. cbn [Nat.eqb].
    split; [exact Hall|]. right. exists key. split; assumption.
Qed.

(** C10: for every subject and every integer [days >= 1] the plan starts
    with day 1, its day numbers increase strictly, no entry has an empty
    topic list, and the topic lists concatenated are exactly the list
    selected for the subject -- 14 topics, the table entry of the first
    matching key or else the generic list. *)
Theorem study_plan_partitions_selected_topics
        (subject : string) (days : Z) :
  1 <= days ->
  (exists first rest,
      generateCSStudyPlan subject days = first :: rest /\ day first = 1)
  /\ StronglySorted Z.lt (map day (generateCSStudyPlan subject days))
  /\ Forall (fun p => topics p <> []) (generateCSStudyPlan subject days)
  /\ List.concat (map topics (generateCSStudyPlan subject days))
     = selectTopics subject
  /\ List.length (selectTopics subject) = 14%nat
  /\ ((selectTopics subject = genericTopics subject
       /\ forall key value, In (key, value) csTopics ->
                            keyMatches (toLowerCase subject) key = false)
      \/ (exists key, In (key, selectTopics subject) csTopics
                      /\ keyMatches (toLowerCase subject) key = true)).
Proof.
  intros Hdays.
  destruct (selectTopics_cases subject) as [Hlen Hwhich].
  assert (Hper : 0 < ceilDiv (Z.of_nat (List.length (selectTopics subject)))
                             days
                 /\ Z.of_nat (List.length (selectTopics subject))
                    <= days * ceilDiv (Z.of_nat
                                         (List.length (selectTopics subject)))
                                      days)
    by (apply ceilDiv_covers; lia).
  destruct Hper as [Hper Hcover].
  unfold generateCSStudyPlan.
  set (allTopics := selectTopics subject) in *.
  set (per := ceilDiv (Z.of_nat (List.length allTopics)) days) in *.
  split; [|split; [|split; [|split; [|split]]]].
  - destruct (Z.to_nat days) as [| fuel] eqn:Hfuel; [lia|].
    cbn [distribute].
    rewrite slice_is_next_chunk by lia.
    change (Z.to_nat ((1 - 1) * per)) with 0%nat. cbn [skipn].
    destruct allTopics as [| t0 rest0] eqn:Hall; [discriminate|].
    destruct (Z.to_nat per) as [| n] eqn:Hn; [lia|].
    cbn [firstn List.length Nat.ltb Nat.leb].
    eexists. eexists. split; reflexivity.
  - apply distribute_days_increase.
  - apply distribute_topics_nonempty.
  - rewrite distribute_concat by lia.
    change (Z.to_nat ((1 - 1) * per)) with 0%nat. cbn [skipn].
    apply firstn_all2. nia.
  - exact Hlen.
  - exact Hwhich.
Qed.

Lemma study_plan_partitions_selected_topics_witness :
  map day (generateCSStudyPlan "Python 3" 7) = [1; 2; 3; 4; 5; 6; 7]
  /\ List.concat (map topics (generateCSStudyPlan "Python 3" 7))
     = selectTopics "Python 3".
Proof.
  pose proof (study_plan_partitions_selected_topics "Python 3" 7
                ltac:(lia)) as [_ [_ [_ [Hconcat _]]]].
  split; [reflexivity | exact Hconcat].
Defined.
End PlanFacts.

(* --------------------------------------------------------------------- *)
(** ** What [escapeText] guarantees *)
(* --------------------------------------------------------------------- *)

Section EscapeFacts.
Import JsString CalendarExport.
Local Open Scope string_scope.

Lemma string_app_assoc (s1 s2 s3 : string) :
  (s1 ++ s2) ++ s3 = s1 ++ (s2 ++ s3).
Proof.
  induction s1 as [| a s1 IH]; [reflexivity|].
  cbn [append]. rewrite IH. reflexivity.
Qed.

Lemma replaceChar_app (c : ascii) (by_ s1 s2 : string) :
  replaceChar c by_ (s1 ++ s2)
  = replaceChar c by_ s1 ++ replaceChar c by_ s2.
Proof.
  induction s1 as [| a s1 IH]; [reflexivity|].
  cbn [append replaceChar]. rewrite IH.
  destruct (Ascii.eqb a c); [|reflexivity].
  symmetry. apply string_app_assoc.
Qed.

Lemma escapeText_cons (a : ascii) (rest : string) :
  escapeText (String a rest) = escapeChar a ++ escapeText rest.
Proof.
  unfold escapeText, escapeChar.
  change (String a rest) with (String a EmptyString ++ rest).
  rewrite !replaceChar_app. f_equal.
  cbn [replaceChar].
  destruct (Ascii.eqb_spec a backslash) as [-> | Hbs]; [reflexivity|].
  cbn [replaceChar].
  destruct (Ascii.eqb_spec a ";"%char) as [-> | Hsemi]; [reflexivity|].
  cbn [replaceChar].
  destruct (Ascii.eqb_spec a ","%char) as [-> | Hcomma]; [reflexivity|].
  cbn [replaceChar].
  destruct (Ascii.eqb_spec a (ascii_of_nat 10)) as [-> | Hnl]; reflexivity.
Qed.

(** The output of [escapeText] is a well-escaped value: the SUMMARY, the
    session description and the goals, which pass through it, are. *)
Lemma escapeText_wellEscaped (text : string) :
  wellEscaped (escapeText text) = true.
Proof.
  unfold wellEscaped.
  induction text as [| a rest IH]; [reflexivity|].
  rewrite escapeText_cons. unfold escapeChar.
  destruct (Ascii.eqb_spec a backslash) as [-> | Hbs]; [exact IH|].
  destruct (Ascii.eqb_spec a ";"%char) as [-> | Hsemi]; [exact IH|].
  destruct (Ascii.eqb_spec a ","%char) as [-> | Hcomma]; [exact IH|].
  destruct (Ascii.eqb_spec a (ascii_of_nat 10)) as [-> | Hnl]; [exact IH|].
  cbn [append wellEscapedFrom].
  destruct (Ascii.eqb_spec a backslash); [contradiction|].
  destruct (Ascii.eqb_spec a ";"%char); [contradiction|].
  destruct (Ascii.eqb_spec a ","%char); [contradiction|].
  destruct (Ascii.eqb_spec a (ascii_of_nat 10)); [contradiction|].
  exact IH.
Qed.
End EscapeFacts.

(* --------------------------------------------------------------------- *)
(** ** More on the timer *)
(* --------------------------------------------------------------------- *)

Section TimerMoreFacts.
Import Session JsNumber StudyTimer TimerDisplay Inputs.

(** X1: Choosing a timer type takes effect only while idle: then both times
    become the study time of the chosen type -- 1500 seconds for pomodoro,
    whatever the session's duration -- and the pomodoro count restarts at
    0; in any other state the click changes nothing. *)
Theorem timer_type_change_only_while_idle
        (s : StudySession) (type : TimerType) (t : Timer) :
  (state t = idle ->
   handleTimerTypeChange s type t
   = {| timerType := type; mode := mode t; state := idle;
        timeLeft := studyTimeOf s type; totalTime := studyTimeOf s type;
        pomodoroCount := 0 |}
   /\ (type = pomodoro ->
       totalTime (handleTimerTypeChange s type t) = 1500
       /\ timeLeft (handleTimerTypeChange s type t) = 1500))
  /\ (state t <> idle -> handleTimerTypeChange s type t = t).
Proof.
  unfold handleTimerTypeChange. split.
  - intros Hidle. rewrite Hidle. cbn [TimerState_eqb negb].
    split; [reflexivity|]. intros Hty. subst type. split; reflexivity.
  - intros Hbusy. destruct (state t); cbn [TimerState_eqb negb];
      [contradiction | reflexivity | reflexivity | reflexivity].
Qed.

(** Ticking a running break that shows [n] seconds, [n] times. *)
Lemma ticks_end_break (s : StudySession) (bs : list bool) :
  forall (t : Timer) (b : bool),
    state t = running -> mode t = break ->
    timeLeft t = Z.of_nat (List.length (bs ++ [b])) ->
    run s (map Tick (bs ++ [b])) t
    = ({| timerType := timerType t; mode := study; state := idle;
          timeLeft := if b then 0 else studyTimeOf s (timerType t);
          totalTime := studyTimeOf s (timerType t);
          pomodoroCount := pomodoroCount t |}, []).
Proof.
  induction bs as [| b0 rest IH]; intros t b Hrun Hmode Hleft.
  - cbn [app map run step List.length] in *.
    unfold tick, intervalArmed. rewrite Hrun, Hleft, Hmode. reflexivity.
  - cbn [app map run step].
    assert (Hbig : 2 <= timeLeft t).
    { rewrite Hleft. cbn [app List.length]. rewrite length_app.
      cbn [List.length]. lia. }
    assert (Htick : tick s b0 t
                    = {| timerType := timerType t; mode := mode t;
                         state := state t; timeLeft := timeLeft t - 1;
                         totalTime := totalTime t;
                         pomodoroCount := pomodoroCount t |}).
    { unfold tick, intervalArmed. rewrite Hrun. cbn [TimerState_eqb andb].
      destruct (Z.ltb_spec 0 (timeLeft t)); [|lia].
      destruct (Z.leb_spec (timeLeft t) 1); [lia|]. reflexivity. }
    rewrite Htick.
    rewrite (IH _ b).
    + cbn [timerType pomodoroCount app]. reflexivity.
    + exact Hrun.
    + exact Hmode.
    + cbn [timeLeft]. rewrite Hleft. cbn [app List.length]. lia.
Qed.

(** X2: A break started from any state and left to run for its whole length
    (900 or 300 interval firings) ends in study mode, idle, with
    [totalTime] back at the study time of the timer type; the count keeps
    the increment of [startBreak], and no callback is invoked.  [timeLeft]
    is the study time, or 0 when the updater's return value lands last. *)
Theorem break_runs_out_into_idle_study
        (s : StudySession) (t : Timer) (bs : list bool) (b : bool) :
  Z.of_nat (List.length (bs ++ [b])) = breakDuration t ->
  run s (StartBreak :: map Tick (bs ++ [b])) t
  = ({| timerType := timerType t; mode := study; state := idle;
        timeLeft := if b then 0 else studyTimeOf s (timerType t);
        totalTime := studyTimeOf s (timerType t);
        pomodoroCount := S (pomodoroCount t) |}, []).
Proof.
  intros Hlen. cbn [run step].
  rewrite (ticks_end_break s bs (startBreak t) b).
  - reflexivity.
  - reflexivity.
  - reflexivity.
  - cbn [startBreak timeLeft]. symmetry. exact Hlen.
Qed.

Lemma break_runs_out_into_idle_study_witness :
  fst (run oneMinuteSession
           (StartBreak :: map Tick (repeat false 299 ++ [false]))
           (initial oneMinuteSession))
  = {| timerType := custom; mode := study; state := idle;
       timeLeft := 60; totalTime := 60; pomodoroCount := 1 |}.
Proof.
  rewrite (break_runs_out_into_idle_study
             oneMinuteSession (initial oneMinuteSession)
             (repeat false 299) false eq_refl).
  reflexivity.
Defined.

Lemma step_pomodoroCount (s : StudySession) (e : Event) (t : Timer) :
  isSelectType e = false ->
  pomodoroCount (fst (step s e t))
  = (pomodoroCount t + countStartBreak [e])%nat.
Proof.
  intros Hsel.
  destruct e; cbn [step fst countStartBreak]; try discriminate;
    try (cbn; lia).
  - unfold tick. destruct (intervalArmed t); [|lia].
    destruct (timeLeft t <=? 1); [destruct (mode t)|]; cbn; lia.
  - unfold handleReset. destruct (mode t); cbn; lia.
Qed.

Lemma countStartBreak_cons (e : Event) (es : list Event) :
  countStartBreak (e :: es)
  = (countStartBreak [e] + countStartBreak es)%nat.
Proof. destruct e; reflexivity. Qed.

(** X3: Over any sequence of events that contains no timer-type selection,
    the pomodoro count grows by exactly the number of Start Break clicks:
    ticks, start, pause, reset, stop, skip break, mark complete and close
    leave it alone. *)
Theorem pomodoroCount_counts_started_breaks
        (s : StudySession) (es : list Event) (t : Timer) :
  forallb (fun e => negb (isSelectType e)) es = true ->
  pomodoroCount (fst (run s es t))
  = (pomodoroCount t + countStartBreak es)%nat.
Proof.
  revert t. induction es as [| e rest IH]; intros t Hnone.
  - cbn. lia.
  - cbn [forallb] in Hnone. apply andb_prop in Hnone as [He Hrest].
    apply negb_true_iff in He.
    cbn [run].
    destruct (step s e t) as [t1 out1] eqn:Hstep.
    destruct (run s rest t1) as [t2 out2] eqn:Hrun.
    cbn [fst].
    pose proof (IH t1 Hrest) as Hind. rewrite Hrun in Hind. cbn [fst] in Hind.
    pose proof (step_pomodoroCount s e t He) as Hone.
    rewrite Hstep in Hone. cbn [fst] in Hone.
    rewrite countStartBreak_cons. lia.
Qed.

Lemma pomodoroCount_counts_started_breaks_witness :
  pomodoroCount
    (fst (run oneMinuteSession
              [Start; Tick false; Pause; Reset; StartBreak; Stop; StartBreak]
              (initial oneMinuteSession)))
  = 2%nat.
Proof.
  rewrite (pomodoroCount_counts_started_breaks
             oneMinuteSession
             [Start; Tick false; Pause; Reset; StartBreak; Stop; StartBreak]
             (initial oneMinuteSession) eq_refl).
  reflexivity.
Defined.

(** X4: Resetting a paused break does not restore the length the break was
    started with: [handleReset] recomputes [breakDuration] from the count
    [startBreak] has already incremented, so the break restarts at 900
    seconds exactly when the count before the break plus 2 is a multiple
    of 4.  A 300-second break after the third pomodoro resets to 900
    seconds, and the 900-second break after the fourth resets to 300. *)
Theorem reset_during_break_uses_incremented_count
        (s : StudySession) (t : Timer) :
  let paused_break := handlePause (startBreak t) in
  mode (handleReset s paused_break) = break
  /\ state (handleReset s paused_break) = idle
  /\ timeLeft (handleReset s paused_break)
     = totalTime (handleReset s paused_break)
  /\ totalTime (handleReset s paused_break)
     = (if ((pomodoroCount t + 2) mod 4 =? 0)%nat then 900 else 300)
  /\ (pomodoroCount t = 2%nat ->
      totalTime (startBreak t) = 300
      /\ totalTime (handleReset s paused_break) = 900)
  /\ (pomodoroCount t = 3%nat ->
      totalTime (startBreak t) = 900
      /\ totalTime (handleReset s paused_break) = 300).
Proof.
  cbn zeta.
  assert (Htotal : totalTime (handleReset s (handlePause (startBreak t)))
                   = (if ((pomodoroCount t + 2) mod 4 =? 0)%nat
                      then 900 else 300)).
  { change (totalTime (handleReset s (handlePause (startBreak t))))
      with (breakDuration (handlePause (startBreak t))).
    unfold breakDuration.
    change (pomodoroCount (handlePause (startBreak t)))
      with (S (pomodoroCount t)).
    change (0 <? S (pomodoroCount t))%nat with true. cbn [andb].
    replace (S (pomodoroCount t) + 1)%nat with (pomodoroCount t + 2)%nat
      by lia.
    destruct ((pomodoroCount t + 2) mod 4 =? 0)%nat; reflexivity. }
  repeat split; try reflexivity; try exact Htotal.
  - cbn [startBreak totalTime]. unfold breakDuration. rewrite H. reflexivity.
  - rewrite Htotal, H. reflexivity.
  - cbn [startBreak totalTime]. unfold breakDuration. rewrite H. reflexivity.
  - rewrite Htotal, H. reflexivity.
Qed.

(** X5: The two places that announce the break length agree with the break
    that is started: the Start Break button says 15min exactly when the
    break it starts lasts 900 seconds, and the header shown during that
    break says Long exactly then too. *)
Theorem break_labels_match_started_break (t : Timer) :
  (startBreakButtonSays15 t = true <-> totalTime (startBreak t) = 900)
  /\ (breakHeaderSaysLong (startBreak t) = true
      <-> totalTime (startBreak t) = 900).
Proof.
  cbn [startBreak totalTime].
  unfold startBreakButtonSays15, breakHeaderSaysLong.
  cbn [startBreak pomodoroCount].
  replace (S (pomodoroCount t)) with (pomodoroCount t + 1)%nat by lia.
  destruct (breakDuration_cases t) as [[Hd Hm] | [Hd Hm]]; rewrite Hd.
  - assert (Hpos : (0 <? pomodoroCount t)%nat = true).
    { apply Nat.ltb_lt. destruct (pomodoroCount t); [cbn in Hm; lia | lia]. }
    rewrite Hpos, Hm. cbn. tauto.
  - apply Nat.eqb_neq in Hm. rewrite Hm, andb_false_r.
    split; split; intros H; try discriminate; lia.
Qed.

Lemma scaled_ratio_bounds (a b : Z) :
  0 <= a <= b -> 0 < b ->
  (0 <= Qred (Qred (inject_Z a / inject_Z b) * inject_Z 100) <= inject_Z 100)%Q.
Proof.
  intros Ha Hb.
  rewrite !Qred_correct.
  destruct b as [| p | p]; try lia.
  unfold Qdiv, Qinv, Qmult, Qle, inject_Z. cbn.
  split; nia.
Qed.

(** X6: The progress bar value [((totalTime - timeLeft) / totalTime) * 100]
    is a number between 0 and 100 whenever [0 <= timeLeft <= totalTime]
    and [totalTime] is positive: 0 with the full time left and 100 at
    [timeLeft = 0].  For a session of duration 0, where both times are 0,
    it is [NaN]. *)
Theorem progress_bar_between_0_and_100 (t : Timer) :
  inRange t ->
  (0 < totalTime t ->
   exists q, getProgress t = Fin q /\ (0 <= q <= inject_Z 100)%Q)
  /\ (0 < totalTime t -> timeLeft t = totalTime t ->
      getProgress t = Fin (inject_Z 0))
  /\ (0 < totalTime t -> timeLeft t = 0 ->
      getProgress t = Fin (inject_Z 100))
  /\ (totalTime t = 0 -> getProgress t = NaN).
Proof.
  intros [Hlo Hhi]. unfold getProgress, div.
  split; [|split; [|split]].
  - intros Hpos. destruct (Z.eqb_spec (totalTime t) 0) as [Hz | _]; [lia|].
    cbn [times100]. eexists. split; [reflexivity|].
    apply scaled_ratio_bounds; lia.
  - intros Hpos Hfull. rewrite Hfull, Z.sub_diag.
    destruct (Z.eqb_spec (totalTime t) 0) as [Hz | _]; [lia|].
    cbn [times100]. apply f_equal.
    destruct (totalTime t) as [| p | p]; try lia. reflexivity.
  - intros Hpos Hdone. rewrite Hdone, Z.sub_0_r.
    destruct (Z.eqb_spec (totalTime t) 0) as [Hz | _]; [lia|].
    cbn [times100]. apply f_equal.
    destruct (totalTime t) as [| p | p]; try lia.
    change (inject_Z 100) with (Qred (inject_Z 100)) at 2.
    apply Qred_complete.
    rewrite Qred_correct. unfold Qdiv, Qinv, Qmult, Qeq, inject_Z. cbn. lia.
  - intros Hzero. rewrite Hzero.
    assert (Hleft : timeLeft t = 0) by lia. rewrite Hleft. reflexivity.
Qed.

Lemma progress_bar_between_0_and_100_witness :
  exists q,
    getProgress (tick oneMinuteSession false
                      (handleStart (initial oneMinuteSession))) = Fin q
    /\ (0 <= q <= inject_Z 100)%Q.
Proof.
  apply (progress_bar_between_0_and_100
           (tick oneMinuteSession false
                 (handleStart (initial oneMinuteSession)))).
  - unfold inRange. cbn. lia.
  - cbn. lia.
Defined.
End TimerMoreFacts.

(* --------------------------------------------------------------------- *)
(** ** More on streaks and the week *)
(* --------------------------------------------------------------------- *)

Section StreakMoreFacts.
Import DateModel Session GoalsAndStreaks Inputs.

Lemma length_setOf_le (l : list Z) :
  (List.length (setOf l) <= List.length l)%nat.
Proof.
  induction l as [| x rest IH]; [reflexivity|].
  cbn [setOf List.length].
  pose proof (filter_length_le (fun y => negb (y =? x)) (setOf rest)).
  lia.
Qed.

Lemma length_insertBy (cmp : Z -> Z -> Z) (x : Z) (l : list Z) :
  List.length (insertBy cmp x l) = S (List.length l).
Proof.
  induction l as [| y rest IH]; [reflexivity|].
  cbn [insertBy]. destruct (cmp x y <=? 0); cbn [List.length]; lia.
Qed.

Lemma length_sortBy (cmp : Z -> Z -> Z) (l : list Z) :
  List.length (sortBy cmp l) = List.length l.
Proof.
  induction l as [| x rest IH]; [reflexivity|].
  cbn [sortBy fold_right]. fold (sortBy cmp rest).
  rewrite length_insertBy, IH. reflexivity.
Qed.

Lemma insertBy_In (cmp : Z -> Z -> Z) (x y : Z) (l : list Z) :
  In y (insertBy cmp x l) <-> y = x \/ In y l.
Proof.
  induction l as [| z rest IH]; [cbn; intuition|].
  cbn [insertBy]. destruct (cmp x z <=? 0); cbn [In] in *; intuition.
Qed.

Lemma sortBy_In (cmp : Z -> Z -> Z) (y : Z) (l : list Z) :
  In y (sortBy cmp l) <-> In y l.
Proof.
  induction l as [| x rest IH]; [reflexivity|].
  cbn [sortBy fold_right]. fold (sortBy cmp rest).
  rewrite insertBy_In, IH. cbn [In]. intuition.
Qed.

Lemma streakLoop_bounds (dates : list Z) :
  forall (checkDate : Z) (streak : nat),
    (streak <= streakLoop dates checkDate streak
     <= streak + List.length dates)%nat.
Proof.
  induction dates as [| d rest IH]; intros checkDate streak.
  - cbn. lia.
  - cbn [streakLoop List.length].
    destruct ((d =? checkDate) || (d =? checkDate - 86400000)).
    + specialize (IH (d - 86400000) (S streak)). lia.
    + lia.
Qed.

Lemma longestLoop_bounds (rest : list Z) :
  forall (prev : Z) (currentStreak maxStreak : nat),
    (maxStreak <= longestLoop prev rest currentStreak maxStreak
     <= Nat.max maxStreak (currentStreak + List.length rest))%nat.
Proof.
  induction rest as [| d rest IH]; intros prev cur mx.
  - cbn. lia.
  - cbn [longestLoop List.length].
    destruct (d =? prev + 86400000).
    + specialize (IH d (S cur) (Nat.max mx (S cur))). lia.
    + specialize (IH d 1%nat mx). lia.
Qed.

(** X7: Neither streak exceeds the number of completed sessions (nor the
    number of distinct days they fall on); the longest streak is at least
    1 as soon as one session is completed, and both are 0 without one. *)
Theorem streaks_bounded_by_completed_sessions
        (utcOffset now : Z) (sessions : list StudySession) :
  (calculateStreak utcOffset sessions now
   <= List.length (completedDates utcOffset sessions))%nat
  /\ (calculateLongestStreak utcOffset sessions
      <= List.length (completedDates utcOffset sessions))%nat
  /\ (List.length (completedDates utcOffset sessions)
      <= List.length (filter completed sessions))%nat
  /\ (filter completed sessions <> [] ->
      (1 <= calculateLongestStreak utcOffset sessions)%nat)
  /\ (filter completed sessions = [] ->
      calculateStreak utcOffset sessions now = 0%nat
      /\ calculateLongestStreak utcOffset sessions = 0%nat).
Proof.
  split; [|split; [|split; [|split]]].
  - unfold calculateStreak.
    match goal with
    | |- context [if ?c then _ else _] => destruct c
    end; [lia|].
    pose proof (streakLoop_bounds
                  (sortBy (fun a b => b - a)
                          (completedDates utcOffset sessions))
                  (setHours0 utcOffset now) 0) as Hb.
    rewrite length_sortBy in Hb. lia.
  - unfold calculateLongestStreak.
    pose proof (length_sortBy (fun a b => a - b)
                              (completedDates utcOffset sessions)) as Hlen.
    destruct (sortBy (fun a b => a - b) (completedDates utcOffset sessions))
      as [| first rest]; [lia|].
    pose proof (longestLoop_bounds rest first 1 1) as Hb.
    cbn [List.length] in Hlen. lia.
  - unfold completedDates.
    pose proof (length_setOf_le
                  (map (fun s => setHours0 utcOffset (startTime s))
                       (filter completed sessions))) as Hle.
    rewrite length_map in Hle. exact Hle.
  - intros Hsome. unfold calculateLongestStreak.
    pose proof (length_sortBy (fun a b => a - b)
                              (completedDates utcOffset sessions)) as Hlen.
    destruct (sortBy (fun a b => a - b) (completedDates utcOffset sessions))
      as [| first rest].
    + exfalso. unfold completedDates in Hlen.
      destruct (filter completed sessions) as [| s l]; [contradiction|].
      cbn in Hlen. lia.
    + pose proof (longestLoop_bounds rest first 1 1). lia.
  - intros Hnone. unfold calculateStreak, calculateLongestStreak,
      completedDates. rewrite Hnone. split; reflexivity.
Qed.

(** X8: Sessions that are not completed do not count: a list extended by
    sessions that are not completed has the same current streak, longest
    streak, today's progress and week's progress. *)
Theorem uncompleted_sessions_change_nothing
        (utcOffset now : Z) (sessions added : list StudySession)
        (goals : Goals) :
  forallb (fun s => negb (completed s)) added = true ->
  calculateStreak utcOffset (sessions ++ added) now
  = calculateStreak utcOffset sessions now
  /\ calculateLongestStreak utcOffset (sessions ++ added)
     = calculateLongestStreak utcOffset sessions
  /\ getTodayProgress utcOffset (sessions ++ added) goals now
     = getTodayProgress utcOffset sessions goals now
  /\ getWeekProgress utcOffset (sessions ++ added) goals now
     = getWeekProgress utcOffset sessions goals now.
Proof.
  intros Hadded.
  assert (Hfilter : forall g : StudySession -> bool,
             filter (fun s => completed s && g s) (sessions ++ added)
             = filter (fun s => completed s && g s) sessions).
  { intros g. rewrite filter_app.
    assert (Hnil : filter (fun s => completed s && g s) added = []).
    { induction added as [| a rest IH]; [reflexivity|].
      cbn [forallb] in Hadded. apply andb_prop in Hadded as [Ha Hrest].
      apply negb_true_iff in Ha. cbn [filter]. rewrite Ha. cbn [andb].
      exact (IH Hrest). }
    rewrite Hnil. apply app_nil_r. }
  assert (Hcompleted : filter completed (sessions ++ added)
                       = filter completed sessions).
  { pose proof (Hfilter (fun _ => true)) as Hf.
    erewrite filter_ext in Hf; [|intros s; apply andb_true_r].
    rewrite Hf. apply filter_ext. intros s. apply andb_true_r. }
  unfold calculateStreak, calculateLongestStreak, completedDates,
    getTodayProgress, getWeekProgress, weekSessions.
  rewrite Hcompleted, !Hfilter. repeat split.
Qed.

Lemma uncompleted_sessions_change_nothing_witness :
  calculateStreak 0 (gapSessions ++ [oneMinuteSession]) tuesdayEvening
  = calculateStreak 0 gapSessions tuesdayEvening.
Proof.
  exact (proj1 (uncompleted_sessions_change_nothing
                  0 tuesdayEvening gapSessions [oneMinuteSession]
                  someGoals eq_refl)).
Defined.

(** In a list sorted by [(a, b) => b - a] no element exceeds the first. *)
Lemma insertBy_desc_head (x : Z) (l : list Z) :
  (forall h t, l = h :: t -> forall y, In y t -> y <= h) ->
  forall h t, insertBy (fun a b => b - a) x l = h :: t ->
              forall y, In y t -> y <= h.
Proof.
  intros Hl h t Hins y Hy.
  destruct l as [| z rest].
  - cbn in Hins. injection Hins as <- <-. destruct Hy.
  - cbn [insertBy] in Hins.
    destruct (Z.leb_spec (z - x) 0) as [Hle | Hgt].
    + injection Hins as <- <-. destruct Hy as [<- | Hy]; [lia|].
      specialize (Hl z rest eq_refl y Hy). lia.
    + injection Hins as <- <-. apply insertBy_In in Hy.
      destruct Hy as [-> | Hy]; [lia|].
      exact (Hl z rest eq_refl y Hy).
Qed.

Lemma sortBy_desc_head (l : list Z) :
  forall h t, sortBy (fun a b => b - a) l = h :: t ->
              forall y, In y l -> y <= h.
Proof.
  assert (Htail : forall h t, sortBy (fun a b => b - a) l = h :: t ->
                              forall y, In y t -> y <= h).
  { induction l as [| x rest IH]; [discriminate|].
    cbn [sortBy fold_right]. fold (sortBy (fun a b => b - a) rest).
    apply insertBy_desc_head. exact IH. }
  intros h t Hsort y Hy.
  apply (sortBy_In (fun a b => b - a)) in Hy. rewrite Hsort in Hy.
  destruct Hy as [<- | Hy]; [lia|].
  exact (Htail h t Hsort y Hy).
Qed.

Lemma completedDates_In (utcOffset : Z) (sessions : list StudySession)
      (d : Z) :
  In d (completedDates utcOffset sessions)
  <-> exists s, In s sessions /\ completed s = true
                /\ d = localDay utcOffset (startTime s) * msPerDay
                       - utcOffset.
Proof.
  unfold completedDates. rewrite setOf_In, in_map_iff.
  split.
  - intros [s [Hd Hin]]. apply filter_In in Hin as [Hin Hc].
    exists s. unfold setHours0 in Hd. auto.
  - intros [s [Hin [Hc Hd]]]. exists s.
    rewrite filter_In. unfold setHours0. auto.
Qed.

(** The loop of [calculateStreak] looks at the latest completed day first
    and stops there unless it is today or yesterday. *)
Lemma streak_zero_when_latest_is_old (utcOffset now : Z)
      (sessions : list StudySession) :
  (forall h t,
      sortBy (fun a b => b - a) (completedDates utcOffset sessions) = h :: t ->
      h <> setHours0 utcOffset now
      /\ h <> setHours0 utcOffset now - 86400000) ->
  calculateStreak utcOffset sessions now = 0%nat.
Proof.
  intros Hhead. unfold calculateStreak.
  destruct (sortBy (fun a b => b - a) (completedDates utcOffset sessions))
    as [| h t] eqn:Hsort; [reflexivity|].
  cbn [List.length Nat.eqb streakLoop].
  destruct (Hhead h t eq_refl) as [Hne1 Hne2].
  apply Z.eqb_neq in Hne1, Hne2. rewrite Hne1, Hne2. reflexivity.
Qed.

(** X9: When no session was completed today or yesterday the current streak
    is 0, however long the run of days before was. *)
Theorem streak_is_lost_after_two_idle_days
        (utcOffset now : Z) (sessions : list StudySession) :
  (forall s, In s sessions -> completed s = true ->
             localDay utcOffset (startTime s) <> localDay utcOffset now
             /\ localDay utcOffset (startTime s)
                <> localDay utcOffset now - 1) ->
  calculateStreak utcOffset sessions now = 0%nat.
Proof.
  intros Hidle. apply streak_zero_when_latest_is_old.
  intros h t Hsort.
  assert (Hin : In h (completedDates utcOffset sessions)).
  { apply (sortBy_In (fun a b => b - a)). rewrite Hsort. left. reflexivity. }
  apply completedDates_In in Hin as [s [Hs [Hc Hd]]].
  destruct (Hidle s Hs Hc) as [Hn1 Hn2].
  unfold setHours0, msPerDay in *. split; lia.
Qed.

Lemma streak_is_lost_after_two_idle_days_witness :
  calculateStreak 0 gapSessions (tuesdayEvening + 2 * 86400000) = 0%nat.
Proof.
  apply streak_is_lost_after_two_idle_days.
  intros s [<- | [<- | []]] _; vm_compute; split; discriminate.
Defined.

(** X10: A completed session dated after today hides every other one: the loop
    meets it first, it is neither today nor yesterday, and the current
    streak is 0 even with sessions completed today and yesterday. *)
Theorem future_completed_session_zeroes_streak
        (utcOffset now : Z) (sessions : list StudySession)
        (s : StudySession) :
  In s sessions -> completed s = true ->
  localDay utcOffset now < localDay utcOffset (startTime s) ->
  calculateStreak utcOffset sessions now = 0%nat.
Proof.
  intros Hin Hc Hlater. apply streak_zero_when_latest_is_old.
  intros h t Hsort.
  assert (Hmax : localDay utcOffset (startTime s) * msPerDay - utcOffset
                 <= h).
  { apply (sortBy_desc_head _ h t Hsort).
    apply completedDates_In. exists s. auto. }
  unfold setHours0, msPerDay in *. split; lia.
Qed.

Lemma future_completed_session_zeroes_streak_witness :
  calculateStreak 0 gapSessions (tuesdayEvening - 86400000) = 0%nat.
Proof.
  apply (future_completed_session_zeroes_streak
           0 (tuesdayEvening - 86400000) gapSessions
           (mkSession "s1" "algorithms" "Recursion" 60 1699952400000 true)).
  - left. reflexivity.
  - reflexivity.
  - vm_compute. reflexivity.
Defined.

(** X11: With a session completed today and none dated later, the current
    streak is at least 1. *)
Theorem streak_counts_today
        (utcOffset now : Z) (sessions : list StudySession)
        (s : StudySession) :
  In s sessions -> completed s = true ->
  localDay utcOffset (startTime s) = localDay utcOffset now ->
  (forall s', In s' sessions -> completed s' = true ->
              localDay utcOffset (startTime s')
              <= localDay utcOffset now) ->
  (1 <= calculateStreak utcOffset sessions now)%nat.
Proof.
  intros Hin Hc Htoday Hnone_later.
  assert (Hmem : In (setHours0 utcOffset now)
                    (completedDates utcOffset sessions)).
  { apply completedDates_In. exists s. unfold setHours0.
    rewrite Htoday. auto. }
  unfold calculateStreak.
  destruct (sortBy (fun a b => b - a) (completedDates utcOffset sessions))
    as [| h t] eqn:Hsort.
  - apply (sortBy_In (fun a b => b - a)) in Hmem. rewrite Hsort in Hmem.
    destruct Hmem.
  - cbn [List.length Nat.eqb streakLoop].
    assert (Hh : h = setHours0 utcOffset now).
    { pose proof (sortBy_desc_head _ h t Hsort _ Hmem) as Hge.
      assert (Hhin : In h (completedDates utcOffset sessions)).
      { apply (sortBy_In (fun a b => b - a)). rewrite Hsort. left.
        reflexivity. }
      apply completedDates_In in Hhin as [s' [Hs' [Hc' Hd']]].
      specialize (Hnone_later s' Hs' Hc').
      unfold setHours0, msPerDay in *. lia. }
    rewrite Hh, Z.eqb_refl. cbn [orb].
    pose proof (streakLoop_bounds t (setHours0 utcOffset now - 86400000) 1).
    lia.
Qed.

Lemma streak_counts_today_witness :
  (1 <= calculateStreak 0 gapSessions tuesdayEvening)%nat.
Proof.
  apply (streak_counts_today
           0 tuesdayEvening gapSessions
           (mkSession "s1" "algorithms" "Recursion" 60 1699952400000 true)).
  - left. reflexivity.
  - reflexivity.
  - vm_compute. reflexivity.
  - intros s' [<- | [<- | []]] _; vm_compute; discriminate.
Defined.

(** In a zone with a constant offset [startOfWeek] is a local midnight,
    falls on a Sunday, and the seven times 24 hours that start there
    contain [now]. *)
Lemma week_starts_on_latest_sunday (utcOffset now : Z) :
  getDay utcOffset (startOfWeek utcOffset now) = 0
  /\ setHours0 utcOffset (startOfWeek utcOffset now)
     = startOfWeek utcOffset now
  /\ startOfWeek utcOffset now <= now
     < startOfWeek utcOffset now + 7 * msPerDay.
Proof.
  assert (Hsow : startOfWeek utcOffset now
                 = (localDay utcOffset now - getDay utcOffset now)
                   * msPerDay - utcOffset).
  { unfold startOfWeek, setHours0, setDateBack, localDay.
    replace (now - getDay utcOffset now * msPerDay + utcOffset)
      with (now + utcOffset + (- getDay utcOffset now) * msPerDay) by ring.
    rewrite Z.div_add by (unfold msPerDay; lia). ring. }
  assert (Hday : localDay utcOffset (startOfWeek utcOffset now)
                 = localDay utcOffset now - getDay utcOffset now).
  { rewrite Hsow. unfold localDay at 1.
    replace ((localDay utcOffset now - getDay utcOffset now) * msPerDay
             - utcOffset + utcOffset)
      with (0 + (localDay utcOffset now - getDay utcOffset now) * msPerDay)
      by ring.
    rewrite Z.div_add by (unfold msPerDay; lia).
    rewrite Z.div_0_l by (unfold msPerDay; lia). ring. }
  pose proof (Z.mod_pos_bound (localDay utcOffset now + 4) 7 ltac:(lia))
    as Hdow.
  fold (getDay utcOffset now) in Hdow.
  split; [|split].
  - unfold getDay at 1. rewrite Hday. unfold getDay.
    set (d := localDay utcOffset now).
    pose proof (Z.div_mod (d + 4) 7 ltac:(lia)) as Hdm.
    replace (d - (d + 4) mod 7 + 4) with (0 + ((d + 4) / 7) * 7) by lia.
    rewrite Z.mod_add by lia. reflexivity.
  - unfold setHours0 at 1. rewrite Hday. symmetry. exact Hsow.
  - rewrite Hsow. unfold localDay, msPerDay in *.
    pose proof (Z.div_mod (now + utcOffset) 86400000 ltac:(lia)) as Hdm.
    pose proof (Z.mod_pos_bound (now + utcOffset) 86400000 ltac:(lia)).
    split; nia.
Qed.

Lemma week_progress_without_later_sessions_witness :
  current (fst (getWeekProgress 0 gapSessions someGoals tuesdayEvening))
  = Reference.weekMinutes 0 gapSessions tuesdayEvening.
Proof.
  apply week_progress_without_later_sessions.
  intros s [<- | [<- | []]] _; vm_compute; reflexivity.
Defined.
End StreakMoreFacts.

(* --------------------------------------------------------------------- *)
(** ** The host and the timer's callbacks *)
(* --------------------------------------------------------------------- *)

Section HostFacts.
Import DateModel GoalsAndStreaks StudyTimer Session App Inputs.

Lemma run_app (s : StudySession) (es1 es2 : list Event) :
  forall t : Timer,
    run s (es1 ++ es2) t
    = (fst (run s es2 (fst (run s es1 t))),
       (snd (run s es1 t) ++ snd (run s es2 (fst (run s es1 t))))%list).
Proof.
  induction es1 as [| e rest IH]; intros t.
  - cbn [app run fst snd]. destruct (run s es2 t). reflexivity.
  - cbn [app run].
    destruct (step s e t) as [t1 out1].
    rewrite IH.
    destruct (run s rest t1) as [t2 out2]. cbn [fst snd].
    rewrite app_assoc. reflexivity.
Qed.

Lemma markCompleted_of_completed (s : StudySession) :
  completed s = true -> markCompleted s = s.
Proof. destruct s; cbn; intros ->; reflexivity. Qed.

Lemma find_after_completion (sid : string) (l : list StudySession)
      (s : StudySession) :
  handleStartSession sid l = Some s ->
  id s = sid
  /\ handleStartSession sid (handleCompleteSession sid l)
     = Some (markCompleted s).
Proof.
  unfold handleStartSession, handleCompleteSession.
  induction l as [| x rest IH]; [discriminate|].
  cbn [find map].
  destruct (String.eqb_spec (id x) sid) as [Heq | Hne].
  - intros Hfound. injection Hfound as <-.
    cbn [markCompleted id]. rewrite Heq, String.eqb_refl. auto.
  - destruct (String.eqb_spec (id x) sid); [contradiction|]. exact IH.
Qed.

(** X14: Opening the timer on a listed session, letting a custom countdown of
    [d > 0] minutes run out and clicking Mark Complete leaves the host
    with the timer closed and with [handleCompleteSession] applied for
    that session's id: looking the id up again yields the same session,
    now completed. *)
Theorem timer_completion_reaches_host
        (h : Host) (sid : string) (s : StudySession) (bs : list bool) :
  handleStartSession sid (sessions h) = Some s ->
  0 < duration s ->
  List.length bs = Z.to_nat (duration s * 60) ->
  applyEffects {| sessions := sessions h; activeTimer := Some s |}
               (snd (run s ((Start :: map Tick bs) ++ [MarkComplete])
                         (initial s)))
  = {| sessions := handleCompleteSession sid (sessions h);
       activeTimer := None |}
  /\ handleStartSession sid (handleCompleteSession sid (sessions h))
     = Some (markCompleted s)
  /\ enabled MarkComplete
             (fst (run s (Start :: map Tick bs) (initial s))) = true.
Proof.
  intros Hfound Hpos Hlen.
  destruct (find_after_completion sid (sessions h) s Hfound) as [Hid Hnext].
  assert (Hrun : run s (Start :: map Tick bs) (initial s)
                 = ({| timerType := custom; mode := study;
                       state := StudyTimer.completed; timeLeft := 0;
                       totalTime := duration s * 60;
                       pomodoroCount := 0 |}, [])).
  { cbn [run step].
    rewrite (ticks_reach_completed s bs (handleStart (initial s))).
    - reflexivity.
    - reflexivity.
    - reflexivity.
    - intros Hnil. rewrite Hnil in Hlen. cbn [List.length] in Hlen. lia.
    - cbn [handleStart timeLeft initial]. rewrite Hlen. lia. }
  rewrite run_app, Hrun. cbn [fst snd run step app handleComplete].
  cbn [applyEffects fold_left applyEffect sessions activeTimer].
  rewrite Hid. repeat split; [exact Hnext].
Qed.

Lemma timer_completion_reaches_host_witness :
  sessions
    (applyEffects
       {| sessions := [oneMinuteSession]; activeTimer := Some oneMinuteSession |}
       (snd (run oneMinuteSession
                 ((Start :: map Tick (repeat false 60)) ++ [MarkComplete])
                 (initial oneMinuteSession))))
  = [markCompleted oneMinuteSession].
Proof.
  exact (f_equal sessions
           (proj1 (timer_completion_reaches_host
                     {| sessions := [oneMinuteSession]; activeTimer := None |}
                     "m1"%string oneMinuteSession (repeat false 60)
                     eq_refl eq_refl eq_refl))).
Defined.

Lemma applyEffects_without_onComplete (out : list Effect) :
  forall h : Host,
    (forall sid, ~ In (OnComplete sid) out) ->
    sessions (applyEffects h out) = sessions h.
Proof.
  unfold applyEffects.
  induction out as [| e rest IH]; intros h Hnone; [reflexivity|].
  cbn [fold_left]. rewrite IH.
  - destruct e as [sid |]; [|reflexivity].
    exfalso. apply (Hnone sid). left. reflexivity.
  - intros sid Hin. apply (Hnone sid). right. exact Hin.
Qed.

(** X15: Whatever else happens in the timer -- starting, pausing, resetting,
    stopping, breaks, ticks down to 0, closing -- the host's session list
    stays as it is unless Mark Complete is clicked. *)
Theorem timer_without_mark_complete_keeps_sessions
        (s : StudySession) (es : list Event) (t : Timer) (h : Host) :
  ~ In MarkComplete es ->
  sessions (applyEffects h (snd (run s es t))) = sessions h.
Proof.
  intros Hnone. apply applyEffects_without_onComplete.
  intros sid Hin.
  destruct (run_onComplete_needs_mark_complete s es t sid Hin) as [Hmem _].
  contradiction.
Qed.

Lemma timer_without_mark_complete_keeps_sessions_witness :
  sessions
    (applyEffects
       {| sessions := [oneMinuteSession]; activeTimer := Some oneMinuteSession |}
       (snd (run oneMinuteSession
                 (Start :: map Tick (repeat false 60) ++ [SkipBreak; CloseTimer])
                 (initial oneMinuteSession))))
  = [oneMinuteSession].
Proof.
  apply (timer_without_mark_complete_keeps_sessions
           oneMinuteSession
           (Start :: map Tick (repeat false 60) ++ [SkipBreak; CloseTimer])).
  intros Hin. cbn in Hin.
  repeat (destruct Hin as [Hin | Hin]; [discriminate|]). exact Hin.
Defined.

Lemma sumDuration_cons (s : StudySession) (l : list StudySession) :
  sumDuration (s :: l) = duration s + sumDuration l.
Proof. rewrite !sumDuration_fold_right. reflexivity. Qed.

(** X16: Completing a session through the host adds to today's minutes the
    durations of exactly the sessions with that id that were dated today
    and not yet completed (one session, when ids are unique), and leaves
    the target alone. *)
Theorem completion_adds_duration_to_today
        (utcOffset now : Z) (sid : string) (goals : Goals)
        (l : list StudySession) :
  current (getTodayProgress utcOffset (handleCompleteSession sid l)
                            goals now)
  = current (getTodayProgress utcOffset l goals now)
    + sumDuration
        (filter (fun s => String.eqb (id s) sid && negb (completed s)
                          && sameDateString utcOffset (startTime s) now)
                l)
  /\ target (getTodayProgress utcOffset (handleCompleteSession sid l)
                              goals now)
     = target (getTodayProgress utcOffset l goals now).
Proof.
  split; [|reflexivity].
  unfold getTodayProgress. cbn [current].
  induction l as [| x rest IH]; [reflexivity|].
  unfold handleCompleteSession in *. cbn [map filter].
  destruct (String.eqb (id x) sid) eqn:Hid.
  - cbn [markCompleted completed startTime andb].
    destruct (completed x) eqn:Hc;
      destruct (sameDateString utcOffset (startTime x) now) eqn:Hday;
      cbn [andb negb]; rewrite ?sumDuration_cons, IH;
      cbn [duration markCompleted]; lia.
  - cbn [andb].
    destruct (completed x && sameDateString utcOffset (startTime x) now);
      rewrite ?sumDuration_cons, IH; lia.
Qed.

(** X17: No operation on the host's list turns a completed session back into
    an uncompleted one.  Completing keeps every id in place and only
    raises flags; an edit keeps id and flag of every session; a created
    session is appended, uncompleted, behind an untouched list; deleting
    keeps exactly the sessions with another id. *)
Theorem host_never_uncompletes
        (sid nowText : string) (editing : StudySession)
        (data : SessionData) (prev : list StudySession) :
  Forall2 (fun before after =>
             id after = id before
             /\ (completed before = true -> after = before)
             /\ (completed after = false -> after = before))
          prev (handleCompleteSession sid prev)
  /\ Forall2 (fun before after =>
                id after = id before
                /\ completed after = completed before)
             prev (handleSaveSession (Some editing) nowText data prev)
  /\ handleSaveSession None nowText data prev
     = (prev ++ [withIdentity data nowText false])%list
  /\ (forall s, In s (handleDeleteSession sid prev)
                <-> In s prev /\ id s <> sid).
Proof.
  split; [|split; [|split]].
  - unfold handleCompleteSession.
    induction prev as [| x rest IH]; cbn [map]; constructor; [|exact IH].
    destruct (String.eqb (id x) sid).
    + split; [reflexivity|]. split.
      * apply markCompleted_of_completed.
      * cbn. discriminate.
    + auto.
  - unfold handleSaveSession.
    induction prev as [| x rest IH]; cbn [map]; constructor; [|exact IH].
    destruct (String.eqb (id x) (id editing)); split; reflexivity.
  - reflexivity.
  - intros s. unfold handleDeleteSession.
    rewrite filter_In, negb_true_iff, String.eqb_neq. reflexivity.
Qed.
End HostFacts.

(* --------------------------------------------------------------------- *)
(** ** Reminders *)
(* --------------------------------------------------------------------- *)

Section ReminderFacts.
Import Session NotificationManager Inputs MoreInputs.

Lemma minutesUntil_window (now r : Z) (s : StudySession) :
  (minutesUntil now s <=? r) && (0 <? minutesUntil now s) = true <->
  now + 60000 <= startTime s < now + (r + 1) * 60000.
Proof.
  unfold minutesUntil. change (1000 * 60) with 60000.
  rewrite andb_true_iff, Z.leb_le, Z.ltb_lt.
  pose proof (Z.div_mod (startTime s - now) 60000 ltac:(lia)) as Hdm.
  pose proof (Z.mod_pos_bound (startTime s - now) 60000 ltac:(lia)) as Hmod.
  split; intros [H1 H2]; split; nia.
Qed.

Lemma upcomingSessions_In (settings : NotificationSettings) (now : Z)
      (notified : list string) (sessions : list StudySession)
      (s : StudySession) :
  In s (upcomingSessions settings now notified sessions) <->
  In s sessions /\ completed s = false /\ has notified (id s) = false
  /\ now + 60000 <= startTime s
     < now + (reminderTime settings + 1) * 60000.
Proof.
  unfold upcomingSessions. rewrite filter_In.
  rewrite <- minutesUntil_window.
  destruct (completed s); cbn [orb].
  - split; [intros [_ H]; discriminate | intros [_ [H _]]; discriminate].
  - destruct (has notified (id s)).
    + split; [intros [_ H]; discriminate
             | intros [_ [_ [H _]]]; discriminate].
    + tauto.
Qed.

Lemma checkReminders_tag_fresh
      (settings : NotificationSettings) (atMount live : Permission)
      (now : Z) (notified : list string) (sessions : list StudySession)
      (n : Notification) :
  In n (fst (checkReminders settings atMount live now notified sessions)) ->
  has notified (tag n) = false.
Proof.
  unfold checkReminders. intros Hin.
  destruct (negb (enabled settings) || negb (isGranted atMount));
    [destruct Hin|].
  cbn [fst] in Hin. destruct (isGranted live); [|destruct Hin].
  apply in_map_iff in Hin as [s [Hn Hs]].
  apply upcomingSessions_In in Hs as [_ [_ [Hnot _]]].
  subst n. exact Hnot.
Qed.

(** X18: A reminder is shown only while the setting is enabled and both the
    permission read at mount time and the browser's current one are
    granted, and only for a session of the list that is not completed,
    has not been notified before, and starts at least one full minute
    and less than [reminderTime + 1] minutes from now; its tag is the
    session's id. *)
Theorem reminder_only_inside_window
        (settings : NotificationSettings) (atMount live : Permission)
        (now : Z) (notified : list string) (sessions : list StudySession)
        (n : Notification) :
  In n (fst (checkReminders settings atMount live now notified sessions)) ->
  enabled settings = true /\ atMount = granted /\ live = granted
  /\ exists s, In s sessions /\ n = reminderFor now s /\ tag n = id s
               /\ completed s = false /\ has notified (id s) = false
               /\ now + 60000 <= startTime s
                  < now + (reminderTime settings + 1) * 60000.
Proof.
  unfold checkReminders. intros Hin.
  destruct (enabled settings); [|cbn in Hin; contradiction].
  destruct atMount; cbn [isGranted negb orb] in Hin;
    try (cbn in Hin; contradiction).
  cbn [fst] in Hin.
  destruct live; cbn [isGranted] in Hin; try contradiction.
  apply in_map_iff in Hin as [s [Hn Hs]].
  apply upcomingSessions_In in Hs as [Hs [Hc [Hnot Hwin]]].
  split; [reflexivity|]. split; [reflexivity|]. split; [reflexivity|].
  exists s. subst n. cbn [reminderFor tag].
  repeat split; try assumption; lia.
Qed.

Lemma reminder_only_inside_window_witness :
  exists s, In s [oneMinuteSession]
            /\ quarterBefore + 60000 <= startTime s
               < quarterBefore + (reminderTime enabledSettings + 1) * 60000.
Proof.
  destruct (reminder_only_inside_window
              enabledSettings granted granted quarterBefore []
              [oneMinuteSession]
              (reminderFor quarterBefore oneMinuteSession)
              (or_introl eq_refl))
    as [_ [_ [_ [s [Hs [_ [_ [_ [_ Hwin]]]]]]]]].
  exists s. split; [exact Hs | exact Hwin].
Defined.

Lemma has_add (notified : list string) (x y : string) :
  has (add notified x) y = has notified y || String.eqb y x.
Proof.
  unfold add. destruct (has notified x) eqn:Hx.
  - destruct (String.eqb_spec y x) as [-> | Hne].
    + rewrite Hx. reflexivity.
    + rewrite orb_false_r. reflexivity.
  - unfold has. rewrite existsb_app. cbn [existsb].
    rewrite orb_false_r. reflexivity.
Qed.

Lemma has_fold_add (ids : list string) :
  forall (notified : list string) (y : string),
    has (fold_left add ids notified) y
    = has notified y || existsb (String.eqb y) ids.
Proof.
  induction ids as [| x rest IH]; intros notified y.
  - cbn. rewrite orb_false_r. reflexivity.
  - cbn [fold_left existsb]. rewrite IH, has_add, orb_assoc. reflexivity.
Qed.

(** X19: no session is reminded of twice.  Once a check has picked a
    session, its id is in the notified set the check leaves behind --
    also when the browser's permission was withdrawn and nothing was
    shown.  And a check that starts from a notified set holding an id
    shows no reminder with that tag, at whatever time and on whatever
    list, and leaves the id in the set: so neither does any later
    check. *)
Theorem reminder_is_shown_at_most_once
        (settings : NotificationSettings)
        (atMount live atMount' live' : Permission) (now now' : Z)
        (notified notified' : list string)
        (sessions sessions' : list StudySession)
        (s : StudySession) (n : Notification) :
  enabled settings = true -> atMount = granted ->
  In s (upcomingSessions settings now notified sessions) ->
  has (snd (checkReminders settings atMount live now notified sessions))
      (id s) = true
  /\ (has notified' (id s) = true ->
      has (snd (checkReminders settings atMount' live' now' notified'
                               sessions'))
          (id s) = true
      /\ (In n (fst (checkReminders settings atMount' live' now' notified'
                                    sessions')) ->
          tag n <> id s)).
Proof.
  intros Hen Hgr Hup. split.
  - unfold checkReminders. rewrite Hen, Hgr. cbn [isGranted negb orb snd].
    rewrite has_fold_add. apply orb_true_iff. right.
    apply existsb_exists. exists (id s). split.
    + apply in_map. exact Hup.
    + apply String.eqb_refl.
  - intros Hknown. split.
    + unfold checkReminders.
      destruct (negb (enabled settings) || negb (isGranted atMount'));
        cbn [snd]; [exact Hknown|].
      rewrite has_fold_add, Hknown. reflexivity.
    + intros Hin Htag.
      apply checkReminders_tag_fresh in Hin.
      rewrite Htag, Hknown in Hin. discriminate.
Qed.

Lemma reminder_is_shown_at_most_once_witness :
  has (snd (checkReminders enabledSettings granted denied quarterBefore []
                           [oneMinuteSession]))
      (id oneMinuteSession) = true.
Proof.
  refine (proj1 (reminder_is_shown_at_most_once
                   enabledSettings granted denied granted granted
                   quarterBefore (quarterBefore + 30000) [] []
                   [oneMinuteSession] [oneMinuteSession] oneMinuteSession
                   (reminderFor (quarterBefore + 30000) oneMinuteSession)
                   eq_refl eq_refl _)).
  vm_compute. left. reflexivity.
Defined.
End ReminderFacts.

(* --------------------------------------------------------------------- *)
(** ** Dashboard figures *)
(* --------------------------------------------------------------------- *)

Section DashboardFacts.
Import DateModel JsNumber Session Dashboard Inputs.

(** X20: The dashboard's completion percentage is guarded against a day
    without sessions: it is 0 then, and otherwise a number between 0 and
    100, the completed sessions being among today's. *)
Theorem dashboard_percentage_is_guarded
        (utcOffset now : Z) (sessions : list StudySession) :
  0 <= completedToday utcOffset sessions now
    <= totalToday utcOffset sessions now
  /\ (totalToday utcOffset sessions now = 0 ->
      progressPercentage utcOffset sessions now = Fin (inject_Z 0))
  /\ exists q, progressPercentage utcOffset sessions now = Fin q
               /\ (0 <= q <= inject_Z 100)%Q.
Proof.
  assert (Hle : 0 <= completedToday utcOffset sessions now
                <= totalToday utcOffset sessions now).
  { unfold completedToday, totalToday.
    pose proof (filter_length_le completed
                                 (todaySessions utcOffset sessions now)).
    lia. }
  split; [exact Hle|]. unfold progressPercentage. split.
  - intros Hzero. rewrite Hzero. reflexivity.
  - destruct (Z.ltb_spec 0 (totalToday utcOffset sessions now)) as [Hpos | _].
    + unfold div.
      destruct (Z.eqb_spec (totalToday utcOffset sessions now) 0); [lia|].
      cbn [times100]. eexists. split; [reflexivity|].
      apply scaled_ratio_bounds; lia.
    + exists (inject_Z 0). split; [reflexivity|].
      unfold Qle, inject_Z. cbn. lia.
Qed.

Lemma insertByStart_In (x y : StudySession) (l : list StudySession) :
  In y (insertByStart x l) <-> y = x \/ In y l.
Proof.
  induction l as [| z rest IH]; [cbn; intuition|].
  cbn [insertByStart].
  destruct (startTime x - startTime z <=? 0); cbn [In] in *; intuition.
Qed.

Lemma sortByStart_In (y : StudySession) (l : list StudySession) :
  In y (sortByStart l) <-> In y l.
Proof.
  induction l as [| x rest IH]; [reflexivity|].
  cbn [sortByStart fold_right]. fold (sortByStart rest).
  rewrite insertByStart_In, IH. cbn [In]. intuition.
Qed.

Lemma insertByStart_sorted (x : StudySession) (l : list StudySession) :
  StronglySorted startsNoLater l ->
  StronglySorted startsNoLater (insertByStart x l).
Proof.
  induction 1 as [| y rest Hsorted IH Hall].
  - cbn. constructor; constructor.
  - cbn [insertByStart].
    destruct (Z.leb_spec (startTime x - startTime y) 0) as [Hle | Hgt].
    + constructor; [constructor; assumption|].
      constructor; [unfold startsNoLater; lia|].
      eapply Forall_impl; [|exact Hall].
      unfold startsNoLater. intros z Hz. lia.
    + constructor; [exact IH|].
      apply Forall_forall. intros z Hz. apply insertByStart_In in Hz.
      destruct Hz as [-> | Hz]; [unfold startsNoLater; lia|].
      rewrite Forall_forall in Hall. exact (Hall z Hz).
Qed.

Lemma sortByStart_sorted (l : list StudySession) :
  StronglySorted startsNoLater (sortByStart l).
Proof.
  induction l as [| x rest IH]; [constructor|].
  cbn [sortByStart fold_right]. fold (sortByStart rest).
  apply insertByStart_sorted. exact IH.
Qed.

Lemma sorted_firstn_before_skipn (n : nat) (l : list StudySession) :
  StronglySorted startsNoLater l ->
  StronglySorted startsNoLater (firstn n l)
  /\ forall a b, In a (firstn n l) -> In b (skipn n l) -> startsNoLater a b.
Proof.
  intros Hsorted. revert n.
  induction Hsorted as [| x rest Hs IH Hall]; intros n.
  - rewrite firstn_nil, skipn_nil. split; [constructor | intros a b []].
  - destruct n as [| n]; cbn [firstn skipn].
    + split; [constructor | intros a b []].
    + destruct (IH n) as [Hfirst Hcross]. split.
      * constructor; [exact Hfirst|].
        rewrite Forall_forall in *. intros z Hz.
        apply Hall. rewrite <- (firstn_skipn n rest).
        apply in_or_app. left. exact Hz.
      * intros a b [<- | Ha] Hb.
        -- rewrite Forall_forall in Hall. apply Hall.
           rewrite <- (firstn_skipn n rest).
           apply in_or_app. right. exact Hb.
        -- exact (Hcross a b Ha Hb).
Qed.

(** X21: The dashboard's Upcoming list holds at most three sessions, in the
    order of their start times; each is one of today's sessions, not
    completed and starting after now; and every such session that is not
    listed starts no earlier than each of the listed ones. *)
Theorem dashboard_upcoming_are_next_three
        (utcOffset now : Z) (sessions : list StudySession) :
  (List.length (upcomingSessions utcOffset sessions now) <= 3)%nat
  /\ StronglySorted startsNoLater (upcomingSessions utcOffset sessions now)
  /\ (forall u, In u (upcomingSessions utcOffset sessions now) ->
                In u sessions /\ completed u = false /\ now < startTime u
                /\ sameDateString utcOffset (startTime u) now = true)
  /\ (forall c, In c sessions -> completed c = false -> now < startTime c ->
                sameDateString utcOffset (startTime c) now = true ->
                In c (upcomingSessions utcOffset sessions now)
                \/ forall u, In u (upcomingSessions utcOffset sessions now) ->
                             startTime u <= startTime c).
Proof.
  unfold upcomingSessions.
  set (candidates :=
         filter (fun s => negb (completed s) && (now <? startTime s))
                (todaySessions utcOffset sessions now)).
  assert (Hcand : forall s, In s candidates <->
                            In s sessions /\ completed s = false
                            /\ now < startTime s
                            /\ sameDateString utcOffset (startTime s) now
                               = true).
  { intros s. unfold candidates, todaySessions.
    rewrite !filter_In, andb_true_iff, negb_true_iff, Z.ltb_lt. tauto. }
  destruct (sorted_firstn_before_skipn 3 (sortByStart candidates)
              (sortByStart_sorted candidates)) as [Hsorted Hcross].
  split; [apply firstn_le_length|]. split; [exact Hsorted|]. split.
  - intros u Hu. apply Hcand. apply sortByStart_In.
    rewrite <- (firstn_skipn 3 (sortByStart candidates)).
    apply in_or_app. left. exact Hu.
  - intros c Hc Hopen Hlater Htoday.
    assert (Hin : In c (sortByStart candidates))
      by (apply sortByStart_In, Hcand; auto).
    rewrite <- (firstn_skipn 3 (sortByStart candidates)) in Hin.
    apply in_app_or in Hin as [Hin | Hin]; [left; exact Hin|].
    right. intros u Hu. exact (Hcross u c Hu Hin).
Qed.

Lemma minutesOf_app (l1 l2 : list StudySession) :
  Tally.minutesOf (l1 ++ l2) = Tally.minutesOf l1 + Tally.minutesOf l2.
Proof.
  unfold Tally.minutesOf. induction l1 as [| x rest IH]; [reflexivity|].
  cbn [app map fold_right]. rewrite IH. lia.
Qed.

(** What the rows say about the sessions processed so far. *)
Lemma bumpSubject_invariant (s : StudySession) (rows : list SubjectRow)
      (done : list StudySession) :
  NoDup (map rowSubject rows) ->
  (forall subj, In subj (map rowSubject rows)
                <-> exists x, In x done /\ subject x = subj) ->
  (forall row, In row rows ->
               rowDuration row
               = Tally.minutesOf (Tally.ofSubject (rowSubject row) done)
               /\ rowSessions row
                  = Z.of_nat (List.length
                                (Tally.ofSubject (rowSubject row) done))) ->
  NoDup (map rowSubject (bumpSubject s rows))
  /\ (forall subj, In subj (map rowSubject (bumpSubject s rows))
                   <-> exists x, In x (done ++ [s]) /\ subject x = subj)
  /\ (forall row, In row (bumpSubject s rows) ->
                  rowDuration row
                  = Tally.minutesOf
                      (Tally.ofSubject (rowSubject row) (done ++ [s]))
                  /\ rowSessions row
                     = Z.of_nat (List.length
                                   (Tally.ofSubject (rowSubject row)
                                                    (done ++ [s])))).
Proof.
  revert done. induction rows as [| r rest IH]; intros done Hnd Hmem Hrows.
  - cbn [bumpSubject map]. split; [|split].
    + constructor; [intros [] | constructor].
    + intros subj. cbn [In]. split.
      * intros [<- | []]. exists s. split; [|reflexivity].
        apply in_or_app. right. left. reflexivity.
      * intros [x [Hx Hsub]]. apply in_app_or in Hx as [Hx | [<- | []]].
        -- exfalso. apply (proj2 (Hmem (subject x))). exists x. auto.
        -- left. exact Hsub.
    + intros row [<- | []]. cbn [rowSubject rowDuration rowSessions].
      unfold Tally.ofSubject. rewrite filter_app. cbn [filter].
      rewrite String.eqb_refl.
      assert (Hnone : filter (fun x => String.eqb (subject x) (subject s))
                             done = []).
      { destruct (filter (fun x => String.eqb (subject x) (subject s)) done)
          as [| x l] eqn:Hf; [reflexivity|].
        exfalso. apply (proj2 (Hmem (subject s))).
        assert (Hx : In x (filter (fun x => String.eqb (subject x)
                                                       (subject s)) done))
          by (rewrite Hf; left; reflexivity).
        apply filter_In in Hx as [Hx Heq]. apply String.eqb_eq in Heq.
        exists x. auto. }
      rewrite Hnone. cbn. split; lia.
  - cbn [bumpSubject].
    destruct (String.eqb_spec (rowSubject r) (subject s)) as [Heq | Hne].
    + cbn [map rowSubject]. split; [exact Hnd|]. split.
      * intros subj. rewrite (Hmem subj). split.
        -- intros [x [Hx Hsub]]. exists x. split; [|exact Hsub].
           apply in_or_app. left. exact Hx.
        -- intros [x [Hx Hsub]].
           apply in_app_or in Hx as [Hx | [<- | []]]; [exists x; auto|].
           apply Hmem. left. congruence.
      * intros row [<- | Hrow].
        -- cbn [rowSubject rowDuration rowSessions].
           destruct (Hrows r (or_introl eq_refl)) as [Hd Hc].
           unfold Tally.ofSubject in *. rewrite filter_app. cbn [filter].
           rewrite Heq, String.eqb_refl, minutesOf_app, length_app.
           rewrite Heq in Hd, Hc. rewrite Hd, Hc.
           unfold Tally.minutesOf. cbn. lia.
        -- destruct (Hrows row (or_intror Hrow)) as [Hd Hc].
           assert (Hother : rowSubject row <> subject s).
           { intros Hsame. inversion Hnd as [| ? ? Hnotin _]; subst.
             apply Hnotin. rewrite Heq, <- Hsame.
             apply in_map. exact Hrow. }
           unfold Tally.ofSubject in *. rewrite filter_app. cbn [filter].
           destruct (String.eqb_spec (subject s) (rowSubject row));
             [congruence|].
           rewrite app_nil_r. auto.
    + inversion Hnd as [| ? ? Hnotin Hnd']; subst.
      assert (Hr : rowDuration r
                   = Tally.minutesOf
                       (Tally.ofSubject (rowSubject r) (done ++ [s]))
                   /\ rowSessions r
                      = Z.of_nat (List.length
                                    (Tally.ofSubject (rowSubject r)
                                                     (done ++ [s])))).
      { destruct (Hrows r (or_introl eq_refl)) as [Hd Hc].
        unfold Tally.ofSubject in *. rewrite filter_app. cbn [filter].
        destruct (String.eqb_spec (subject s) (rowSubject r));
          [congruence|].
        rewrite app_nil_r. auto. }
      (* the rest of the rows, seen as rows over the sessions of the
         other subjects *)
      set (others := filter (fun x => negb (String.eqb (subject x)
                                                       (rowSubject r)))
                            done).
      assert (Hfilter : forall subj, subj <> rowSubject r ->
                  forall l, Tally.ofSubject subj
                              (filter (fun x => negb (String.eqb
                                                        (subject x)
                                                        (rowSubject r))) l)
                            = Tally.ofSubject subj l).
      { intros subj Hsubj l. unfold Tally.ofSubject.
        induction l as [| x l IHl]; [reflexivity|].
        cbn [filter].
        destruct (String.eqb_spec (subject x) (rowSubject r)) as [Hx | Hx];
          cbn [negb filter].
        - destruct (String.eqb_spec (subject x) subj); [congruence|].
          exact IHl.
        - destruct (String.eqb (subject x) subj); rewrite IHl; reflexivity. }
      destruct (IH others Hnd') as [Hnd2 [Hmem2 Hrows2]].
      * intros subj. split.
        -- intros Hin.
           assert (Hsubj : subj <> rowSubject r) by congruence.
           destruct (proj1 (Hmem subj) (or_intror Hin)) as [x [Hx Hsub]].
           exists x. split; [|exact Hsub]. unfold others.
           rewrite filter_In, negb_true_iff, String.eqb_neq.
           split; [exact Hx | congruence].
        -- intros [x [Hx Hsub]]. unfold others in Hx.
           rewrite filter_In, negb_true_iff, String.eqb_neq in Hx.
           destruct Hx as [Hx Hxr].
           destruct (proj2 (Hmem subj)) as [Hhead | Htail];
             [exists x; auto | cbn in Hhead; congruence | exact Htail].
      * intros row Hrow.
        assert (Hsubj : rowSubject row <> rowSubject r).
        { intros Hsame. apply Hnotin. rewrite <- Hsame.
          apply in_map. exact Hrow. }
        unfold others. rewrite (Hfilter _ Hsubj).
        exact (Hrows row (or_intror Hrow)).
      * assert (Hothers : filter (fun x => negb (String.eqb (subject x)
                                                            (rowSubject r)))
                                 (done ++ [s])
                          = (others ++ [s])%list).
        { rewrite filter_app. cbn [filter].
          destruct (String.eqb_spec (subject s) (rowSubject r));
            [congruence|]. reflexivity. }
        cbn [map]. split; [|split].
        -- constructor; [|exact Hnd2].
           intros Hin. apply Hmem2 in Hin as [x [Hx Hsub]].
           apply in_app_or in Hx as [Hx | [<- | []]]; [|congruence].
           unfold others in Hx.
           rewrite filter_In, negb_true_iff, String.eqb_neq in Hx.
           tauto.
        -- intros subj. cbn [In]. rewrite Hmem2. split.
           ++ intros [<- | [x [Hx Hsub]]].
              ** destruct (proj1 (Hmem (rowSubject r)) (or_introl eq_refl))
                   as [x [Hx Hsub]].
                 exists x. split; [apply in_or_app; left; exact Hx|].
                 exact Hsub.
              ** exists x. split; [|exact Hsub].
                 apply in_app_or in Hx as [Hx | Hx];
                   apply in_or_app; [left | right; exact Hx].
                 unfold others in Hx. apply filter_In in Hx. tauto.
           ++ intros [x [Hx Hsub]].
              destruct (String.eqb_spec (subject x) (rowSubject r))
                as [Hxr | Hxr]; [left; congruence|].
              right. exists x. split; [|exact Hsub].
              rewrite <- Hothers.
              rewrite filter_In, negb_true_iff, String.eqb_neq. auto.
        -- intros row [<- | Hrow]; [exact Hr|].
           assert (Hsubj : rowSubject row <> rowSubject r).
           { intros Hsame. apply Hnotin. rewrite <- Hsame.
             assert (Hin : In (rowSubject row)
                              (map rowSubject (bumpSubject s rest)))
               by (apply in_map; exact Hrow).
             apply Hmem2 in Hin as [x [Hx Hsub]].
             apply in_app_or in Hx as [Hx | [<- | []]].
             ++ unfold others in Hx.
                rewrite filter_In, negb_true_iff, String.eqb_neq in Hx.
                exfalso. apply (proj2 Hx). congruence.
             ++ exfalso. congruence. }
           rewrite <- (Hfilter _ Hsubj (done ++ [s])), Hothers.
           exact (Hrows2 row Hrow).
Qed.

Lemma subject_rows_invariant (l : list StudySession) :
  forall (rows : list SubjectRow) (done : list StudySession),
    NoDup (map rowSubject rows) ->
    (forall subj, In subj (map rowSubject rows)
                  <-> exists x, In x done /\ subject x = subj) ->
    (forall row, In row rows ->
                 rowDuration row
                 = Tally.minutesOf (Tally.ofSubject (rowSubject row) done)
                 /\ rowSessions row
                    = Z.of_nat (List.length
                                  (Tally.ofSubject (rowSubject row) done))) ->
    let final := fold_left (fun rows session => bumpSubject session rows)
                           l rows in
    NoDup (map rowSubject final)
    /\ (forall subj, In subj (map rowSubject final)
                     <-> exists x, In x (done ++ l) /\ subject x = subj)
    /\ (forall row, In row final ->
                    rowDuration row
                    = Tally.minutesOf
                        (Tally.ofSubject (rowSubject row) (done ++ l))
                    /\ rowSessions row
                       = Z.of_nat (List.length
                                     (Tally.ofSubject (rowSubject row)
                                                      (done ++ l)))).
Proof.
  induction l as [| s rest IH]; intros rows done Hnd Hmem Hrows.
  - cbn [fold_left]. rewrite app_nil_r. auto.
  - cbn [fold_left].
    destruct (bumpSubject_invariant s rows done Hnd Hmem Hrows)
      as [Hnd1 [Hmem1 Hrows1]].
    specialize (IH (bumpSubject s rows) (done ++ [s])%list
                   Hnd1 Hmem1 Hrows1).
    rewrite <- app_assoc in IH. exact IH.
Qed.

(** X22: The subject table of the progress view has one row per subject that
    occurs among the completed sessions, no subject twice, and each row
    carries the number of completed sessions of its subject and the sum
    of their durations. *)
Theorem subject_rows_tally_completed_sessions
        (sessions : list StudySession) :
  NoDup (map rowSubject (getSubjectData sessions))
  /\ (forall subj,
         In subj (map rowSubject (getSubjectData sessions))
         <-> exists s, In s sessions /\ completed s = true
                       /\ subject s = subj)
  /\ (forall row,
         In row (getSubjectData sessions) ->
         rowDuration row
         = Tally.minutesOf
             (Tally.ofSubject (rowSubject row) (filter completed sessions))
         /\ rowSessions row
            = Z.of_nat
                (List.length
                   (Tally.ofSubject (rowSubject row)
                                    (filter completed sessions)))).
Proof.
  unfold getSubjectData, completedSessions.
  destruct (subject_rows_invariant (filter completed sessions) [] [])
    as [Hnd [Hmem Hrows]].
  - constructor.
  - intros subj. split; [intros [] | intros [x [[] _]]].
  - intros row [].
  - cbn [app] in Hmem, Hrows. split; [exact Hnd|]. split; [|exact Hrows].
    intros subj. rewrite Hmem. split.
    + intros [x [Hx Hsub]]. apply filter_In in Hx. exists x. tauto.
    + intros [x [Hx [Hc Hsub]]]. exists x. rewrite filter_In. tauto.
Qed.

(** X23: The three difficulty counters are the numbers of completed sessions
    of each difficulty, and together they count every completed session
    once. *)
Theorem difficulty_counters_partition_completed
        (sessions : list StudySession) :
  getDifficultyData sessions
  = (Z.of_nat (List.length (filter (isDifficulty easy)
                                   (filter completed sessions))),
     Z.of_nat (List.length (filter (isDifficulty medium)
                                   (filter completed sessions))),
     Z.of_nat (List.length (filter (isDifficulty hard)
                                   (filter completed sessions))))
  /\ (let '(e, m, h) := getDifficultyData sessions in e + m + h)
     = Z.of_nat (List.length (filter completed sessions)).
Proof.
  unfold getDifficultyData, completedSessions.
  assert (Hgen : forall l e m h,
             fold_left (fun '(e, m, h) s =>
                          match difficulty s with
                          | easy => (e + 1, m, h)
                          | medium => (e, m + 1, h)
                          | hard => (e, m, h + 1)
                          end) l (e, m, h)
             = (e + Z.of_nat (List.length (filter (isDifficulty easy) l)),
                m + Z.of_nat (List.length (filter (isDifficulty medium) l)),
                h + Z.of_nat (List.length (filter (isDifficulty hard) l)))).
  { induction l as [| s rest IH]; intros e m h.
    - cbn [fold_left filter List.length]. rewrite !Z.add_0_r. reflexivity.
    - cbn [fold_left filter].
      change (isDifficulty easy s)
        with (match difficulty s with easy => true | _ => false end).
      change (isDifficulty medium s)
        with (match difficulty s with medium => true | _ => false end).
      change (isDifficulty hard s)
        with (match difficulty s with hard => true | _ => false end).
      destruct (difficulty s); rewrite IH; cbn [List.length];
        rewrite Nat2Z.inj_succ;
        (apply f_equal2; [apply f_equal2|]); lia. }
  assert (Hsum : forall l,
             Z.of_nat (List.length (filter (isDifficulty easy) l))
             + Z.of_nat (List.length (filter (isDifficulty medium) l))
             + Z.of_nat (List.length (filter (isDifficulty hard) l))
             = Z.of_nat (List.length l)).
  { induction l as [| s rest IH]; [reflexivity|].
    cbn [filter].
    change (isDifficulty easy s)
      with (match difficulty s with easy => true | _ => false end).
    change (isDifficulty medium s)
      with (match difficulty s with medium => true | _ => false end).
    change (isDifficulty hard s)
      with (match difficulty s with hard => true | _ => false end).
    destruct (difficulty s); cbn [List.length];
      rewrite !Nat2Z.inj_succ; lia. }
  rewrite Hgen. cbn [Z.add]. split; [reflexivity|]. apply Hsum.
Qed.
End DashboardFacts.

(* --------------------------------------------------------------------- *)
(** ** More on the study plan *)
(* --------------------------------------------------------------------- *)

Section PlanMoreFacts.
Import JsString StudyPlan PlanEndpoint.
Local Open Scope string_scope.
Local Open Scope Z_scope.

Section LoopMore.
Variables (days per : Z) (allTopics : list string).
Hypothesis per_pos : 0 < per.

Lemma chunk_empty_iff (d : Z) :
  1 <= d ->
  (slice ((d - 1) * per)
         (Z.min ((d - 1) * per + per) (Z.of_nat (List.length allTopics)))
         allTopics = []
   <-> Z.of_nat (List.length allTopics) <= (d - 1) * per).
Proof.
  intros Hd. rewrite slice_is_next_chunk by nia.
  assert (Hstart : 0 <= (d - 1) * per) by nia.
  set (startIdx := (d - 1) * per) in *.
  split.
  - intros Hnil.
    destruct (Z.le_gt_cases (Z.of_nat (List.length allTopics))
                            startIdx) as [Hle | Hgt]; [exact Hle|].
    exfalso.
    assert (Hlen : List.length
                     (firstn (Z.to_nat per)
                             (skipn (Z.to_nat startIdx) allTopics))
                   = 0%nat) by (rewrite Hnil; reflexivity).
    rewrite length_firstn, length_skipn in Hlen. lia.
  - intros Hle. rewrite skipn_all2 by lia. apply firstn_nil.
Qed.

Lemma distribute_empty_beyond (fuel : nat) :
  forall d : Z,
    1 <= d ->
    Z.of_nat (List.length allTopics) <= (d - 1) * per ->
    distribute fuel d days per allTopics = [].
Proof.
  induction fuel as [| fuel IH]; intros d Hd Hbeyond; [reflexivity|].
  cbn [distribute].
  rewrite (proj2 (chunk_empty_iff d Hd) Hbeyond). cbn [List.length Nat.ltb Nat.leb].
  apply IH; nia.
Qed.

Lemma distribute_days_consecutive (fuel : nat) :
  forall d : Z,
    1 <= d ->
    map day (distribute fuel d days per allTopics)
    = map Z.of_nat
          (seq (Z.to_nat d)
               (List.length (distribute fuel d days per allTopics))).
Proof.
  induction fuel as [| fuel IH]; intros d Hd; [reflexivity|].
  cbn [distribute].
  match goal with
  | |- context [if (0 <? List.length ?c)%nat then _ else _] =>
      destruct (Nat.ltb_spec 0 (List.length c)) as [Hsome | Hnone];
      [|assert (Hnil : c = [])
          by (destruct c; [reflexivity | cbn in Hnone; lia])]
  end.
  - cbn [map day List.length seq]. rewrite IH by lia.
    replace (Z.to_nat (d + 1)) with (S (Z.to_nat d)) by lia.
    f_equal. lia.
  - apply chunk_empty_iff in Hnil; [|exact Hd].
    rewrite distribute_empty_beyond by nia. reflexivity.
Qed.

Lemma distribute_sizes (fuel : nat) :
  forall d : Z,
    1 <= d ->
    (List.length (distribute fuel d days per allTopics) <= fuel)%nat
    /\ Forall (fun p => Z.of_nat (List.length (topics p)) <= per)
              (distribute fuel d days per allTopics).
Proof.
  induction fuel as [| fuel IH]; intros d Hd.
  - split; [reflexivity | constructor].
  - cbn [distribute]. destruct (IH (d + 1) ltac:(lia)) as [Hlen Hall].
    match goal with
    | |- context [if ?c then _ else _] => destruct c
    end.
    + split; [cbn [List.length]; lia|].
      constructor; [|exact Hall]. cbn [topics].
      rewrite slice_is_next_chunk by nia.
      rewrite length_firstn. lia.
    + split; [lia | exact Hall].
Qed.
End LoopMore.

Lemma length_concat_bounds (per : Z) (plan : list PlanDay) :
  Forall (fun p => topics p <> []) plan ->
  Forall (fun p => Z.of_nat (List.length (topics p)) <= per) plan ->
  Z.of_nat (List.length plan)
  <= Z.of_nat (List.length (List.concat (map topics plan)))
  <= Z.of_nat (List.length plan) * per.
Proof.
  induction plan as [| p rest IH]; intros Hne Hle.
  - cbn. lia.
  - inversion Hne as [| ? ? Hp Hne']; subst.
    inversion Hle as [| ? ? Hq Hle']; subst.
    specialize (IH Hne' Hle').
    cbn [map List.concat List.length]. rewrite length_app.
    destruct (topics p) as [| t0 ts]; [contradiction|].
    cbn [List.length] in *. nia.
Qed.

(** X24: For [days >= 1] the plan's day numbers are 1, 2, ..., n without a
    gap, where n, the number of entries, is at most [days] and at most
    14; no entry has more than [ceil(14 / days)] topics, and n such
    entries are enough for the 14 topics.  A request for more than 14
    days is answered with 14 entries. *)
Theorem plan_days_are_consecutive (subject : string) (days : Z) :
  1 <= days ->
  map day (generateCSStudyPlan subject days)
  = map Z.of_nat
        (seq 1 (List.length (generateCSStudyPlan subject days)))
  /\ Z.of_nat (List.length (generateCSStudyPlan subject days)) <= days
  /\ Z.of_nat (List.length (generateCSStudyPlan subject days)) <= 14
  /\ Forall (fun p => Z.of_nat (List.length (topics p)) <= ceilDiv 14 days)
            (generateCSStudyPlan subject days)
  /\ 14 <= Z.of_nat (List.length (generateCSStudyPlan subject days))
           * ceilDiv 14 days
  /\ (14 <= days ->
      List.length (generateCSStudyPlan subject days) = 14%nat).
Proof.
  intros Hdays.
  destruct (selectTopics_cases subject) as [Hlen _].
  assert (Hper : 0 < ceilDiv 14 days /\ 14 <= days * ceilDiv 14 days)
    by (apply ceilDiv_covers; lia).
  destruct Hper as [Hper Hcover].
  assert (Hconcat : List.concat (map topics (generateCSStudyPlan subject days))
                    = selectTopics subject).
  { unfold generateCSStudyPlan. rewrite Hlen. change (Z.of_nat 14) with 14.
    rewrite distribute_concat by lia.
    change (Z.to_nat ((1 - 1) * ceilDiv 14 days)) with 0%nat. cbn [skipn].
    apply firstn_all2. rewrite Hlen. nia. }
  assert (Hsizes := distribute_sizes days (ceilDiv 14 days)
                                     (selectTopics subject) Hper
                                     (Z.to_nat days) 1 ltac:(lia)).
  assert (Hnonempty := distribute_topics_nonempty
                         days (ceilDiv 14 days) (selectTopics subject)
                         (Z.to_nat days) 1).
  assert (Hbounds := fun plan H1 H2 =>
                       length_concat_bounds (ceilDiv 14 days) plan H1 H2).
  unfold generateCSStudyPlan in *. rewrite Hlen in *.
  change (Z.of_nat 14) with 14 in *.
  destruct Hsizes as [Hfuel Hall].
  specialize (Hbounds _ Hnonempty Hall). rewrite Hconcat, Hlen in Hbounds.
  change (Z.of_nat 14) with 14 in Hbounds.
  split; [|split; [|split; [|split; [|split]]]].
  - rewrite (distribute_days_consecutive days (ceilDiv 14 days)
               (selectTopics subject) Hper (Z.to_nat days) 1) by lia.
    reflexivity.
  - lia.
  - lia.
  - exact Hall.
  - lia.
  - intros Hmany.
    assert (Hone : ceilDiv 14 days = 1).
    { unfold ceilDiv. cbn [Z.opp].
      rewrite <- (Z.div_unique (- 14) days (- 1) (days - 14)) by lia.
      reflexivity. }
    rewrite Hone in Hbounds |- *. lia.
Qed.

Lemma plan_days_are_consecutive_witness :
  map day (generateCSStudyPlan "Rust" 30)
  = map Z.of_nat (seq 1 (List.length (generateCSStudyPlan "Rust" 30))).
Proof.
  exact (proj1 (plan_days_are_consecutive "Rust" 30 ltac:(lia))).
Defined.

Lemma fourteen_elements {A : Type} (l : list A) :
  List.length l = 14%nat ->
  exists a b c d e f g h i j k m n o,
    l = [a; b; c; d; e; f; g; h; i; j; k; m; n; o].
Proof.
  intros Hlen.
  do 14 (destruct l as [| ? l]; [discriminate|]).
  destruct l; [|discriminate].
  repeat eexists.
Qed.

(** X25: The route answers a body without subject, or with an empty one, with
    the "Subject is required" error.  For any other subject a missing
    duration and a duration of 0 both mean 7 days, and the answer is a
    plan of exactly seven entries, days 1 to 7 with two topics each,
    labelled Foundation, three times Building Knowledge, twice Advanced
    Concepts and Review & Practice; a negative duration is answered with
    success and an empty plan. *)
Theorem plan_request_defaults_and_rejections
        (subject : string) (duration : option Z) :
  subject <> EmptyString ->
  handleGenerateStudyPlan None duration = BadRequest "Subject is required"
  /\ handleGenerateStudyPlan (Some EmptyString) duration
     = BadRequest "Subject is required"
  /\ handleGenerateStudyPlan (Some subject) duration
     = Success (generateCSStudyPlan subject (durationOrDefault duration))
               subject (durationOrDefault duration)
  /\ (duration = None \/ duration = Some 0 ->
      durationOrDefault duration = 7
      /\ map day (generateCSStudyPlan subject 7) = [1; 2; 3; 4; 5; 6; 7]
      /\ map (fun p => List.length (topics p))
             (generateCSStudyPlan subject 7)
         = [2; 2; 2; 2; 2; 2; 2]%nat
      /\ map focus (generateCSStudyPlan subject 7)
         = [ "Foundation"; "Building Knowledge"; "Building Knowledge";
             "Building Knowledge"; "Advanced Concepts"; "Advanced Concepts";
             "Review & Practice" ])
  /\ (forall d, duration = Some d -> d < 0 ->
                handleGenerateStudyPlan (Some subject) duration
                = Success [] subject d).
Proof.
  intros Hsubject.
  split; [reflexivity|]. split; [reflexivity|].
  assert (Hok : handleGenerateStudyPlan (Some subject) duration
                = Success (generateCSStudyPlan subject
                                               (durationOrDefault duration))
                          subject (durationOrDefault duration)).
  { unfold handleGenerateStudyPlan.
    destruct subject; [contradiction | reflexivity]. }
  split; [exact Hok|]. split.
  - intros Hdefault.
    split; [destruct Hdefault as [-> | ->]; reflexivity|].
    destruct (selectTopics_cases subject) as [Hlen _].
    destruct (fourteen_elements _ Hlen)
      as [a [b [c [d [e [f [g [h [i [j [k [m [n [o Hlist]]]]]]]]]]]]]].
    unfold generateCSStudyPlan. rewrite Hlist.
    repeat split; vm_compute; reflexivity.
  - intros d -> Hneg. rewrite Hok.
    assert (Hd : durationOrDefault (Some d) = d).
    { unfold durationOrDefault.
      destruct (Z.eqb_spec d 0); [lia | reflexivity]. }
    rewrite Hd. unfold generateCSStudyPlan.
    replace (Z.to_nat d) with 0%nat by lia. reflexivity.
Qed.

Lemma plan_request_defaults_and_rejections_witness :
  handleGenerateStudyPlan (Some "Compilers") None
  = Success (generateCSStudyPlan "Compilers" 7) "Compilers" 7.
Proof.
  exact (proj1 (proj2 (proj2 (plan_request_defaults_and_rejections
                                "Compilers" None ltac:(discriminate))))).
Defined.
End PlanMoreFacts.

(* --------------------------------------------------------------------- *)
(** ** More on the calendar export *)
(* --------------------------------------------------------------------- *)

Section ExportMoreFacts.
Import Session JsString CalendarExport CalendarText Inputs.
Local Open Scope string_scope.

Lemma unescape_escapeText (text : string) :
  unescapeFrom false (escapeText text) = text.
Proof.
  induction text as [| a rest IH]; [reflexivity|].
  rewrite escapeText_cons. unfold escapeChar.
  destruct (Ascii.eqb_spec a backslash) as [-> | Hbs];
    [cbn; rewrite IH; reflexivity|].
  destruct (Ascii.eqb_spec a ";"%char) as [-> | Hsemi];
    [cbn; rewrite IH; reflexivity|].
  destruct (Ascii.eqb_spec a ","%char) as [-> | Hcomma];
    [cbn; rewrite IH; reflexivity|].
  destruct (Ascii.eqb_spec a (ascii_of_nat 10)) as [-> | Hnl];
    [cbn; rewrite IH; reflexivity|].
  cbn [append unescapeFrom].
  destruct (Ascii.eqb_spec a backslash); [contradiction|].
  rewrite IH. reflexivity.
Qed.

(** X26: [escapeText] loses nothing: two texts with the same escaped form are
    the same text (escaping the backslash first is what keeps an original
    backslash-n apart from an escaped line feed). *)
Theorem escapeText_is_injective (a b : string) :
  escapeText a = escapeText b -> a = b.
Proof.
  intros Heq.
  rewrite <- (unescape_escapeText a), <- (unescape_escapeText b), Heq.
  reflexivity.
Qed.

Lemma escapeText_is_injective_witness :
  String backslash "n" = String backslash "n".
Proof.
  apply (escapeText_is_injective (String backslash "n")
                                 (String backslash "n")).
  reflexivity.
Defined.

(** X27: Escaped text is a well-formed value on a single line: every
    semicolon, comma and backslash of the output is preceded by an
    escaping backslash, and no line feed is left. *)
Theorem escapeText_output_is_escaped_single_line (text : string) :
  wellEscaped (escapeText text) = true
  /\ singleLine (escapeText text) = true.
Proof.
  split; [apply escapeText_wellEscaped|].
  unfold singleLine.
  induction text as [| a rest IH]; [reflexivity|].
  rewrite escapeText_cons. unfold escapeChar.
  destruct (Ascii.eqb_spec a backslash) as [-> | Hbs]; [exact IH|].
  destruct (Ascii.eqb_spec a ";"%char) as [-> | Hsemi]; [exact IH|].
  destruct (Ascii.eqb_spec a ","%char) as [-> | Hcomma]; [exact IH|].
  destruct (Ascii.eqb_spec a (ascii_of_nat 10)) as [-> | Hnl]; [exact IH|].
  cbn [append allChars]. unfold notLineFeed at 1.
  destruct (Ascii.eqb_spec a (ascii_of_nat 10)); [contradiction|].
  exact IH.
Qed.

Lemma allChars_app (p : ascii -> bool) (s1 s2 : string) :
  allChars p (s1 ++ s2) = allChars p s1 && allChars p s2.
Proof.
  induction s1 as [| a s1 IH]; [reflexivity|].
  cbn [append allChars]. rewrite IH, andb_assoc. reflexivity.
Qed.

Lemma allChars_weaken (p q : ascii -> bool) (s : string) :
  (forall a, p a = true -> q a = true) ->
  allChars p s = true -> allChars q s = true.
Proof.
  intros Hpq. induction s as [| a s IH]; [reflexivity|].
  cbn [allChars]. rewrite !andb_true_iff. intros [Ha Hs]. auto.
Qed.

Lemma plainChar_notLineFeed (a : ascii) :
  plainChar a = true -> notLineFeed a = true.
Proof.
  unfold plainChar, notLineFeed.
  destruct (Ascii.eqb a (ascii_of_nat 10)); [|reflexivity].
  rewrite !orb_true_r. intros H. exact H.
Qed.

Lemma digit_is_plain (k : nat) :
  (k < 10)%nat -> plainChar (ascii_of_nat (48 + k)) = true.
Proof.
  intros Hk.
  do 10 (destruct k as [| k]; [reflexivity|]). lia.
Qed.

Lemma padDigits_plain (width : nat) :
  forall n : Z, allChars plainChar (padDigits width n) = true.
Proof.
  induction width as [| w IH]; intros n; [reflexivity|].
  cbn [padDigits]. rewrite allChars_app, IH. cbn [allChars andb].
  rewrite digit_is_plain; [reflexivity|].
  pose proof (Z.mod_pos_bound n 10 ltac:(lia)). lia.
Qed.

Lemma string_length_app (s1 s2 : string) :
  String.length (s1 ++ s2) = (String.length s1 + String.length s2)%nat.
Proof.
  induction s1 as [| a s1 IH]; [reflexivity|].
  cbn [append String.length]. rewrite IH. reflexivity.
Qed.

Lemma length_padDigits (width : nat) :
  forall n : Z, String.length (padDigits width n) = width.
Proof.
  induction width as [| w IH]; intros n; [reflexivity|].
  cbn [padDigits]. rewrite string_length_app, IH. cbn. lia.
Qed.

Lemma dropDashColon_plain_app (a rest : string) :
  allChars plainChar a = true ->
  dropDashColon (a ++ rest) = a ++ dropDashColon rest.
Proof.
  induction a as [| c a IH]; [reflexivity|].
  cbn [allChars append dropDashColon]. rewrite andb_true_iff.
  intros [Hc Ha]. unfold plainChar in Hc.
  destruct (Ascii.eqb c "-"%char); [discriminate|].
  destruct (Ascii.eqb c ":"%char); [discriminate|].
  cbn [orb]. rewrite (IH Ha). reflexivity.
Qed.

Lemma beforeDot_plain_app (a rest : string) :
  allChars plainChar a = true ->
  beforeDot (a ++ rest) = a ++ beforeDot rest.
Proof.
  induction a as [| c a IH]; [reflexivity|].
  cbn [allChars append beforeDot]. rewrite andb_true_iff.
  intros [Hc Ha]. unfold plainChar in Hc.
  destruct (Ascii.eqb c "."%char); [rewrite !orb_true_r in Hc; discriminate|].
  rewrite (IH Ha). reflexivity.
Qed.

(** X28: For a date whose UTC year has four digits the stamp is the basic ISO
    form YYYYMMDDTHHMMSSZ of its UTC fields: 16 characters, the
    milliseconds dropped. *)
Theorem formatDate_is_basic_utc_stamp (t : Z) :
  0 <= year (utcFields t) <= 9999 ->
  formatDate t
  = padDigits 4 (year (utcFields t)) ++ padDigits 2 (month (utcFields t))
    ++ padDigits 2 (dayOfMonth (utcFields t)) ++ "T"
    ++ padDigits 2 (hours (utcFields t))
    ++ padDigits 2 (minutes (utcFields t))
    ++ padDigits 2 (seconds (utcFields t)) ++ "Z"
  /\ String.length (formatDate t) = 16%nat.
Proof.
  intros [Hlo Hhi].
  assert (Hshape :
            formatDate t
            = padDigits 4 (year (utcFields t))
              ++ padDigits 2 (month (utcFields t))
              ++ padDigits 2 (dayOfMonth (utcFields t)) ++ "T"
              ++ padDigits 2 (hours (utcFields t))
              ++ padDigits 2 (minutes (utcFields t))
              ++ padDigits 2 (seconds (utcFields t)) ++ "Z").
  { unfold formatDate, toISOString.
    destruct (Z.leb_spec 0 (year (utcFields t))); [|lia].
    destruct (Z.leb_spec (year (utcFields t)) 9999); [|lia].
    cbn [andb].
    repeat (rewrite dropDashColon_plain_app by apply padDigits_plain;
            cbn [append dropDashColon Ascii.eqb Bool.eqb orb andb]).
    repeat (rewrite beforeDot_plain_app by apply padDigits_plain;
            cbn [append beforeDot Ascii.eqb Bool.eqb orb andb]).
    rewrite !string_app_assoc. reflexivity. }
  split; [exact Hshape|].
  rewrite Hshape. rewrite !string_length_app, !length_padDigits.
  reflexivity.
Qed.

Lemma formatDate_is_basic_utc_stamp_witness :
  String.length (formatDate tuesdayEvening) = 16%nat.
Proof.
  apply formatDate_is_basic_utc_stamp. vm_compute. split; discriminate.
Defined.

Lemma escapeText_singleLine (text : string) :
  singleLine (escapeText text) = true.
Proof.
  unfold singleLine.
  induction text as [| a rest IH]; [reflexivity|].
  rewrite escapeText_cons. unfold escapeChar.
  destruct (Ascii.eqb_spec a backslash) as [-> | Hbs]; [exact IH|].
  destruct (Ascii.eqb_spec a ";"%char) as [-> | Hsemi]; [exact IH|].
  destruct (Ascii.eqb_spec a ","%char) as [-> | Hcomma]; [exact IH|].
  destruct (Ascii.eqb_spec a (ascii_of_nat 10)) as [-> | Hnl]; [exact IH|].
  cbn [append allChars]. unfold notLineFeed at 1.
  destruct (Ascii.eqb_spec a (ascii_of_nat 10)); [contradiction|].
  exact IH.
Qed.

Lemma singleLine_app (s1 s2 : string) :
  singleLine (s1 ++ s2) = singleLine s1 && singleLine s2.
Proof. apply allChars_app. Qed.

Lemma dropDashColon_keeps (p : ascii -> bool) (s : string) :
  allChars p s = true -> allChars p (dropDashColon s) = true.
Proof.
  induction s as [| a s IH]; [reflexivity|].
  cbn [allChars dropDashColon]. rewrite andb_true_iff. intros [Ha Hs].
  destruct (Ascii.eqb a "-"%char || Ascii.eqb a ":"%char); [auto|].
  cbn [allChars]. rewrite Ha. auto.
Qed.

Lemma beforeDot_keeps (p : ascii -> bool) (s : string) :
  allChars p s = true -> allChars p (beforeDot s) = true.
Proof.
  induction s as [| a s IH]; [reflexivity|].
  cbn [allChars beforeDot]. rewrite andb_true_iff. intros [Ha Hs].
  destruct (Ascii.eqb a "."%char); [reflexivity|].
  cbn [allChars]. rewrite Ha. auto.
Qed.

Lemma padDigits_singleLine (width : nat) (n : Z) :
  singleLine (padDigits width n) = true.
Proof.
  apply (allChars_weaken plainChar); [apply plainChar_notLineFeed|].
  apply padDigits_plain.
Qed.

Lemma formatDate_singleLine (t : Z) : singleLine (formatDate t) = true.
Proof.
  unfold formatDate. rewrite singleLine_app, andb_true_iff.
  split; [|reflexivity].
  apply beforeDot_keeps, dropDashColon_keeps.
  unfold toISOString. fold (singleLine).
  repeat (rewrite ?singleLine_app, ?padDigits_singleLine; cbn [andb]).
  destruct ((0 <=? year (utcFields t)) && (year (utcFields t) <=? 9999))%Z.
  - rewrite padDigits_singleLine. reflexivity.
  - rewrite singleLine_app, padDigits_singleLine.
    destruct (year (utcFields t) <? 0)%Z; reflexivity.
Qed.

Lemma join_cons_nonempty (sep x : string) (l : list string) :
  l <> [] -> join sep (x :: l) = x ++ sep ++ join sep l.
Proof. destruct l; [contradiction | reflexivity]. Qed.

Lemma join_singleLine (sep : string) (parts : list string) :
  singleLine sep = true ->
  Forall (fun part => singleLine part = true) parts ->
  singleLine (join sep parts) = true.
Proof.
  intros Hsep. induction 1 as [| x l Hx Hl IH]; [reflexivity|].
  destruct l as [| y l]; [exact Hx|].
  rewrite join_cons_nonempty by discriminate.
  rewrite !singleLine_app, Hx, Hsep, IH. reflexivity.
Qed.

Lemma join_app (sep : string) (l1 l2 : list string) :
  l1 <> [] -> l2 <> [] ->
  join sep (l1 ++ l2) = join sep l1 ++ sep ++ join sep l2.
Proof.
  intros H1 H2. induction l1 as [| x l1 IH]; [contradiction|].
  destruct l1 as [| y l1].
  - cbn [app]. rewrite join_cons_nonempty by exact H2. reflexivity.
  - change ((x :: y :: l1) ++ l2)%list with (x :: ((y :: l1) ++ l2))%list.
    rewrite join_cons_nonempty by discriminate.
    rewrite IH by discriminate.
    rewrite (join_cons_nonempty sep x (y :: l1)) by discriminate.
    rewrite !string_app_assoc. reflexivity.
Qed.

Lemma join_embed (sep : string) (before inner after : list string) :
  inner <> [] ->
  join sep (before ++ [join sep inner] ++ after)
  = join sep (before ++ inner ++ after).
Proof.
  intros Hinner. induction before as [| x before IH].
  - cbn [app]. destruct after as [| y after].
    + rewrite app_nil_r. reflexivity.
    + rewrite join_cons_nonempty by discriminate.
      rewrite join_app by (assumption || discriminate). reflexivity.
  - change ((x :: before) ++ [join sep inner] ++ after)%list
      with (x :: (before ++ [join sep inner] ++ after))%list.
    change ((x :: before) ++ inner ++ after)%list
      with (x :: (before ++ inner ++ after))%list.
    rewrite !join_cons_nonempty, IH; [reflexivity| |].
    + destruct before; [|discriminate].
      destruct inner; [contradiction | discriminate].
    + destruct before; discriminate.
Qed.

Lemma join_flatten (sep : string) (groups : list (list string)) :
  Forall (fun g => g <> []) groups ->
  join sep (map (join sep) groups) = join sep (List.concat groups).
Proof.
  induction 1 as [| g gs Hg Hgs IH]; [reflexivity|].
  cbn [map List.concat].
  destruct gs as [| g2 gs].
  - cbn [map List.concat]. rewrite app_nil_r. reflexivity.
  - rewrite join_cons_nonempty by discriminate.
    rewrite IH. rewrite join_app; [reflexivity | exact Hg |].
    inversion Hgs as [| ? ? Hg2 _]; subst.
    cbn [List.concat]. destruct g2; [contradiction | discriminate].
Qed.

Lemma splitLines_single (a : string) :
  forall cur rest,
    singleLine a = true ->
    splitLines cur (a ++ rest) = splitLines (cur ++ a) rest.
Proof.
  unfold singleLine.
  induction a as [| c a IH]; intros cur rest Ha.
  - cbn [append]. f_equal.
    induction cur as [| x cur IHc]; [reflexivity|].
    cbn [append]. rewrite <- IHc. reflexivity.
  - cbn [allChars] in Ha. apply andb_prop in Ha as [Hc Ha].
    cbn [append splitLines]. unfold notLineFeed in Hc.
    destruct (Ascii.eqb c (ascii_of_nat 10)); [discriminate|].
    rewrite IH by exact Ha. rewrite string_app_assoc. reflexivity.
Qed.

Lemma splitLines_join (ls : list string) :
  forall cur l,
    Forall (fun line => singleLine line = true) (l :: ls) ->
    splitLines cur (join newline (l :: ls)) = (cur ++ l) :: ls.
Proof.
  induction ls as [| l2 ls IH]; intros cur l Hall.
  - inversion Hall as [| ? ? Hl _]; subst.
    cbn [join String.concat].
    assert (Hnil : l = l ++ EmptyString).
    { clear. induction l as [| x l IHl]; [reflexivity|].
      cbn [append]. rewrite <- IHl. reflexivity. }
    rewrite Hnil at 1. rewrite splitLines_single by exact Hl. reflexivity.
  - inversion Hall as [| ? ? Hl Hrest]; subst.
    rewrite join_cons_nonempty by discriminate.
    rewrite splitLines_single by exact Hl.
    cbn [newline append splitLines].
    rewrite Ascii.eqb_refl. rewrite IH by exact Hrest. reflexivity.
Qed.

Lemma splitLines_lines (lines : list string) :
  lines <> [] ->
  Forall (fun line => singleLine line = true) lines ->
  splitLines EmptyString (join newline lines) = lines.
Proof.
  intros Hne Hall. destruct lines as [| l ls]; [contradiction|].
  rewrite splitLines_join by exact Hall. reflexivity.
Qed.

Lemma eventDescription_singleLine (s : StudySession) :
  singleLine (topic s) = true -> singleLine (eventDescription s) = true.
Proof.
  intros Htopic. unfold eventDescription.
  assert (Hesc : singleLine escapedNewline = true) by reflexivity.
  assert (H0 : singleLine ("Study session: " ++ topic s) = true)
    by (rewrite singleLine_app, Htopic; reflexivity).
  assert (H1 : singleLine
                 match description s with
                 | Some (String a rest) =>
                     ("Study session: " ++ topic s) ++ escapedNewline
                     ++ escapedNewline ++ escapeText (String a rest)
                 | _ => "Study session: " ++ topic s
                 end = true).
  { destruct (description s) as [[| a rest] |]; try exact H0.
    rewrite !singleLine_app, Htopic, Hesc, escapeText_singleLine.
    reflexivity. }
  set (d1 := match description s with
             | Some (String a rest) => _
             | _ => _
             end) in *.
  assert (H2 : singleLine
                 match goals s with
                 | Some (g :: gs) =>
                     d1 ++ escapedNewline ++ escapedNewline ++ "Goals:"
                     ++ escapedNewline
                     ++ join escapedNewline
                          (map (fun g => "- " ++ escapeText g) (g :: gs))
                 | _ => d1
                 end = true).
  { destruct (goals s) as [[| g gs] |]; try exact H1.
    rewrite !singleLine_app, H1, Hesc. cbn [andb].
    rewrite join_singleLine; [reflexivity | exact Hesc |].
    apply Forall_map, Forall_forall. intros x _.
    rewrite singleLine_app, escapeText_singleLine. reflexivity. }
  set (d2 := match goals s with
             | Some (g :: gs) => _
             | _ => _
             end) in *.
  rewrite !singleLine_app, H2, Hesc.
  destruct (difficulty s); reflexivity.
Qed.

Lemma eventLines_singleLine (now : Z) (s : StudySession) :
  singleLine (id s) = true -> singleLine (subject s) = true ->
  singleLine (topic s) = true ->
  Forall (fun line => singleLine line = true) (eventLines now s).
Proof.
  intros Hid Hsubject Htopic. unfold eventLines, alarmLines.
  cbn [List.app].
  repeat constructor;
    rewrite ?singleLine_app, ?formatDate_singleLine, ?Hid, ?Hsubject;
    try reflexivity.
  - unfold eventSummary. apply escapeText_singleLine.
  - apply eventDescription_singleLine. exact Htopic.
  - destruct (completed s); reflexivity.
  - unfold eventCategories.
    rewrite !singleLine_app, Hsubject. destruct (difficulty s); reflexivity.
Qed.

(** How often the structural lines occur among the fifteen lines of an
    event, whatever the field values are. *)
Lemma event_line_counts (uid stamp start finish summary descr status
                         categories : string) (target : string) :
  In target [ "BEGIN:VEVENT"; "END:VEVENT"; "TRIGGER:-PT15M";
              "BEGIN:VCALENDAR"; "END:VCALENDAR" ] ->
  List.length
    (filter (String.eqb target)
       [ "BEGIN:VEVENT"; "UID:" ++ uid; "DTSTAMP:" ++ stamp;
         "DTSTART:" ++ start; "DTEND:" ++ finish; "SUMMARY:" ++ summary;
         "DESCRIPTION:" ++ descr; "STATUS:" ++ status;
         "CATEGORIES:" ++ categories; "BEGIN:VALARM"; "TRIGGER:-PT15M";
         "DESCRIPTION:Study session starting in 15 minutes";
         "ACTION:DISPLAY"; "END:VALARM"; "END:VEVENT" ])
  = if String.eqb target "BEGIN:VCALENDAR"
       || String.eqb target "END:VCALENDAR"
    then 0%nat else 1%nat.
Proof.
  intros [<- | [<- | [<- | [<- | [<- | []]]]]]; reflexivity.
Qed.

Lemma count_in_blocks {A : Type} (f : string -> bool)
      (block : A -> list string) (c : nat) (l : list A) :
  (forall x, List.length (filter f (block x)) = c) ->
  List.length (filter f (List.concat (map block l)))
  = (c * List.length l)%nat.
Proof.
  intros Hc. induction l as [| x l IH]; [cbn; lia|].
  cbn [map List.concat List.length].
  rewrite filter_app, length_app, Hc, IH. lia.
Qed.

(** The text of the payload, its dates taken as formatted: when no id,
    subject or topic contains a line feed it is made of whole lines as
    written: one BEGIN:VCALENDAR and one END:VCALENDAR line, and per
    session exactly one BEGIN:VEVENT, one END:VEVENT and one
    TRIGGER:-PT15M line; for a non-empty list it has 6 + 15 * n lines. *)
Lemma payload_line_counts
        (now : Z) (sessions : list StudySession) :
  Forall (fun s => singleLine (id s) = true
                   /\ singleLine (subject s) = true
                   /\ singleLine (topic s) = true) sessions ->
  countLines "BEGIN:VEVENT" (generateICSContent now sessions)
  = List.length sessions
  /\ countLines "END:VEVENT" (generateICSContent now sessions)
     = List.length sessions
  /\ countLines "TRIGGER:-PT15M" (generateICSContent now sessions)
     = List.length sessions
  /\ countLines "BEGIN:VCALENDAR" (generateICSContent now sessions) = 1%nat
  /\ countLines "END:VCALENDAR" (generateICSContent now sessions) = 1%nat
  /\ (sessions <> [] ->
      List.length (splitLines EmptyString (generateICSContent now sessions))
      = (6 + 15 * List.length sessions)%nat).
Proof.
  intros Hclean.
  destruct sessions as [| s0 rest].
  { repeat split; try reflexivity. intros H. contradiction. }
  set (sessions := s0 :: rest) in *.
  set (header := [ "BEGIN:VCALENDAR"; "VERSION:2.0";
                   "PRODID:-//StudySmart//Study Scheduler//EN";
                   "CALSCALE:GREGORIAN"; "METHOD:PUBLISH" ]).
  set (blocks := List.concat (map (eventLines now) sessions)).
  assert (Hblocks : blocks <> []).
  { unfold blocks, sessions. cbn [map List.concat]. discriminate. }
  assert (Hpayload : generateICSContent now sessions
                     = join newline (header ++ blocks ++ ["END:VCALENDAR"])).
  { unfold generateICSContent.
    assert (Hevents : join newline (map (generateEvent now) sessions)
                      = join newline blocks).
    { unfold blocks. rewrite <- join_flatten.
      - rewrite map_map. reflexivity.
      - apply Forall_map, Forall_forall. intros x _. discriminate. }
    rewrite Hevents.
    exact (join_embed newline header blocks ["END:VCALENDAR"] Hblocks). }
  assert (Hsingle : Forall (fun line => singleLine line = true) blocks).
  { unfold blocks. apply Forall_concat, Forall_map.
    eapply Forall_impl; [|exact Hclean].
    intros s [Hid [Hsub Htop]]. apply eventLines_singleLine; assumption. }
  assert (Hlines : splitLines EmptyString (generateICSContent now sessions)
                   = (header ++ blocks ++ ["END:VCALENDAR"])%list).
  { rewrite Hpayload. apply splitLines_lines.
    - unfold header. discriminate.
    - apply Forall_app. split.
      + unfold header. repeat constructor.
      + apply Forall_app. split; [exact Hsingle|].
        constructor; [reflexivity | constructor]. }
  assert (Hcount : forall target,
             In target [ "BEGIN:VEVENT"; "END:VEVENT"; "TRIGGER:-PT15M";
                         "BEGIN:VCALENDAR"; "END:VCALENDAR" ] ->
             List.length (filter (String.eqb target) blocks)
             = ((if String.eqb target "BEGIN:VCALENDAR"
                    || String.eqb target "END:VCALENDAR"
                 then 0 else 1) * List.length sessions)%nat).
  { intros target Htarget. unfold blocks. apply count_in_blocks.
    intros x. unfold eventLines, alarmLines. cbn [List.app].
    apply event_line_counts. exact Htarget. }
  unfold countLines. rewrite Hlines.
  rewrite !filter_app, !length_app.
  rewrite !Hcount by (cbn; tauto).
  repeat split; try (cbn; lia).
  intros _. rewrite ?length_app.
  assert (Hlen : List.length blocks = (15 * List.length sessions)%nat).
  { unfold blocks. generalize sessions. intros l.
    induction l as [| x l IH]; [reflexivity|].
    cbn [map List.concat]. rewrite length_app, IH.
    change (List.length (eventLines now x)) with 15%nat.
    cbn [List.length]. lia. }
  rewrite Hlen. cbn. lia.
Qed.

End ExportMoreFacts.


(* --------------------------------------------------------------------- *)
(** ** Streak and week where the clocks change *)
(* --------------------------------------------------------------------- *)

Section ZoneFacts.
Import DateModel Session GoalsAndStreaks TimeZone.

(** In a zone with a constant offset the zone-generic functions are the
    ones used so far. *)
Lemma fixedOffset_agrees (utcOffset now t : Z)
      (sessions : list StudySession) :
  TimeZone.setHours0 (fixedOffset utcOffset) t
  = DateModel.setHours0 utcOffset t
  /\ TimeZone.getDay (fixedOffset utcOffset) t = DateModel.getDay utcOffset t
  /\ TimeZone.calculateStreak (fixedOffset utcOffset) sessions now
     = GoalsAndStreaks.calculateStreak utcOffset sessions now
  /\ TimeZone.startOfWeek (fixedOffset utcOffset) now
     = GoalsAndStreaks.startOfWeek utcOffset now.
Proof. repeat split. Qed.

Lemma fixedOffset_wellFormed (utcOffset : Z) :
  WellFormed (fixedOffset utcOffset).
Proof.
  constructor; cbn [fixedOffset zoneDay zoneDayStart zoneSetDate];
    unfold localDay, setDateBack, msPerDay.
  - intros t.
    pose proof (Z.div_mod (t + utcOffset) 86400000 ltac:(lia)).
    pose proof (Z.mod_pos_bound (t + utcOffset) 86400000 ltac:(lia)). lia.
  - intros t.
    pose proof (Z.div_mod (t + utcOffset) 86400000 ltac:(lia)).
    pose proof (Z.mod_pos_bound (t + utcOffset) 86400000 ltac:(lia)). lia.
  - intros d.
    replace (d * 86400000 - utcOffset + utcOffset) with (d * 86400000) by ring.
    apply Z.div_mul. lia.
  - intros t k.
    replace (t - k * 86400000 + utcOffset)
      with (t + utcOffset + (- k) * 86400000) by ring.
    rewrite Z.div_add by lia. ring.
Qed.

(** Reading a local time back gives the local time. *)
Lemma localOf_utcOfLocal (l : Z) : localOf (utcOfLocal l) = l.
Proof.
  unfold localOf, utcOfLocal, offsetAt.
  destruct (Z.ltb_spec l 1699149600000);
    match goal with
    | |- context [if ?c <? ?d then _ else _] => destruct (Z.ltb_spec c d)
    end; lia.
Qed.

Lemma utcOfLocal_localOf_le (t : Z) : utcOfLocal (localOf t) <= t.
Proof.
  unfold localOf, utcOfLocal, offsetAt.
  destruct (Z.ltb_spec t 1699164000000);
    match goal with
    | |- context [if ?c <? ?d then _ else _] => destruct (Z.ltb_spec c d)
    end; lia.
Qed.

Lemma utcOfLocal_mono (a b : Z) : a <= b -> utcOfLocal a <= utcOfLocal b.
Proof.
  intros Hab. unfold utcOfLocal.
  destruct (Z.ltb_spec a 1699149600000), (Z.ltb_spec b 1699149600000); lia.
Qed.

Lemma newYorkAutumn2023_wellFormed : WellFormed newYorkAutumn2023.
Proof.
  constructor; cbn [newYorkAutumn2023 zoneDay zoneDayStart zoneSetDate].
  - intros t.
    apply Z.le_trans with (utcOfLocal (localOf t));
      [|apply utcOfLocal_localOf_le].
    apply utcOfLocal_mono. unfold msPerDay.
    pose proof (Z.div_mod (localOf t) 86400000 ltac:(lia)).
    pose proof (Z.mod_pos_bound (localOf t) 86400000 ltac:(lia)). lia.
  - intros t. unfold msPerDay.
    pose proof (Z.div_mod (localOf t) 86400000 ltac:(lia)) as Hdm.
    pose proof (Z.mod_pos_bound (localOf t) 86400000 ltac:(lia)) as Hmod.
    set (d := localOf t / 86400000) in *.
    unfold utcOfLocal, localOf, offsetAt in *.
    destruct (Z.ltb_spec t 1699164000000);
      destruct (Z.ltb_spec ((d + 1) * 86400000) 1699149600000); lia.
  - intros d. rewrite localOf_utcOfLocal. apply Z.div_mul.
    unfold msPerDay. lia.
  - intros t k. rewrite localOf_utcOfLocal.
    replace (localOf t - k * msPerDay)
      with (localOf t + (- k) * msPerDay) by ring.
    rewrite Z.div_add by (unfold msPerDay; lia). ring.
Qed.

(** Later days begin later. *)
Lemma zoneDayStart_step (z : Zone) (d : Z) :
  WellFormed z -> zoneDayStart z d < zoneDayStart z (d + 1).
Proof.
  intros Hz.
  pose proof (day_end_gt z Hz (zoneDayStart z d)) as H.
  rewrite (day_of_start z Hz) in H. exact H.
Qed.

Lemma zoneDayStart_mono (z : Zone) (a b : Z) :
  WellFormed z -> a <= b -> zoneDayStart z a <= zoneDayStart z b.
Proof.
  intros Hz Hab.
  replace b with (a + Z.of_nat (Z.to_nat (b - a))) by lia.
  induction (Z.to_nat (b - a)) as [| n IH].
  - replace (a + Z.of_nat 0) with a by lia. lia.
  - pose proof (zoneDayStart_step z (a + Z.of_nat n) Hz) as Hstep.
    replace (a + Z.of_nat (S n)) with (a + Z.of_nat n + 1) by lia. lia.
Qed.

(** X12: In every zone whose local days are consecutive intervals of
    time, of whatever length, [startOfWeek] is a local midnight, falls on
    a Sunday, lies [getDay] (at most six) calendar days before today, and
    [now] lies between it and the local midnight seven calendar days
    after it. *)
Theorem week_starts_on_local_sunday (z : Zone) (now : Z) :
  WellFormed z ->
  TimeZone.getDay z (TimeZone.startOfWeek z now) = 0
  /\ TimeZone.setHours0 z (TimeZone.startOfWeek z now)
     = TimeZone.startOfWeek z now
  /\ zoneDay z (TimeZone.startOfWeek z now)
     = zoneDay z now - TimeZone.getDay z now
  /\ 0 <= TimeZone.getDay z now <= 6
  /\ TimeZone.startOfWeek z now <= now
     < zoneDayStart z (zoneDay z (TimeZone.startOfWeek z now) + 7).
Proof.
  intros Hz.
  assert (Hday : zoneDay z (TimeZone.startOfWeek z now)
                 = zoneDay z now - TimeZone.getDay z now).
  { unfold TimeZone.startOfWeek, TimeZone.setHours0.
    rewrite (day_of_start z Hz), (day_of_setDate z Hz). reflexivity. }
  assert (Hsow : TimeZone.startOfWeek z now
                 = zoneDayStart z (zoneDay z now - TimeZone.getDay z now)).
  { unfold TimeZone.startOfWeek, TimeZone.setHours0.
    rewrite (day_of_setDate z Hz). reflexivity. }
  pose proof (Z.mod_pos_bound (zoneDay z now + 4) 7 ltac:(lia)) as Hdow.
  fold (TimeZone.getDay z now) in Hdow.
  split; [|split; [|split; [|split]]].
  - unfold TimeZone.getDay at 1. rewrite Hday. unfold TimeZone.getDay.
    set (d := zoneDay z now).
    pose proof (Z.div_mod (d + 4) 7 ltac:(lia)) as Hdm.
    replace (d - (d + 4) mod 7 + 4) with (0 + ((d + 4) / 7) * 7) by lia.
    rewrite Z.mod_add by lia. reflexivity.
  - unfold TimeZone.setHours0 at 1. rewrite Hday. symmetry. exact Hsow.
  - exact Hday.
  - lia.
  - rewrite Hday, Hsow. split.
    + apply Z.le_trans with (zoneDayStart z (zoneDay z now)).
      * apply zoneDayStart_mono; [exact Hz | lia].
      * apply (day_start_le z Hz).
    + apply Z.lt_le_trans with (zoneDayStart z (zoneDay z now + 1)).
      * apply (day_end_gt z Hz).
      * apply zoneDayStart_mono; [exact Hz | lia].
Qed.

(** On Saturday 2023-11-11 23:30 in New York the week began on Sunday
    2023-11-05 00:00 local, which is 04:00 UTC; the week that holds the
    end of daylight saving time is 169 hours long, and seven times 24
    hours after its start are over. *)
Lemma week_starts_on_local_sunday_witness :
  (TimeZone.getDay newYorkAutumn2023
     (TimeZone.startOfWeek newYorkAutumn2023 saturdayNight) = 0
   /\ TimeZone.setHours0 newYorkAutumn2023
        (TimeZone.startOfWeek newYorkAutumn2023 saturdayNight)
      = TimeZone.startOfWeek newYorkAutumn2023 saturdayNight
   /\ zoneDay newYorkAutumn2023
        (TimeZone.startOfWeek newYorkAutumn2023 saturdayNight)
      = zoneDay newYorkAutumn2023 saturdayNight
        - TimeZone.getDay newYorkAutumn2023 saturdayNight
   /\ 0 <= TimeZone.getDay newYorkAutumn2023 saturdayNight <= 6
   /\ TimeZone.startOfWeek newYorkAutumn2023 saturdayNight <= saturdayNight
      < zoneDayStart newYorkAutumn2023
          (zoneDay newYorkAutumn2023
             (TimeZone.startOfWeek newYorkAutumn2023 saturdayNight) + 7))
  /\ TimeZone.startOfWeek newYorkAutumn2023 saturdayNight = 1699156800000
  /\ zoneDayStart newYorkAutumn2023
       (zoneDay newYorkAutumn2023
          (TimeZone.startOfWeek newYorkAutumn2023 saturdayNight) + 7)
     = 1699156800000 + 169 * 3600000
  /\ 1699156800000 + 7 * msPerDay <= saturdayNight.
Proof.
  split.
  - exact (week_starts_on_local_sunday newYorkAutumn2023 saturdayNight
             newYorkAutumn2023_wellFormed).
  - repeat split; vm_compute; congruence.
Defined.

(** X30: Completed sessions today and yesterday and on no other day, in
    any zone in which yesterday began before today: the streak is 2 when
    yesterday's local midnight lies exactly 24 hours (or 48 hours) before
    today's, and 1 otherwise -- the day after the clocks were changed
    yesterday is not counted. *)
Theorem streak_today_and_yesterday_in_zone (z : Zone) (now : Z)
        (sessions : list StudySession) :
  zoneDayStart z (zoneDay z now - 1) < zoneDayStart z (zoneDay z now) ->
  (exists s, In s sessions /\ completed s = true
             /\ zoneDay z (startTime s) = zoneDay z now) ->
  (exists s, In s sessions /\ completed s = true
             /\ zoneDay z (startTime s) = zoneDay z now - 1) ->
  (forall s, In s sessions -> completed s = true ->
             zoneDay z (startTime s) = zoneDay z now
             \/ zoneDay z (startTime s) = zoneDay z now - 1) ->
  TimeZone.calculateStreak z sessions now
  = if (zoneDayStart z (zoneDay z now - 1)
        =? zoneDayStart z (zoneDay z now) - 86400000)
       || (zoneDayStart z (zoneDay z now - 1)
           =? zoneDayStart z (zoneDay z now) - 2 * 86400000)
    then 2%nat else 1%nat.
Proof.
  intros Hlt [s1 [Hin1 [Hc1 Hd1]]] [s2 [Hin2 [Hc2 Hd2]]] Honly.
  set (today := zoneDayStart z (zoneDay z now)) in *.
  set (yesterday := zoneDayStart z (zoneDay z now - 1)) in *.
  assert (Hdates : TimeZone.completedDates z sessions = [today; yesterday]
                   \/ TimeZone.completedDates z sessions
                      = [yesterday; today]).
  { apply two_values_list.
    - lia.
    - apply setOf_NoDup.
    - intros x Hx. unfold TimeZone.completedDates in Hx.
      rewrite setOf_In, in_map_iff in Hx.
      destruct Hx as [s [Hs Hins]]. rewrite filter_In in Hins.
      destruct Hins as [Hins Hcs].
      subst x. unfold TimeZone.setHours0.
      destruct (Honly s Hins Hcs) as [Hd | Hd]; rewrite Hd; auto.
    - unfold TimeZone.completedDates. rewrite setOf_In, in_map_iff.
      exists s1. split; [|rewrite filter_In; tauto].
      unfold TimeZone.setHours0. rewrite Hd1. reflexivity.
    - unfold TimeZone.completedDates. rewrite setOf_In, in_map_iff.
      exists s2. split; [|rewrite filter_In; tauto].
      unfold TimeZone.setHours0. rewrite Hd2. reflexivity. }
  assert (Hsorted : sortBy (fun a b => b - a)
                           (TimeZone.completedDates z sessions)
                    = [today; yesterday]).
  { destruct Hdates as [Hd | Hd]; rewrite Hd;
      cbn [sortBy fold_right insertBy].
    - destruct (Z.leb_spec (yesterday - today) 0); [reflexivity|lia].
    - destruct (Z.leb_spec (today - yesterday) 0); [lia|reflexivity]. }
  unfold TimeZone.calculateStreak, TimeZone.setHours0. fold today.
  rewrite Hsorted.
  cbn [List.length Nat.eqb streakLoop].
  rewrite Z.eqb_refl. cbn [orb].
  replace (today - 86400000 - 86400000) with (today - 2 * 86400000) by lia.
  destruct ((yesterday =? today - 86400000)
            || (yesterday =? today - 2 * 86400000)); reflexivity.
Qed.

(** New York, Monday 2023-11-06, with completed sessions on that Monday
    and on the Sunday before, the day the clocks were set back: the two
    local midnights are 25 hours apart and the streak shown is 1. *)
Lemma streak_today_and_yesterday_in_zone_witness :
  TimeZone.calculateStreak newYorkAutumn2023 clockChangeSessions
                           mondayEvening
  = 1%nat.
Proof.
  apply (streak_today_and_yesterday_in_zone
           newYorkAutumn2023 mondayEvening clockChangeSessions).
  - reflexivity.
  - eexists. split; [right; left; reflexivity|]. split; reflexivity.
  - eexists. split; [left; reflexivity|]. split; reflexivity.
  - intros s [<- | [<- | []]] _; vm_compute; auto.
Defined.
End ZoneFacts.

(* --------------------------------------------------------------------- *)
(** ** The export and the range of dates *)
(* --------------------------------------------------------------------- *)

Section ExportRangeFacts.
Import Session JsString CalendarExport CalendarText Inputs.
Import CalendarExportChecked.
Local Open Scope string_scope.
Local Open Scope Z_scope.

(** With its three dates in range an event is the text written so far. *)
Lemma generateEvent_in_range (now : Z) (s : StudySession) :
  datesInRange now s = true ->
  CalendarExportChecked.generateEvent now s
  = Some (CalendarExport.generateEvent now s).
Proof.
  unfold datesInRange. intros H.
  apply andb_prop in H. destruct H as [H Hend].
  apply andb_prop in H. destruct H as [Hnow Hstart].
  unfold CalendarExportChecked.generateEvent, newDate.
  rewrite Hnow, Hstart, Hend. reflexivity.
Qed.

(** With one of them out of range [toISOString] throws. *)
Lemma generateEvent_out_of_range (now : Z) (s : StudySession) :
  datesInRange now s = false ->
  CalendarExportChecked.generateEvent now s = None.
Proof.
  unfold datesInRange, CalendarExportChecked.generateEvent, newDate.
  intros H.
  destruct (validTime now); [|reflexivity].
  destruct (validTime (startTime s)); [|reflexivity].
  cbn [andb] in H. rewrite H. reflexivity.
Qed.

Lemma generateEvents_in_range (now : Z) (sessions : list StudySession) :
  forallb (datesInRange now) sessions = true ->
  generateEvents now sessions
  = Some (map (CalendarExport.generateEvent now) sessions).
Proof.
  induction sessions as [| s rest IH]; [reflexivity|].
  cbn [forallb generateEvents map]. intros H.
  apply andb_prop in H. destruct H as [Hs Hrest].
  rewrite (generateEvent_in_range now s Hs), (IH Hrest). reflexivity.
Qed.

Lemma generateEvents_out_of_range (now : Z) (sessions : list StudySession) :
  forallb (datesInRange now) sessions = false ->
  generateEvents now sessions = None.
Proof.
  induction sessions as [| s rest IH]; [discriminate|].
  cbn [forallb generateEvents]. intros H.
  destruct (datesInRange now s) eqn:Hs.
  - cbn [andb] in H. rewrite (IH H).
    destruct (CalendarExportChecked.generateEvent now s); reflexivity.
  - rewrite (generateEvent_out_of_range now s Hs). reflexivity.
Qed.

(** X29: When no id, subject or topic contains a line feed: if for every
    session the export time, the start and the end are in the range of
    [Date], the export returns a payload with one BEGIN:VCALENDAR and one
    END:VCALENDAR line and per session exactly one BEGIN:VEVENT, one
    END:VEVENT and one TRIGGER:-PT15M line, 6 + 15 * n lines for a
    non-empty list; if for some session one of the three dates is out of
    range, the export throws and returns no payload. *)
Theorem export_in_date_range_has_one_event_block_per_session
        (now : Z) (sessions : list StudySession) :
  Forall (fun s => singleLine (id s) = true
                   /\ singleLine (subject s) = true
                   /\ singleLine (topic s) = true) sessions ->
  (forallb (datesInRange now) sessions = true ->
   exists payload,
     CalendarExportChecked.generateICSContent now sessions = Some payload
     /\ countLines "BEGIN:VEVENT" payload = List.length sessions
     /\ countLines "END:VEVENT" payload = List.length sessions
     /\ countLines "TRIGGER:-PT15M" payload = List.length sessions
     /\ countLines "BEGIN:VCALENDAR" payload = 1%nat
     /\ countLines "END:VCALENDAR" payload = 1%nat
     /\ (sessions <> [] ->
         List.length (splitLines EmptyString payload)
         = (6 + 15 * List.length sessions)%nat))
  /\ (forallb (datesInRange now) sessions = false ->
      CalendarExportChecked.generateICSContent now sessions = None).
Proof.
  intros Hclean. split.
  - intros Hrange.
    exists (CalendarExport.generateICSContent now sessions). split.
    + unfold CalendarExportChecked.generateICSContent.
      rewrite (generateEvents_in_range now sessions Hrange). reflexivity.
    + exact (payload_line_counts now sessions Hclean).
  - intros Hrange. unfold CalendarExportChecked.generateICSContent.
    rewrite (generateEvents_out_of_range now sessions Hrange). reflexivity.
Qed.

Lemma export_in_date_range_has_one_event_block_per_session_witness :
  (exists payload,
     CalendarExportChecked.generateICSContent
       tuesdayEvening [treesSession; oneMinuteSession] = Some payload
     /\ countLines "BEGIN:VEVENT" payload = 2%nat)
  /\ CalendarExportChecked.generateICSContent
       tuesdayEvening [treesSession; lastDaySession] = None.
Proof.
  split.
  - destruct (export_in_date_range_has_one_event_block_per_session
                tuesdayEvening [treesSession; oneMinuteSession])
      as [Hreturns _]; [repeat constructor|].
    destruct (Hreturns eq_refl) as [payload [Hpayload [Hcount _]]].
    exists payload. split; [exact Hpayload | exact Hcount].
  - apply (export_in_date_range_has_one_event_block_per_session
             tuesdayEvening [treesSession; lastDaySession]).
    + repeat constructor.
    + reflexivity.
Defined.
End ExportRangeFacts.
